(** * SWEN AI routing engine: placement, approval gates and drift monitor

    A shallow embedding of [src/ai-engine/main.py] (class [AIRoutingEngine])
    and the properties of its placement scoring, approval workflow, change
    plans and drift monitor.

    Modelling conventions.
    - Python [float]s are exact rationals ([Q]); rounding is not modelled.
      The concrete inputs used below are chosen so that the comparisons they
      exercise are far from any rounding boundary, or compare values that
      the code computes by the same operations on the same operands.  A
      float division by zero raises [ZeroDivisionError], as in Python.
      What is stated about the order of costs and scores is stated in the
      direction that every rounded operation keeps (a provider that is not
      dearer does not score lower), and what needs a non-zero divisor
      assumes it of the cost that the code computes, not of the price: a
      float product of positive factors can be zero.
    - Python [dict]s keep insertion order and are association lists with
      Python's update-in-place [dict_set]; a well-formed dict has no
      duplicate key.
    - Methods that mutate [self] or have outside effects run in a small
      state-and-exception monad [M] over the record [Engine].  The ghost
      field [trace] records what leaves the process: Terraform runs, webhook
      alerts, and the log records of level WARNING and ERROR.  [logger.info]
      lines (the approval notifications are such lines) and Prometheus
      counters are not recorded.
    - [datetime.now()] reads and advances the logical [clock].
    - The deployment thread started by [approve_workload] is run at the point
      where it is started (the order of the synchronous fallback in the
      source). *)

From Stdlib Require Import ZArith QArith Qabs Qminmax Lqa Lia.
From Stdlib Require Import List String Ascii Bool.
Import ListNotations.

Open Scope string_scope.
Open Scope list_scope.
Open Scope Q_scope.

(** ** Python layer *)

Module Py.

(** The exceptions the modelled code can raise. *)
Inductive exn : Type :=
| ValueError
| ZeroDivisionError
| KeyError (key : string)
| IndexError
| TypeError
| ModelError.

Inductive result (A : Type) : Type :=
| Ok (a : A)
| Raise (e : exn).
Arguments Ok {A} a.
Arguments Raise {A} e.

Definition rbind {A B} (r : result A) (k : A -> result B) : result B :=
  match r with
  | Ok a => k a
  | Raise e => Raise e
  end.

(** [for x in xs: acc = body x acc] for a body that touches no state. *)
Fixpoint rfor {A B} (xs : list A) (body : A -> B -> result B) (acc : B) : result B :=
  match xs with
  | [] => Ok acc
  | x :: xs' => rbind (body x acc) (rfor xs' body)
  end.

(** [dict]: insertion-ordered association list. *)
Definition dict (V : Type) : Type := list (string * V).

Fixpoint dict_get {V} (d : dict V) (k : string) : option V :=
  match d with
  | [] => None
  | (k', v) :: d' => if String.eqb k' k then Some v else dict_get d' k
  end.

(** [d[k] = v]: an existing key keeps its position, a new key goes last. *)
Fixpoint dict_set {V} (d : dict V) (k : string) (v : V) : dict V :=
  match d with
  | [] => [(k, v)]
  | (k', v') :: d' =>
      if String.eqb k' k then (k', v) :: d' else (k', v') :: dict_set d' k v
  end.

Definition keys {V} (d : dict V) : list string := map fst d.

(** [d.get(k, default)] *)
Definition get_default {V} (d : dict V) (k : string) (default : V) : V :=
  match dict_get d k with
  | Some v => v
  | None => default
  end.

(** [d[k]], raising [KeyError]. *)
Definition subscript {V} (d : dict V) (k : string) : result V :=
  match dict_get d k with
  | Some v => Ok v
  | None => Raise (KeyError k)
  end.

Definition Qltb (x y : Q) : bool := negb (Qle_bool y x).

(** [a / b] on floats. *)
Definition div (a b : Q) : result Q :=
  if Qeq_bool b 0 then Raise ZeroDivisionError else Ok (a / b).

(** [max(xs, key=key)]: the first element whose key is not exceeded;
    [ValueError] on an empty sequence. *)
Fixpoint max_from {A} (key : A -> Q) (best : A) (xs : list A) : A :=
  match xs with
  | [] => best
  | x :: xs' => max_from key (if Qltb (key best) (key x) then x else best) xs'
  end.

Definition max_by {A} (key : A -> Q) (xs : list A) : result A :=
  match xs with
  | [] => Raise ValueError
  | x :: xs' => Ok (max_from key x xs')
  end.

(** [min(xs, key=key)]: the first element whose key is minimal. *)
Fixpoint min_from {A} (key : A -> Q) (best : A) (xs : list A) : A :=
  match xs with
  | [] => best
  | x :: xs' => min_from key (if Qltb (key x) (key best) then x else best) xs'
  end.

Definition min_by {A} (key : A -> Q) (xs : list A) : result A :=
  match xs with
  | [] => Raise ValueError
  | x :: xs' => Ok (min_from key x xs')
  end.

(** Two-argument [min(a, b)] and [max(a, b)]: the first argument wins ties. *)
Definition min2 (a b : Q) : Q := if Qltb b a then b else a.
Definition max2Z (a b : Z) : Z := if (a <? b)%Z then b else a.

(** [str.lower()] and [str.upper()] on the ASCII range. *)
Definition ascii_lower (c : ascii) : ascii :=
  let n := nat_of_ascii c in
  if (65 <=? n)%nat && (n <=? 90)%nat then ascii_of_nat (n + 32) else c.

Definition ascii_upper (c : ascii) : ascii :=
  let n := nat_of_ascii c in
  if (97 <=? n)%nat && (n <=? 122)%nat then ascii_of_nat (n - 32) else c.

Fixpoint lower (s : string) : string :=
  match s with
  | EmptyString => EmptyString
  | String c s' => String (ascii_lower c) (lower s')
  end.

Fixpoint upper (s : string) : string :=
  match s with
  | EmptyString => EmptyString
  | String c s' => String (ascii_upper c) (upper s')
  end.

End Py.
Import Py.

(** ** Data model *)

(** [@dataclass Workload] *)
Record Workload : Type := mkWorkload {
  id : string;
  cpu_cores : Z;
  memory_gb : Z;
  priority : string;
  cost_sensitivity : Q;
  latency_sensitivity : Q;
  estimated_duration_hours : Q
}.

(** A provider state dict, as built by [_get_default_provider_states] and the
    telemetry fetchers.  The keys the code reads with [d[...]] are fields;
    the two it reads with [d.get(...)] are optional; [extra_keys] holds any
    further numeric keys, which [_predict_optimal_provider] probes with
    [.get]. *)
Record ProviderData : Type := mkProviderData {
  region : string;
  cost_per_hour : Q;
  latency_ms : Q;
  cpu_utilization : Q;
  memory_utilization : Q;
  available_instances : Z;
  spot_available : option bool;
  credits_available : option Q;
  extra_keys : dict Q
}.

(** One element of [self.telemetry_data]. *)
Record Telemetry : Type := mkTelemetry {
  tel_timestamp : nat;
  tel_providers : dict ProviderData
}.

(** The scikit-learn classifier held in [self.ml_model]: whether it has been
    fitted ([hasattr(model, 'classes_')]) and its [predict_proba]. *)
Record Classifier : Type := mkClassifier {
  has_classes_ : bool;
  predict_proba : list (list Q) -> result (list (list Q))
}.

(** The text produced by [_explain_cost_decision], as the values its
    f-string formats. *)
Record Explanation : Type := mkExplanation {
  ex_selected : string;
  ex_workload_id : string;
  ex_selected_cost : Q;
  ex_alt_name : string;
  ex_alt_cost : Q;
  ex_savings : Q;
  ex_savings_percent : Q;
  ex_required_instances : Z;
  ex_monthly_savings : Q
}.

(** An entry of [self.decision_history]. *)
Record Decision : Type := mkDecision {
  dec_timestamp : nat;
  dec_workload_id : string;
  selected_provider : string;
  estimated_cost : Q;
  all_costs : dict Q;
  ml_predictions : dict Q;
  combined_scores : dict Q;
  confidence_score : Q;
  cost_confidence : Q;
  ml_confidence : Q;
  reasoning : Explanation
}.

(** The four values of an approval item's ['status']. *)
Inductive Status : Type :=
| pending_approval
| approved
| rejected
| pending_switch_approval.

(** The ['reason'] strings, as the values their f-strings format. *)
Inductive Reason : Type :=
| ManualApprovalRequired
| CostExceedsThreshold (cost threshold : Q)
| CostOptimization (new_provider : string) (savings : Q).

(** The keys that differ between the two kinds of item stored in
    [self.pending_workloads]. *)
Inductive RequestKeys : Type :=
| PlacementKeys (aws_cost alibaba_cost : Q) (recommended_provider : string)
| SwitchKeys (current_provider new_provider : string).

(** An element of [self.pending_workloads]. *)
Record ApprovalRequest : Type := mkApprovalRequest {
  workload_id : string;
  req_timestamp : nat;
  estimated_savings : Q;
  status : Status;
  reason : Reason;
  req_keys : RequestKeys
}.

Inductive Action : Type := scale_up | scale_down.

(** One provider entry of a plan's ['changes'].  [flags] holds the boolean
    keys of the entry, in source order. *)
Record Directive : Type := mkDirective {
  dir_provider : string;
  dir_region : string;
  instance_type : option string;
  desired_capacity : Z;
  min_capacity : Z;
  max_capacity : Z;
  flags : dict bool;
  action : Action
}.

(** The dict returned by [generate_terraform_changes]. *)
Record TerraformChanges : Type := mkTerraformChanges {
  tf_timestamp : nat;
  tf_workload_id : string;
  tf_provider : string;
  tf_region : string;
  strategy : string;
  changes : dict Directive
}.

(** ** Cost model *)

(** [max(1, workload.cpu_cores // 2)] *)
Definition required_instances (workload : Workload) : Z :=
  max2Z 1 (cpu_cores workload / 2).

(** [_calculate_workload_cost] (main.py 918-940). *)
Definition _calculate_workload_cost (workload : Workload) (provider_data : ProviderData) : Q :=
  let base_cost_per_hour := cost_per_hour provider_data in
  let total_cost := base_cost_per_hour * inject_Z (required_instances workload) in
  let total_cost :=
    match spot_available provider_data with
    | Some true => let spot_discount := 0.6 in total_cost * (1 - spot_discount)
    | _ => total_cost
    end in
  let total_cost :=
    match credits_available provider_data with
    | Some credits =>
        if Qltb 0 credits
        then let credits_discount := min2 0.2 (credits / 1000) in
             total_cost * (1 - credits_discount)
        else total_cost
    | None => total_cost
    end in
  total_cost.

(** ** Engine state and effects *)

(** Log records of level WARNING and ERROR, as the values their f-strings
    format. *)
Inductive LogRecord : Type :=
| WarnMlModelNotAvailable
| WarnMlModelNotTrained
| ErrorPredicting (e : exn)
| WarnCostExceeds (cost threshold : Q)
| WarnWorkloadCostExceeds (wid : string) (cost threshold : Q)
| ErrorProcessingWorkload (wid : string) (e : exn)
| ErrorDeployingWorkload (e : exn)
| WarnCostSpike (wid : string) (cost : Q)
| ErrorMonitoringWorkload (wid : string) (e : exn)
| ErrorRequestingSwitch (e : exn)
| ErrorContinuousMonitoring (e : exn)
| ErrorApplyingTerraform
| WarnRollingBack (wid : string)
| ErrorRollbackFailed
| ErrorDuringRollback
| ErrorGettingLbDnsNames
| WarnNoActiveProvider
| WarnNamecheapNotConfigured
| ErrorDnsUpdateFailed
| WarnNoEventLoop
| WarnFailedToRecordMetrics.

(** The messages handed to [send_alert]. *)
Inductive AlertMessage : Type :=
| HighCostWorkload (wid : string) (cost : Q)
| ErrorProcessing (wid : string) (e : exn)
| TerraformApplySuccessful (wid : string)
| TerraformApplyFailed (wid : string).

(** What leaves the process. *)
Inductive Event : Type :=
| Log (r : LogRecord)
| Alert (message : AlertMessage) (severity : string)
| TerraformApply (plan : TerraformChanges)
| TerraformRollback (plan : TerraformChanges).

(** How [_rollback_terraform_changes] ends: the Terraform directory or the
    [terraform] binary is missing and no process is started, or
    [terraform apply] runs with zero capacities and returns zero or
    non-zero. *)
Inductive RollbackOutcome : Type :=
| rollback_not_started
| rollback_succeeded
| rollback_failed.

(** How a run of [_apply_terraform_changes] ends.  [setup_failed]: the
    Terraform directory or the binary is missing, or [terraform init]
    fails, so that [terraform apply] is not started.  [apply_succeeded]:
    [terraform apply] runs and returns zero; [notes] are the records that
    the steps after it log (metrics, load-balancer names, DNS update,
    telemetry refresh), which depend on the environment.  [apply_failed]:
    [terraform apply] runs and returns non-zero.  The two failures lead to a
    rollback, which ends as [rollback] says. *)
Inductive ApplyOutcome : Type :=
| setup_failed (rollback : RollbackOutcome)
| apply_succeeded (notes : list LogRecord)
| apply_failed (rollback : RollbackOutcome).

(** The instance attributes of [AIRoutingEngine] that the modelled methods
    use, the environment ([terraform_outcome], [clock]) and the ghost
    [trace].  [alert_webhook_url] is the attribute that
    [_initialize_monitoring] sets (main.py 220): the states are those of an
    engine whose monitoring initialisation went through, so that the
    attribute exists. *)
Record Engine : Type := mkEngine {
  ml_model : option Classifier;
  decision_history : list Decision;
  telemetry_data : list Telemetry;
  auto_deploy_enabled : bool;
  pending_workloads : list ApprovalRequest;
  approval_threshold : Q;
  max_cost_per_hour : Q;
  cost_threshold : Q;
  aws_simulated_cost : Q;
  alibaba_simulated_cost : Q;
  alert_webhook_url : string;
  terraform_outcome : TerraformChanges -> ApplyOutcome;
  clock : nat;
  trace : list Event
}.

Definition set_decision_history (f : list Decision -> list Decision) (s : Engine) : Engine :=
  mkEngine (ml_model s) (f (decision_history s)) (telemetry_data s)
    (auto_deploy_enabled s) (pending_workloads s) (approval_threshold s)
    (max_cost_per_hour s) (cost_threshold s) (aws_simulated_cost s)
    (alibaba_simulated_cost s) (alert_webhook_url s) (terraform_outcome s)
    (clock s) (trace s).

Definition set_pending_workloads (f : list ApprovalRequest -> list ApprovalRequest) (s : Engine) : Engine :=
  mkEngine (ml_model s) (decision_history s) (telemetry_data s)
    (auto_deploy_enabled s) (f (pending_workloads s)) (approval_threshold s)
    (max_cost_per_hour s) (cost_threshold s) (aws_simulated_cost s)
    (alibaba_simulated_cost s) (alert_webhook_url s) (terraform_outcome s)
    (clock s) (trace s).

Definition set_clock (f : nat -> nat) (s : Engine) : Engine :=
  mkEngine (ml_model s) (decision_history s) (telemetry_data s)
    (auto_deploy_enabled s) (pending_workloads s) (approval_threshold s)
    (max_cost_per_hour s) (cost_threshold s) (aws_simulated_cost s)
    (alibaba_simulated_cost s) (alert_webhook_url s) (terraform_outcome s)
    (f (clock s)) (trace s).

Definition set_trace (f : list Event -> list Event) (s : Engine) : Engine :=
  mkEngine (ml_model s) (decision_history s) (telemetry_data s)
    (auto_deploy_enabled s) (pending_workloads s) (approval_threshold s)
    (max_cost_per_hour s) (cost_threshold s) (aws_simulated_cost s)
    (alibaba_simulated_cost s) (alert_webhook_url s) (terraform_outcome s)
    (clock s) (f (trace s)).

(** The state-and-exception monad of the methods.  A raised exception keeps
    the mutations made before it. *)
Definition M (A : Type) : Type := Engine -> result A * Engine.

Definition ret {A} (a : A) : M A := fun s => (Ok a, s).

Definition bind {A B} (c : M A) (k : A -> M B) : M B :=
  fun s =>
    match c s with
    | (Ok a, s') => k a s'
    | (Raise e, s') => (Raise e, s')
    end.

Notation "x <- c ;; k" := (bind c (fun x => k))
  (at level 61, c at next level, right associativity).
Notation "c ;;; k" := (bind c (fun _ => k))
  (at level 61, right associativity).

Definition raise {A} (e : exn) : M A := fun s => (Raise e, s).

(** [try: c  except Exception as e: handler e] *)
Definition try_except {A} (c : M A) (handler : exn -> M A) : M A :=
  fun s =>
    match c s with
    | (Ok a, s') => (Ok a, s')
    | (Raise e, s') => handler e s'
    end.

Definition lift {A} (r : result A) : M A := fun s => (r, s).
Definition gets {A} (f : Engine -> A) : M A := fun s => (Ok (f s), s).
Definition modify (f : Engine -> Engine) : M unit := fun s => (Ok tt, f s).

Definition emit (e : Event) : M unit := modify (set_trace (fun t => t ++ [e])).
Definition log (r : LogRecord) : M unit := emit (Log r).

(** [datetime.now().isoformat()] *)
Definition now : M nat :=
  t <- gets clock ;; modify (set_clock S) ;;; ret t.

(** [for x in xs: acc = body x acc] *)
Fixpoint for_each {A B} (xs : list A) (body : A -> B -> M B) (acc : B) : M B :=
  match xs with
  | [] => ret acc
  | x :: xs' => acc' <- body x acc ;; for_each xs' body acc'
  end.

(** What [await v] does with the value [v] of its operand: a coroutine
    object is run; any other object is not awaitable. *)
Inductive Operand (A : Type) : Type :=
| Plain (value : A)
| Coroutine (body : M A).
Arguments Plain {A} value.
Arguments Coroutine {A} body.

Definition await {A} (v : Operand A) : M A :=
  match v with
  | Plain _ => raise TypeError
  | Coroutine body => body
  end.

(** [_get_aws_cost], [_get_alibaba_cost] (main.py 137-145). *)
Definition _get_aws_cost (self : Engine) : Q := aws_simulated_cost self.
Definition _get_alibaba_cost (self : Engine) : Q := alibaba_simulated_cost self.

(** [send_alert] (main.py 1526-1541): a webhook post when a URL is
    configured.  The method reads [self.alert_webhook_url] before its [try];
    the attribute exists in every state of [Engine]. *)
Definition send_alert (message : AlertMessage) (severity : string) : M unit :=
  url <- gets alert_webhook_url ;;
  if String.eqb url "" then ret tt else emit (Alert message severity).

(** ** Predictive score *)

(** [_get_priority_score] (main.py 1937-1945). *)
Definition _get_priority_score (priority : string) : Q :=
  let priority_map := [("low", 0.2); ("medium", 0.5); ("high", 0.8); ("critical", 1.0)] in
  get_default priority_map (lower priority) 0.5.

(** The feature row built by [_predict_optimal_provider]. *)
Definition features (workload : Workload) (provider_data : ProviderData) : list (list Q) :=
  let d := extra_keys provider_data in
  [[ inject_Z (cpu_cores workload);
     inject_Z (memory_gb workload);
     _get_priority_score (priority workload);
     cost_sensitivity workload;
     latency_sensitivity workload;
     get_default d "aws_cost" 0.05;
     get_default d "alibaba_cost" 0.03;
     get_default d "aws_latency" 50;
     get_default d "alibaba_latency" 60;
     get_default d "aws_reliability" 0.99;
     get_default d "alibaba_reliability" 0.98 ]].

(** [seq[i]] on a list. *)
Definition index {A} (xs : list A) (i : nat) : result A :=
  match nth_error xs i with
  | Some x => Ok x
  | None => Raise IndexError
  end.

(** [_predict_optimal_provider] (main.py 1900-1935). *)
Definition _predict_optimal_provider (workload : Workload) (provider_data : ProviderData) : M Q :=
  try_except
    (model <- gets ml_model ;;
     match model with
     | None => log WarnMlModelNotAvailable ;;; ret 0.5
     | Some clf =>
         let feats := features workload provider_data in
         if negb (has_classes_ clf)
         then log WarnMlModelNotTrained ;;; ret 0.5
         else
           rows <- lift (predict_proba clf feats) ;;
           prediction <- lift (index rows 0) ;;
           p <- lift (index prediction 1) ;;
           ret p
     end)
    (fun e => log (ErrorPredicting e) ;;; ret 0.5).

(** ** Placement decision *)

(** [_get_default_provider_states] (main.py 893-916). *)
Definition _get_default_provider_states (self : Engine) : dict ProviderData :=
  [ ("aws", mkProviderData "us-east-1" (aws_simulated_cost self) 50 0.5 0.6 10
              (Some true) (Some 500) []);
    ("alibaba", mkProviderData "us-west-1" (alibaba_simulated_cost self) 60 0.4 0.5 15
              (Some true) (Some 800) []) ].

(** [_get_current_provider_states] (main.py 885-891). *)
Definition _get_current_provider_states (self : Engine) : dict ProviderData :=
  match rev (telemetry_data self) with
  | [] => _get_default_provider_states self
  | latest_telemetry :: _ => tel_providers latest_telemetry
  end.

(** [_explain_cost_decision] (main.py 981-1003). *)
Definition _explain_cost_decision (workload : Workload) (costs : dict Q) (selected : string) : result Explanation :=
  rbind (subscript costs selected) (fun selected_cost =>
  let other_costs := filter (fun nc => negb (String.eqb (fst nc) selected)) costs in
  rbind
    (match other_costs with
     | [] => Ok ("N/A", 0, 0, 0)
     | _ :: _ =>
         rbind (min_by snd other_costs) (fun cheapest_alternative =>
         let alt_name := fst cheapest_alternative in
         let alt_cost := snd cheapest_alternative in
         let savings := alt_cost - selected_cost in
         rbind (div savings alt_cost) (fun q =>
         Ok (alt_name, alt_cost, savings, q * 100)))
     end)
    (fun '(alt_name, alt_cost, savings, savings_percent) =>
       Ok (mkExplanation (upper selected) (id workload) selected_cost alt_name
             alt_cost savings savings_percent (required_instances workload)
             (savings * 24 * 30)))).

(** The two loops of [calculate_optimal_placement] that fill [costs],
    [ml_predictions] (main.py 834-840) and [combined_scores] (845-848). *)
Definition cost_and_prediction_loop (workload : Workload) (providers : dict ProviderData) : M (dict Q * dict Q) :=
  for_each providers
    (fun item acc =>
       let '(provider_name, provider_data) := item in
       let '(costs, ml_predictions) := acc in
       let cost := _calculate_workload_cost workload provider_data in
       let costs := dict_set costs provider_name cost in
       ml_confidence <- _predict_optimal_provider workload provider_data ;;
       ret (costs, dict_set ml_predictions provider_name ml_confidence))
    ([], []).

Definition combined_score_loop (costs ml_predictions : dict Q) : result (dict Q) :=
  rfor (keys costs)
    (fun provider_name combined_scores =>
       rbind (subscript costs provider_name) (fun c =>
       rbind (div 1.0 (c + 0.001)) (fun cost_score =>
       rbind (subscript ml_predictions provider_name) (fun ml_score =>
       Ok (dict_set combined_scores provider_name (0.7 * cost_score + 0.3 * ml_score))))))
    [].

(** The selection step of [calculate_optimal_placement] (main.py 828-853):
    provider states, the two loops and [max] over the combined scores. *)
Record Selection : Type := mkSelection {
  sel_providers : dict ProviderData;
  sel_costs : dict Q;
  sel_ml_predictions : dict Q;
  sel_combined_scores : dict Q;
  sel_provider_name : string;
  sel_combined_score : Q;
  sel_estimated_cost : Q
}.

Definition select_best_provider (workload : Workload) : M Selection :=
  providers <- gets _get_current_provider_states ;;
  cm <- cost_and_prediction_loop workload providers ;;
  let '(costs, ml_predictions) := cm in
  combined_scores <- lift (combined_score_loop costs ml_predictions) ;;
  best_provider <- lift (max_by snd combined_scores) ;;
  let '(provider_name, combined_score) := best_provider in
  estimated_cost <- lift (subscript costs provider_name) ;;
  ret (mkSelection providers costs ml_predictions combined_scores
         provider_name combined_score estimated_cost).

(** The confidence computation (main.py 855-863). *)
Definition compute_cost_confidence (costs : dict Q) (provider_name : string) (estimated_cost : Q) : result Q :=
  let other_costs :=
    map snd (filter (fun nc => negb (String.eqb (fst nc) provider_name)) costs) in
  match other_costs with
  | [] => Ok 0.5
  | _ :: _ =>
      rbind (max_by (fun c => c) other_costs) (fun m =>
      let cost_savings := m - estimated_cost in
      rbind (div cost_savings estimated_cost) (fun q =>
      Ok (min2 1.0 (q * 2))))
  end.

(** [calculate_optimal_placement] (main.py 817-883). *)
Definition calculate_optimal_placement (workload : Workload) : M (string * string * Q) :=
  sel <- select_best_provider workload ;;
  let provider_name := sel_provider_name sel in
  let costs := sel_costs sel in
  let estimated_cost := sel_estimated_cost sel in
  cost_confidence <- lift (compute_cost_confidence costs provider_name estimated_cost) ;;
  ml_confidence <- lift (subscript (sel_ml_predictions sel) provider_name) ;;
  let confidence_score := 0.7 * cost_confidence + 0.3 * ml_confidence in
  timestamp <- now ;;
  explanation <- lift (_explain_cost_decision workload costs provider_name) ;;
  let decision :=
    mkDecision timestamp (id workload) provider_name estimated_cost costs
      (sel_ml_predictions sel) (sel_combined_scores sel) confidence_score
      cost_confidence ml_confidence explanation in
  modify (set_decision_history (fun h => h ++ [decision])) ;;;
  provider_data <- lift (subscript (sel_providers sel) provider_name) ;;
  ret (provider_name, region provider_data, confidence_score).

(** [_check_cost_threshold] (main.py 942-949). *)
Definition _check_cost_threshold (workload_cost : Q) : M bool :=
  threshold <- gets cost_threshold ;;
  if Qltb threshold workload_cost
  then log (WarnCostExceeds workload_cost threshold) ;;; ret false
  else ret true.

(** ** Change plans and reconciliation *)

(** [_get_optimal_instance_type] (main.py 1254-1272). *)
Definition _get_optimal_instance_type (workload : Workload) (provider : string) : string :=
  if String.eqb provider "aws" then
    if (cpu_cores workload <=? 2)%Z then "t3.medium"
    else if (cpu_cores workload <=? 4)%Z then "t3.large"
    else "m5.large"
  else if String.eqb provider "alibaba" then
    if (cpu_cores workload <=? 2)%Z then "ecs.t5-lc1m2.small"
    else if (cpu_cores workload <=? 4)%Z then "ecs.t5-lc1m2.medium"
    else "ecs.c5.large"
  else "t3.medium".

(** [_rollback_terraform_changes] (main.py 1228-1252): the warning, then a
    [terraform apply] with [min_capacity=0] and [max_capacity=0], if it can
    be started; [outcome] is the environment's.  A failure to start it is
    caught and logged, as is a non-zero return code. *)
Definition _rollback_terraform_changes (terraform_changes : TerraformChanges) (outcome : RollbackOutcome) : M unit :=
  log (WarnRollingBack (tf_workload_id terraform_changes)) ;;;
  match outcome with
  | rollback_not_started => log ErrorDuringRollback
  | rollback_succeeded => emit (TerraformRollback terraform_changes)
  | rollback_failed =>
      emit (TerraformRollback terraform_changes) ;;;
      log ErrorRollbackFailed
  end.

(** [_apply_terraform_changes] (main.py 1110-1217).  The Terraform run
    itself is the environment's: [terraform_outcome] says how it ends.  The
    error lines the method logs on a failure are summarised by the one
    record [ErrorApplyingTerraform] of its [except] clause; the lines that
    echo Terraform's standard error are not represented. *)
Definition _apply_terraform_changes (terraform_changes : TerraformChanges) : M unit :=
  outcome <- gets (fun self => terraform_outcome self terraform_changes) ;;
  match outcome with
  | setup_failed rollback =>
      log ErrorApplyingTerraform ;;;
      _rollback_terraform_changes terraform_changes rollback
  | apply_succeeded notes =>
      emit (TerraformApply terraform_changes) ;;;
      for_each notes (fun note _ => log note) tt ;;;
      send_alert (TerraformApplySuccessful (tf_workload_id terraform_changes)) "info"
  | apply_failed rollback =>
      emit (TerraformApply terraform_changes) ;;;
      send_alert (TerraformApplyFailed (tf_workload_id terraform_changes)) "error" ;;;
      log ErrorApplyingTerraform ;;;
      _rollback_terraform_changes terraform_changes rollback
  end.

(** [generate_terraform_changes] (main.py 1023-1108).  The value of
    [_generate_additional_resources] is computed and dropped by the source
    (every entry carries ['additional_resources': {}]); it is not
    represented. *)
Definition generate_terraform_changes (workload : Workload) (provider region : string) : M TerraformChanges :=
  timestamp <- now ;;
  let required_instances := required_instances workload in
  let changes :=
    if String.eqb provider "aws" then
      [ ("aws",
         mkDirective "aws" region
           (Some (_get_optimal_instance_type workload "aws"))
           required_instances required_instances (required_instances * 2)
           [ ("enable_spot", true); ("create_load_balancer", true);
             ("create_target_group", true); ("create_listener", true);
             ("create_instances", true) ]
           scale_up);
        ("alibaba",
         mkDirective "alicloud" region None 0 0 0
           [ ("destroy_load_balancer", true); ("destroy_target_group", true);
             ("destroy_listener", true); ("destroy_instances", true) ]
           scale_down) ]
    else if String.eqb provider "alibaba" then
      [ ("aws",
         mkDirective "aws" region None 0 0 0
           [ ("destroy_load_balancer", true); ("destroy_target_group", true);
             ("destroy_listener", true); ("destroy_instances", true) ]
           scale_down);
        ("alibaba",
         mkDirective "alicloud" region
           (Some (_get_optimal_instance_type workload "alibaba"))
           required_instances required_instances (required_instances * 2)
           [ ("enable_spot", true); ("create_load_balancer", true);
             ("create_target_group", true); ("create_listener", true);
             ("create_instances", true) ]
           scale_up) ]
    else [] in
  let terraform_changes :=
    mkTerraformChanges timestamp (id workload) provider region
      "single_provider_optimization" changes in
  _apply_terraform_changes terraform_changes ;;;
  ret terraform_changes.

(** ** Approval workflow *)

(** The object handed to [_deploy_workload]: [approve_workload] passes the
    item dict, [process_workload] passes the [Workload] dataclass
    instance. *)
Inductive DeployArg : Type :=
| ItemDict (item : ApprovalRequest)
| WorkloadObject (workload : Workload).

(** [workload_data['workload_id']]: a dataclass instance is not
    subscriptable. *)
Definition deploy_arg_workload_id (workload_data : DeployArg) : result string :=
  match workload_data with
  | ItemDict item => Ok (workload_id item)
  | WorkloadObject _ => Raise TypeError
  end.

(** [_deploy_workload] (main.py 1479-1502). *)
Definition _deploy_workload (workload_data : DeployArg) : M unit :=
  try_except
    (wid <- lift (deploy_arg_workload_id workload_data) ;;
     let workload := mkWorkload wid 4 8 "medium" 0.5 0.5 24.0 in
     placement <- calculate_optimal_placement workload ;;
     let '(provider, region, confidence) := placement in
     terraform_changes <- generate_terraform_changes workload provider region ;;
     ret tt)
    (fun e => log (ErrorDeployingWorkload e)).

(** [_queue_for_approval] (main.py 1438-1455). *)
Definition _queue_for_approval (workload : Workload) (savings : Q) (reason : Reason) : M unit :=
  timestamp <- now ;;
  aws_cost <- gets _get_aws_cost ;;
  alibaba_cost <- gets _get_alibaba_cost ;;
  let approval_request :=
    mkApprovalRequest (id workload) timestamp savings pending_approval reason
      (PlacementKeys aws_cost alibaba_cost
         (if Qltb alibaba_cost aws_cost then "alibaba" else "aws")) in
  modify (set_pending_workloads (fun l => l ++ [approval_request])).

(** [process_workload] (main.py 1368-1436). *)
Definition process_workload (workload : Workload) : M unit :=
  try_except
    (placement <- calculate_optimal_placement workload ;;
     let '(provider, region, confidence) := placement in
     providers <- gets _get_current_provider_states ;;
     provider_data <- lift (subscript providers provider) ;;
     let estimated_cost := _calculate_workload_cost workload provider_data in
     within <- _check_cost_threshold estimated_cost ;;
     if negb within then
       threshold <- gets cost_threshold ;;
       log (WarnWorkloadCostExceeds (id workload) estimated_cost threshold) ;;;
       _queue_for_approval workload estimated_cost
         (CostExceedsThreshold estimated_cost threshold) ;;;
       send_alert (HighCostWorkload (id workload) estimated_cost) "warning"
     else
       aws_cost <- gets _get_aws_cost ;;
       alibaba_cost <- gets _get_alibaba_cost ;;
       let savings := Qabs (aws_cost - alibaba_cost) in
       auto <- gets auto_deploy_enabled ;;
       approval_threshold <- gets approval_threshold ;;
       if auto && Qltb approval_threshold savings
       then _deploy_workload (WorkloadObject workload)
       else _queue_for_approval workload savings ManualApprovalRequired)
    (fun e =>
       log (ErrorProcessingWorkload (id workload) e) ;;;
       send_alert (ErrorProcessing (id workload) e) "error").

Definition with_status (s : Status) (item : ApprovalRequest) : ApprovalRequest :=
  mkApprovalRequest (workload_id item) (req_timestamp item)
    (estimated_savings item) s (reason item) (req_keys item).

(** The loop of [approve_workload]: the first item whose ['workload_id']
    matches gets the new status, in place; the loop then breaks.  Returns
    the mutated item and the list. *)
Fixpoint set_first_status (wid : string) (s : Status) (l : list ApprovalRequest) : option (ApprovalRequest * list ApprovalRequest) :=
  match l with
  | [] => None
  | workload :: l' =>
      if String.eqb (workload_id workload) wid
      then Some (with_status s workload, with_status s workload :: l')
      else match set_first_status wid s l' with
           | Some (hit, l'') => Some (hit, workload :: l'')
           | None => None
           end
  end.

(** [approve_workload] (main.py 1457-1477). *)
Definition approve_workload (wid : string) (approve : bool) : M unit :=
  pending <- gets pending_workloads ;;
  match set_first_status wid (if approve then approved else rejected) pending with
  | None => ret tt
  | Some (workload, pending') =>
      modify (set_pending_workloads (fun _ => pending')) ;;;
      if approve then _deploy_workload (ItemDict workload) else ret tt
  end.

(** [get_pending_workloads] (main.py 1613-1615). *)
Definition get_pending_workloads (self : Engine) : list ApprovalRequest :=
  filter (fun w => match status w with pending_approval => true | _ => false end)
    (pending_workloads self).

(** ** Drift monitor *)

(** The dicts built by [_get_running_workloads]. *)
Record RunningWorkload : Type := mkRunningWorkload {
  run_id : string;
  run_provider : string;
  run_cpu_cores : Z;
  run_memory_gb : Z;
  run_priority : string;
  started_at : nat
}.

(** [workload['recommended_provider']] on an item. *)
Definition item_recommended_provider (item : ApprovalRequest) : result string :=
  match req_keys item with
  | PlacementKeys _ _ recommended_provider => Ok recommended_provider
  | SwitchKeys _ _ => Raise (KeyError "recommended_provider")
  end.

(** [_get_running_workloads] (main.py 1640-1657). *)
Fixpoint running_of (l : list ApprovalRequest) : result (list RunningWorkload) :=
  match l with
  | [] => Ok []
  | workload :: l' =>
      match status workload with
      | approved =>
          rbind (item_recommended_provider workload) (fun provider =>
          rbind (running_of l') (fun rest =>
          Ok (mkRunningWorkload (workload_id workload) provider 4 8 "medium"
                (req_timestamp workload) :: rest)))
      | _ => running_of l'
      end
  end.

Definition _get_running_workloads (self : Engine) : result (list RunningWorkload) :=
  running_of (pending_workloads self).

(** [_request_switch_approval] (main.py 1687-1709). *)
Definition _request_switch_approval (workload : RunningWorkload) (new_provider : string) (savings : Q) : M unit :=
  try_except
    (timestamp <- now ;;
     let switch_request :=
       mkApprovalRequest (run_id workload) timestamp savings
         pending_switch_approval (CostOptimization new_provider savings)
         (SwitchKeys (run_provider workload) new_provider) in
     modify (set_pending_workloads (fun l => l ++ [switch_request])))
    (fun e => log (ErrorRequestingSwitch e)).

(** [_monitor_workload_costs] (main.py 1659-1685).  The two cost getters are
    plain methods returning a float (main.py 137-145); their results are the
    operands of [await]. *)
Definition _monitor_workload_costs (workload : RunningWorkload) : M unit :=
  try_except
    (aws_cost <- (v <- gets _get_aws_cost ;; await (Plain v)) ;;
     alibaba_cost <- (v <- gets _get_alibaba_cost ;; await (Plain v)) ;;
     let current_provider := run_provider workload in
     (if String.eqb current_provider "aws" && Qltb alibaba_cost aws_cost then
        let savings := aws_cost - alibaba_cost in
        if Qltb 0.01 savings
        then await (Coroutine (_request_switch_approval workload "alibaba" savings))
        else ret tt
      else if String.eqb current_provider "alibaba" && Qltb aws_cost alibaba_cost then
        let savings := alibaba_cost - aws_cost in
        if Qltb 0.01 savings
        then await (Coroutine (_request_switch_approval workload "aws" savings))
        else ret tt
      else ret tt) ;;;
     let current_cost :=
       if String.eqb current_provider "aws" then aws_cost else alibaba_cost in
     if Qltb 0.075 current_cost
     then log (WarnCostSpike (run_id workload) current_cost)
     else ret tt)
    (fun e => log (ErrorMonitoringWorkload (run_id workload) e)).

(** One iteration of [_continuous_monitoring] (main.py 1617-1638), after its
    hourly sleep. *)
Definition monitoring_iteration : M unit :=
  try_except
    (running_workloads <- (fun self => (_get_running_workloads self, self)) ;;
     for_each running_workloads
       (fun workload _ => await (Coroutine (_monitor_workload_costs workload)))
       tt)
    (fun e => log (ErrorContinuousMonitoring e)).

(** ** Vocabulary of the properties *)

(** The value [_predict_optimal_provider] returns, as a function of the
    model held by the engine. *)
Definition predictive_score (model : option Classifier) (workload : Workload) (provider_data : ProviderData) : Q :=
  match model with
  | None => 0.5
  | Some clf =>
      if has_classes_ clf then
        match rbind (predict_proba clf (features workload provider_data))
                (fun rows => rbind (index rows 0) (fun row => index row 1)) with
        | Ok p => p
        | Raise _ => 0.5
        end
      else 0.5
  end.

(** The combined score of a provider, in the words of the specification:
    0.7 x 1/(estimatedCost + 0.001) + 0.3 x predictiveScore. *)
Definition combined_score (model : option Classifier) (workload : Workload) (provider_data : ProviderData) : Q :=
  0.7 * (1.0 / (_calculate_workload_cost workload provider_data + 0.001))
  + 0.3 * predictive_score model workload provider_data.

Definition costs_of (workload : Workload) (providers : dict ProviderData) : dict Q :=
  map (fun nd => (fst nd, _calculate_workload_cost workload (snd nd))) providers.

Definition predictions_of (model : option Classifier) (workload : Workload) (providers : dict ProviderData) : dict Q :=
  map (fun nd => (fst nd, predictive_score model workload (snd nd))) providers.

Definition scores_of (model : option Classifier) (workload : Workload) (providers : dict ProviderData) : dict Q :=
  map (fun nd => (fst nd, combined_score model workload (snd nd))) providers.

(** The costs of the providers other than [name]. *)
Definition other_costs (costs : dict Q) (name : string) : list Q :=
  map snd (filter (fun nc => negb (String.eqb (fst nc) name)) costs).

Definition is_log (e : Event) : Prop :=
  match e with
  | Log _ => True
  | _ => False
  end.

Definition is_deployment (e : Event) : Prop :=
  match e with
  | TerraformApply _ | TerraformRollback _ => True
  | _ => False
  end.

(** [frame PE PD s s']: from [s] to [s'] the configuration, the telemetry
    and the approval list are untouched, the trace grew by events satisfying
    [PE] and the decision log grew by decisions satisfying [PD]. *)
Definition frame (PE : Event -> Prop) (PD : Decision -> Prop) (s s' : Engine) : Prop :=
  ml_model s' = ml_model s /\
  telemetry_data s' = telemetry_data s /\
  auto_deploy_enabled s' = auto_deploy_enabled s /\
  pending_workloads s' = pending_workloads s /\
  approval_threshold s' = approval_threshold s /\
  max_cost_per_hour s' = max_cost_per_hour s /\
  cost_threshold s' = cost_threshold s /\
  aws_simulated_cost s' = aws_simulated_cost s /\
  alibaba_simulated_cost s' = alibaba_simulated_cost s /\
  alert_webhook_url s' = alert_webhook_url s /\
  terraform_outcome s' = terraform_outcome s /\
  (exists evs, trace s' = trace s ++ evs /\ Forall PE evs) /\
  (exists ds, decision_history s' = decision_history s ++ ds /\ Forall PD ds).

Definition framed {A} (PE : Event -> Prop) (PD : Decision -> Prop) (c : M A) : Prop :=
  forall s, frame PE PD s (snd (c s)).

(** The discount factors, in the words of the specification. *)
Definition spot_factor (provider_data : ProviderData) : Q :=
  match spot_available provider_data with
  | Some true => 0.4
  | _ => 1
  end.

Definition credits_of (provider_data : ProviderData) : Q :=
  match credits_available provider_data with
  | Some c => c
  | None => 0
  end.

Definition credits_factor (provider_data : ProviderData) : Q :=
  if Qltb 0 (credits_of provider_data)
  then 1 - Qmin 0.2 (credits_of provider_data / 1000)
  else 1.

Definition discount_multiplier (provider_data : ProviderData) : Q :=
  spot_factor provider_data * credits_factor provider_data.

(** [m] is the largest element of [xs]. *)
Definition is_maximum (m : Q) (xs : list Q) : Prop :=
  In m xs /\ forall x, In x xs -> x <= m.

Definition clamp (lo hi x : Q) : Q := Qmax lo (Qmin hi x).

(** The cost confidence in the words of the specification: clamped to
    [0, 1] against the most expensive other provider, 0.5 without one. *)
Definition cost_confidence_as_specified (costs : dict Q) (winner : string) (winner_cost cc : Q) : Prop :=
  (other_costs costs winner = [] /\ cc == 0.5) \/
  (exists m, is_maximum m (other_costs costs winner) /\
             cc == clamp 0 1 ((m - winner_cost) / winner_cost * 2)).

(** The cost confidence the code records: bounded above only. *)
Definition cost_confidence_as_recorded (costs : dict Q) (winner : string) (winner_cost cc : Q) : Prop :=
  (other_costs costs winner = [] /\ cc == 0.5) \/
  (exists m, is_maximum m (other_costs costs winner) /\
             cc == Qmin 1 ((m - winner_cost) / winner_cost * 2)).

(** The tie-break of the specification: among the providers whose combined
    score equals the winner's, the winner has the lowest cost and, at equal
    cost, the lexically first name. *)
Definition tie_break_as_specified (model : option Classifier) (workload : Workload) (providers : dict ProviderData) (winner : string) : Prop :=
  forall dw name d,
    In (winner, dw) providers -> In (name, d) providers ->
    combined_score model workload d == combined_score model workload dw ->
    _calculate_workload_cost workload dw < _calculate_workload_cost workload d \/
    (_calculate_workload_cost workload dw == _calculate_workload_cost workload d /\
     String.leb winner name = true).

(** The single-active-provider invariant of a change plan. *)
Definition single_active_provider (workload : Workload) (plan : TerraformChanges) : Prop :=
  exists name d,
    In (name, d) (changes plan) /\
    action d = scale_up /\
    (1 <= desired_capacity d)%Z /\
    desired_capacity d = Z.max 1 (cpu_cores workload / 2) /\
    forall name' d', In (name', d') (changes plan) -> (name', d') <> (name, d) ->
      action d' = scale_down /\ desired_capacity d' = 0%Z /\
      min_capacity d' = 0%Z /\ max_capacity d' = 0%Z.

Definition resolved (s : Status) : Prop := s = approved \/ s = rejected.

(** The invariant of the specification: a resolved item keeps its status. *)
Definition never_reverts (before after : list ApprovalRequest) : Prop :=
  Forall2 (fun old new => resolved (status old) -> status new = status old) before after.

(** What the approval operation guarantees: items keep their place and
    every key but the status; a status changes only to a resolved one, so a
    resolved item stays resolved. *)
Definition stays_resolved (before after : list ApprovalRequest) : Prop :=
  Forall2 (fun old new =>
             new = with_status (status new) old /\
             (status new <> status old -> resolved (status new)))
    before after.

(** A sequence of [approve_workload] calls. *)
Fixpoint run_approvals (calls : list (string * bool)) (self : Engine) : Engine :=
  match calls with
  | [] => self
  | (wid, approve) :: calls' => run_approvals calls' (snd (approve_workload wid approve self))
  end.

(** The workload [_deploy_workload] rebuilds. *)
Definition rebuilt_workload (wid : string) : Workload :=
  mkWorkload wid 4 8 "medium" 0.5 0.5 24.0.

(** A plan whose scale-up entries all have the capacity of a four-core
    workload. *)
Definition capacity_two (wid : string) (plan : TerraformChanges) : Prop :=
  tf_workload_id plan = wid /\
  forall name d, In (name, d) (changes plan) -> action d = scale_up ->
    desired_capacity d = 2%Z /\ min_capacity d = 2%Z /\ max_capacity d = 4%Z.

Definition deploys_capacity_two (wid : string) (e : Event) : Prop :=
  match e with
  | TerraformApply plan | TerraformRollback plan => capacity_two wid plan
  | _ => True
  end.

Definition decided_for (workload : Workload) (dec : Decision) : Prop :=
  dec_workload_id dec = id workload /\
  ex_required_instances (reasoning dec) = required_instances workload.

(** The item [_queue_for_approval] appends in state [s]. *)
Definition queued_item (workload : Workload) (savings : Q) (why : Reason) (s : Engine) : ApprovalRequest :=
  mkApprovalRequest (id workload) (clock s) savings pending_approval why
    (PlacementKeys (_get_aws_cost s) (_get_alibaba_cost s)
       (if Qltb (_get_alibaba_cost s) (_get_aws_cost s) then "alibaba" else "aws")).

(** ** Concrete engines and inputs *)

(** The classifier as [_initialize_ml_model] leaves it: not fitted. *)
Definition unfitted : Classifier := mkClassifier false (fun _ => Raise ModelError).

(** The engine after [__init__], with the given simulated costs. *)
Definition initial_engine (aws_cost alibaba_cost : Q) : Engine :=
  mkEngine (Some unfitted) [] [] false [] 0.01 1.0 50.0 aws_cost alibaba_cost ""
    (fun _ => apply_succeeded []) 0 [].

Definition example_workload : Workload :=
  mkWorkload "workload-001" 4 8 "high" 0.7 0.5 24.0.

(** Auto-deploy enabled with the default savings threshold, and provider
    prices of 200 and 500 per hour. *)
Definition expensive_engine : Engine :=
  mkEngine (Some unfitted) [] [] true [] 0.01 1.0 50.0 200 500 ""
    (fun _ => apply_succeeded []) 0 [].

(** Auto-deploy enabled with the default thresholds and simulated costs. *)
Definition auto_deploy_engine : Engine :=
  mkEngine (Some unfitted) [] [] true [] 0.01 1.0 50.0 0.05 0.50 ""
    (fun _ => apply_succeeded []) 0 [].

(** AWS at no cost. *)
Definition free_aws_engine : Engine := initial_engine 0 0.50.

(** The scenario "Equal Costs" of [simulate_costs.py]. *)
Definition equal_costs_engine : Engine := initial_engine 0.05 0.05.

(** A fitted classifier that follows the ['aws_cost'] feature, and a
    telemetry record whose AWS entry carries that key. *)
Definition biased_classifier : Classifier :=
  mkClassifier true
    (fun rows =>
       match rows with
       | [row] => if Qltb 0.5 (nth 5 row 0) then Ok [[0; 1]] else Ok [[1; 0]]
       | _ => Raise ModelError
       end).

Definition biased_telemetry : Telemetry :=
  mkTelemetry 0
    [ ("aws", mkProviderData "us-east-1" 100 50 0.2 0.3 2 (Some true) (Some 500)
                [("aws_cost", 1)]);
      ("alibaba", mkProviderData "us-west-1" 50 60 0.4 0.5 15 (Some true) (Some 500) []) ].

Definition biased_engine : Engine :=
  mkEngine (Some biased_classifier) [] [biased_telemetry] false [] 0.01 1.0 50.0
    0.05 0.50 "" (fun _ => apply_succeeded []) 1 [].

Definition two_core_workload : Workload :=
  mkWorkload "workload-002" 2 4 "medium" 0.5 0.5 1.0.

(** One item waiting for approval. *)
Definition waiting_item : ApprovalRequest :=
  mkApprovalRequest "workload-001" 1 0.45 pending_approval ManualApprovalRequired
    (PlacementKeys 0.05 0.50 "aws").

Definition waiting_engine : Engine :=
  mkEngine (Some unfitted) [] [] false [waiting_item] 0.01 1.0 50.0 0.05 0.50 ""
    (fun _ => apply_succeeded []) 2 [].

(** The same on a host without the Terraform directory or binary: neither
    [terraform apply] nor the rollback can be started. *)
Definition no_terraform_engine : Engine :=
  mkEngine (Some unfitted) [] [] false [waiting_item] 0.01 1.0 50.0 0.05 0.50 ""
    (fun _ => setup_failed rollback_not_started) 2 [].

(** The scenario "AWS Expensive" of [simulate_costs.py], with one approved
    workload running on AWS. *)
Definition drifted_engine : Engine :=
  mkEngine (Some unfitted) [] [] false [with_status approved waiting_item]
    0.01 1.0 50.0 0.60 0.05 "" (fun _ => apply_succeeded []) 2 [].

Definition running_on_aws : RunningWorkload :=
  mkRunningWorkload "workload-001" "aws" 4 8 "medium" 1.

(** Telemetry in which AWS runs twenty [t3.medium] instances
    (20 x 0.0416 per hour), with the default simulated costs. *)
Definition busy_aws_telemetry : Telemetry :=
  mkTelemetry 0
    [ ("aws", mkProviderData "us-east-1" 0.832 50 0.2 0.3 20 (Some true) (Some 500) []);
      ("alibaba", mkProviderData "us-west-1" 0.50 60 0.4 0.5 15 (Some true) (Some 800) []) ].

Definition busy_aws_engine : Engine :=
  mkEngine (Some unfitted) [] [busy_aws_telemetry] false [] 0.01 1.0 50.0
    0.05 0.50 "" (fun _ => apply_succeeded []) 1 [].

(** ** Further methods of the engine *)

(** [xs[start:]] for an integer [start]: a negative start counts from the
    end and is clipped at the front; a start beyond the end gives the empty
    list. *)
Definition slice_from {A} (xs : list A) (start : Z) : list A :=
  let n := Z.of_nat (List.length xs) in
  let i := if (start <? 0)%Z then Z.max 0 (n + start) else Z.min start n in
  skipn (Z.to_nat i) xs.

(** [get_decision_history] (main.py 2101-2103): [self.decision_history[-limit:]]. *)
Definition get_decision_history (limit : Z) (self : Engine) : list Decision :=
  slice_from (decision_history self) (- limit).

Definition set_telemetry_data (f : list Telemetry -> list Telemetry) (s : Engine) : Engine :=
  mkEngine (ml_model s) (decision_history s) (f (telemetry_data s))
    (auto_deploy_enabled s) (pending_workloads s) (approval_threshold s)
    (max_cost_per_hour s) (cost_threshold s) (aws_simulated_cost s)
    (alibaba_simulated_cost s) (alert_webhook_url s) (terraform_outcome s)
    (clock s) (trace s).

(** The body of the loop of [_collect_telemetry] once the fetch has returned
    [telemetry] (main.py 235-239): append, then keep the last 1000 records. *)
Definition store_telemetry (telemetry : Telemetry) : M unit :=
  modify (set_telemetry_data (fun l => l ++ [telemetry])) ;;;
  data <- gets telemetry_data ;;
  if (1000 <? List.length data)%nat
  then modify (set_telemetry_data (fun l => slice_from l (-1000)))
  else ret tt.

(** Two-argument [max(a, b)] on floats: the first argument wins ties. *)
Definition max2 (a b : Q) : Q := if Qltb a b then b else a.

(** [needle in hay] on strings. *)
Fixpoint contains (needle hay : string) : bool :=
  if String.prefix needle hay then true
  else match hay with
       | EmptyString => false
       | String _ hay' => contains needle hay'
       end.

(** What [_fetch_aws_telemetry] gets from outside.  Either the EC2 listing
    succeeds, giving the instance types of the running instances, or it
    raises and the method takes its fallback.  [terraform_region] is the
    outcome of reading the region from [terraform output]; the utilisations
    are the CloudWatch values or the draws that replace them, and
    [aws_latency_noise] is the draw [np.random.normal(0, 10)]. *)
Record AwsReadings : Type := mkAwsReadings {
  terraform_region : result string;
  aws_latency_noise : Q;
  aws_cpu_utilization : Q;
  aws_memory_utilization : Q
}.

Inductive AwsProbe : Type :=
| Listed (instance_types : list string) (readings : AwsReadings)
| ListingFailed (readings : AwsReadings).

(** The cost loop of [_fetch_aws_telemetry] (main.py 283-296). *)
Fixpoint instances_cost (instance_types : list string) (total_cost : Q) : Q :=
  match instance_types with
  | [] => total_cost
  | instance_type :: rest =>
      instances_cost rest
        (if contains "t3.medium" instance_type then total_cost + 0.0416
         else if contains "t3.small" instance_type then total_cost + 0.0208
         else total_cost + 0.05)
  end.

(** The value of a call of an [async def] method, or a float. *)
Inductive FloatOrCoroutine : Type :=
| AFloat (value : Q)
| ACoroutine.

(** [self._ping_test_latency(lb_dns)]: the method is [async def]
    (main.py 583) and the call is not awaited. *)
Definition _ping_test_latency_call : FloatOrCoroutine := ACoroutine.

(** The float that [f"{v:.1f}"] formats; a coroutine object does not
    support the format. *)
Definition format_float (v : FloatOrCoroutine) : result Q :=
  match v with
  | AFloat value => Ok value
  | ACoroutine => Raise TypeError
  end.

(** The region and latency block of [_fetch_aws_telemetry]
    (main.py 349-380, and 397-419 in the fallback): the region of the
    Terraform outputs and the latency of the probe, logged, or, on any
    exception, ['us-east-1'] and a simulated latency. *)
Definition region_and_latency (readings : AwsReadings) : string * Q :=
  match rbind (terraform_region readings) (fun real_region =>
        let latency_ms := _ping_test_latency_call in
        rbind (format_float latency_ms) (fun shown =>
        Ok (real_region, shown))) with
  | Ok found => found
  | Raise _ => ("us-east-1", 50 + aws_latency_noise readings)
  end.

(** [_fetch_aws_telemetry] (main.py 265-431): the dict it returns. *)
Definition _fetch_aws_telemetry (probe : AwsProbe) (self : Engine) : ProviderData :=
  match probe with
  | Listed instance_types readings =>
      let total_cost := instances_cost instance_types 0 in
      let cpu_utilization :=
        match instance_types with
        | [] => 0
        | _ :: _ => aws_cpu_utilization readings
        end in
      let memory_utilization :=
        match instance_types with
        | [] => 0
        | _ :: _ => aws_memory_utilization readings
        end in
      let found := region_and_latency readings in
      let real_region := fst found in
      let latency_ms := snd found in
      mkProviderData real_region
        (if Qltb 0 total_cost then total_cost else aws_simulated_cost self)
        latency_ms
        (max2 0 (min2 1 cpu_utilization))
        (max2 0 (min2 1 memory_utilization))
        (Z.of_nat (List.length instance_types))
        (Some true) (Some 500) []
  | ListingFailed readings =>
      let found := region_and_latency readings in
      let real_region := fst found in
      let latency_ms := snd found in
      mkProviderData real_region (aws_simulated_cost self)
        latency_ms
        (aws_cpu_utilization readings) (aws_memory_utilization readings)
        2 (Some true) (Some 500) []
  end.

(** The random draws of [_fetch_alibaba_telemetry]. *)
Record AlibabaDraws : Type := mkAlibabaDraws {
  draw_latency_noise : Q;
  draw_cpu_utilization : Q;
  draw_memory_utilization : Q;
  draw_available_instances : Z;
  draw_credits : Q
}.

(** [_fetch_alibaba_telemetry] (main.py 433-447). *)
Definition _fetch_alibaba_telemetry (draws : AlibabaDraws) (self : Engine) : ProviderData :=
  let alibaba_cost := alibaba_simulated_cost self in
  mkProviderData "us-west-1" alibaba_cost (60 + draw_latency_noise draws)
    (draw_cpu_utilization draws) (draw_memory_utilization draws)
    (draw_available_instances draws) (Some true) (Some (draw_credits draws)) [].

(** [_fetch_telemetry_data] (main.py 248-263). *)
Definition _fetch_telemetry_data (time : nat) (probe : AwsProbe) (draws : AlibabaDraws) (self : Engine) : Telemetry :=
  let providers := [] in
  let aws_data := _fetch_aws_telemetry probe self in
  let providers := dict_set providers "aws" aws_data in
  let alibaba_data := _fetch_alibaba_telemetry draws self in
  let providers := dict_set providers "alibaba" alibaba_data in
  mkTelemetry time providers.

(** [enable_auto_deploy] (main.py 1596-1606).  [env_cost_threshold] is
    [float(os.getenv('AI_COST_THRESHOLD', 50.0))]. *)
Definition enable_auto_deploy (conditions : dict Q) (env_cost_threshold : Q) : M unit :=
  modify (fun s =>
    mkEngine (ml_model s) (decision_history s) (telemetry_data s)
      true (pending_workloads s)
      (get_default conditions "savings_threshold" 0.01)
      (get_default conditions "max_cost" 1.0)
      (get_default conditions "cost_threshold" env_cost_threshold)
      (aws_simulated_cost s) (alibaba_simulated_cost s) (alert_webhook_url s)
      (terraform_outcome s) (clock s) (trace s)).

(** [disable_auto_deploy] (main.py 1608-1611). *)
Definition disable_auto_deploy : M unit :=
  modify (fun s =>
    mkEngine (ml_model s) (decision_history s) (telemetry_data s)
      false (pending_workloads s) (approval_threshold s)
      (max_cost_per_hour s) (cost_threshold s)
      (aws_simulated_cost s) (alibaba_simulated_cost s) (alert_webhook_url s)
      (terraform_outcome s) (clock s) (trace s)).

Definition set_max_cost_per_hour (m : Q) (s : Engine) : Engine :=
  mkEngine (ml_model s) (decision_history s) (telemetry_data s)
    (auto_deploy_enabled s) (pending_workloads s) (approval_threshold s)
    m (cost_threshold s) (aws_simulated_cost s)
    (alibaba_simulated_cost s) (alert_webhook_url s) (terraform_outcome s)
    (clock s) (trace s).





(** The ['routing'] section of the configuration (main.py 175-180). *)
Record RoutingWeights : Type := mkRoutingWeights {
  cost_weight : Q;
  latency_weight : Q;
  reliability_weight : Q
}.

Definition default_routing_weights : RoutingWeights := mkRoutingWeights 0.4 0.3 0.3.

(** [_calculate_provider_score] (main.py 951-979), the legacy score.
    [noise] is the draw [np.random.normal(0, 0.1)]. *)
Definition _calculate_provider_score (weights : RoutingWeights) (noise : Q) (workload : Workload) (provider_data : ProviderData) : result Q :=
  rbind (div 1.0 (1.0 + cost_per_hour provider_data)) (fun cost_score =>
  rbind (div 1.0 (1.0 + latency_ms provider_data / 100.0)) (fun latency_score =>
  let resource_score := min2 1.0 (inject_Z (available_instances provider_data) / 20.0) in
  let reliability_score := 0.8 + noise in
  rbind (match credits_available provider_data with
         | Some credits => Ok credits
         | None => Raise (KeyError "credits_available")
         end) (fun credits =>
  let credits_bonus := min2 0.2 (credits / 1000.0) in
  let total_score :=
    cost_weight weights * cost_score +
    latency_weight weights * latency_score +
    reliability_weight weights * reliability_score +
    0.1 * resource_score +
    0.1 * credits_bonus in
  Ok total_score))).

(** The first statements of [main] (main.py 2219-2243): with the engine
    that [AIRoutingEngine()] has just built, the placement of the example
    workload and its change plan. *)
Definition main_startup : M TerraformChanges :=
  let workload := mkWorkload "workload-001" 4 8 "high" 0.7 0.5 24.0 in
  placement <- calculate_optimal_placement workload ;;
  let '(provider, region, confidence) := placement in
  terraform_changes <- generate_terraform_changes workload provider region ;;
  ret terraform_changes.

(** One iteration of the loop of [_collect_telemetry] (main.py 229-246),
    after the fetch has returned. *)
Definition collect_telemetry_iteration (time : nat) (probe : AwsProbe) (draws : AlibabaDraws) : M unit :=
  fun self => store_telemetry (_fetch_telemetry_data time probe draws self) self.

(** ** Vocabulary of the further properties *)

(** [grows PE PD PI s s']: from [s] to [s'] the configuration and the
    telemetry are untouched and the existing approval items are left as they
    are; the trace grew by events satisfying [PE], the decision log by
    decisions satisfying [PD] and the approval list by items satisfying
    [PI]. *)
Definition grows (PE : Event -> Prop) (PD : Decision -> Prop) (PI : ApprovalRequest -> Prop) (s s' : Engine) : Prop :=
  ml_model s' = ml_model s /\
  telemetry_data s' = telemetry_data s /\
  auto_deploy_enabled s' = auto_deploy_enabled s /\
  approval_threshold s' = approval_threshold s /\
  max_cost_per_hour s' = max_cost_per_hour s /\
  cost_threshold s' = cost_threshold s /\
  aws_simulated_cost s' = aws_simulated_cost s /\
  alibaba_simulated_cost s' = alibaba_simulated_cost s /\
  alert_webhook_url s' = alert_webhook_url s /\
  terraform_outcome s' = terraform_outcome s /\
  (exists evs, trace s' = trace s ++ evs /\ Forall PE evs) /\
  (exists ds, decision_history s' = decision_history s ++ ds /\ Forall PD ds) /\
  (exists items, pending_workloads s' = pending_workloads s ++ items /\ Forall PI items).

Definition growing {A} (PE : Event -> Prop) (PD : Decision -> Prop) (PI : ApprovalRequest -> Prop) (c : M A) : Prop :=
  forall s, grows PE PD PI s (snd (c s)).

(** An item waiting for approval of the placement of [workload]. *)
Definition placement_request_for (workload : Workload) (item : ApprovalRequest) : Prop :=
  workload_id item = id workload /\ status item = pending_approval.

(** [c] neither reads nor writes [max_cost_per_hour]. *)
Definition ignores_max_cost {A} (c : M A) : Prop :=
  forall m s, c (set_max_cost_per_hour m s)
              = (fst (c s), set_max_cost_per_hour m (snd (c s))).

Definition is_approved (item : ApprovalRequest) : bool :=
  match status item with
  | approved => true
  | _ => false
  end.

Definition is_switch_request (item : ApprovalRequest) : bool :=
  match req_keys item with
  | SwitchKeys _ _ => true
  | PlacementKeys _ _ _ => false
  end.

(** The events of a deployment that concern Terraform all carry [plan]. *)
Definition terraform_only_with (plan : TerraformChanges) (e : Event) : Prop :=
  match e with
  | TerraformApply p | TerraformRollback p => p = plan
  | _ => True
  end.

(** What can happen to a running engine: the calls of its public methods,
    an iteration of each background loop, and the start-up of [main]. *)
Inductive Operation : Type :=
| Process (workload : Workload)
| Approve (wid : string) (approve : bool)
| MonitoringPass
| CollectTelemetry (time : nat) (probe : AwsProbe) (draws : AlibabaDraws)
| EnableAutoDeploy (conditions : dict Q) (env_cost_threshold : Q)
| DisableAutoDeploy
| Startup.

Definition run_operation (op : Operation) : M unit :=
  match op with
  | Process workload => process_workload workload
  | Approve wid approve => approve_workload wid approve
  | MonitoringPass => monitoring_iteration
  | CollectTelemetry time probe draws => collect_telemetry_iteration time probe draws
  | EnableAutoDeploy conditions env_cost_threshold =>
      enable_auto_deploy conditions env_cost_threshold
  | DisableAutoDeploy => disable_auto_deploy
  | Startup => main_startup ;;; ret tt
  end.

Fixpoint run_operations (ops : list Operation) (self : Engine) : Engine :=
  match ops with
  | [] => self
  | op :: ops' => run_operations ops' (snd (run_operation op self))
  end.

(** The provider an item recommends when the simulated costs are [a] (AWS)
    and [b] (Alibaba). *)
Definition recommended_for (a b : Q) : string :=
  if Qltb b a then "alibaba" else "aws".

(** A placement request made at the simulated costs [a] and [b]. *)
Definition placement_item (a b : Q) (item : ApprovalRequest) : Prop :=
  req_keys item = PlacementKeys a b (recommended_for a b) /\
  status item <> pending_switch_approval.

Definition costs_and_items (a b : Q) (s : Engine) : Prop :=
  aws_simulated_cost s = a /\
  alibaba_simulated_cost s = b /\
  Forall (placement_item a b) (pending_workloads s).

Definition preserves {A} (a b : Q) (c : M A) : Prop :=
  forall s, costs_and_items a b s -> costs_and_items a b (snd (c s)).

(** The Terraform runs among the events [evs] of a deployment of [plan], by
    the outcome of the environment: none when neither [terraform apply] nor
    the rollback can be started; the rollback when only [terraform apply]
    cannot; [terraform apply] otherwise. *)
Definition terraform_started (outcome : ApplyOutcome) (plan : TerraformChanges) (evs : list Event) : Prop :=
  match outcome with
  | setup_failed rollback_not_started => Forall (fun e => ~ is_deployment e) evs
  | setup_failed _ => In (TerraformRollback plan) evs /\ ~ In (TerraformApply plan) evs
  | apply_succeeded _ | apply_failed _ => In (TerraformApply plan) evs
  end.

(** A plan that scales [provider] up to [capacity] instances, [capacity] at
    least and twice as many at most, and every other provider down to
    zero. *)
Definition scales_up_only (provider : string) (capacity : Z) (plan : TerraformChanges) : Prop :=
  exists d,
    In (provider, d) (changes plan) /\
    action d = scale_up /\
    desired_capacity d = capacity /\
    min_capacity d = capacity /\
    max_capacity d = (capacity * 2)%Z /\
    forall name' d', In (name', d') (changes plan) -> name' <> provider ->
      action d' = scale_down /\ desired_capacity d' = 0%Z /\
      min_capacity d' = 0%Z /\ max_capacity d' = 0%Z.

(** Every provider of the current states has a positive computed cost for
    [workload]. *)
Definition costs_positive (workload : Workload) (self : Engine) : Prop :=
  forall n d, In (n, d) (_get_current_provider_states self) ->
              0 < _calculate_workload_cost workload d.

(** ** Basic facts *)

Lemma Qltb_true (x y : Q) : Qltb x y = true <-> x < y.
Proof.
  unfold Qltb. rewrite negb_true_iff. split; intro H.
  - apply Qnot_le_lt. intro Hle. apply Qle_bool_iff in Hle. congruence.
  - destruct (Qle_bool y x) eqn:E; [|reflexivity].
    apply Qle_bool_iff in E. exfalso. apply (Qlt_not_le x y); assumption.
Qed.

Lemma Qltb_false (x y : Q) : Qltb x y = false <-> y <= x.
Proof.
  unfold Qltb. rewrite negb_false_iff. apply Qle_bool_iff.
Qed.

Lemma Qltb_cases (x y : Q) :
  (Qltb x y = true /\ x < y) \/ (Qltb x y = false /\ y <= x).
Proof.
  destruct (Qltb x y) eqn:E.
  - left. split; [reflexivity | now apply Qltb_true].
  - right. split; [reflexivity | now apply Qltb_false].
Qed.

Lemma min2_Qmin (a b : Q) : min2 a b == Qmin a b.
Proof.
  unfold min2. destruct (Qltb_cases b a) as [[E H] | [E H]]; rewrite E.
  - symmetry. apply Q.min_r. now apply Qlt_le_weak.
  - symmetry. now apply Q.min_l.
Qed.

Lemma min2_one (x : Q) : min2 1.0 x == Qmin 1 x.
Proof.
  rewrite min2_Qmin. assert (H : 1.0 == 1) by reflexivity. now rewrite H.
Qed.

Lemma max2Z_max (a b : Z) : max2Z a b = Z.max a b.
Proof.
  unfold max2Z. destruct (Z.ltb_spec a b); lia.
Qed.

Lemma required_instances_pos (workload : Workload) : (1 <= required_instances workload)%Z.
Proof.
  unfold required_instances. rewrite max2Z_max. lia.
Qed.

Lemma required_instances_Q (workload : Workload) : 1 <= inject_Z (required_instances workload).
Proof.
  change 1 with (inject_Z 1). rewrite <- Zle_Qle. apply required_instances_pos.
Qed.

Lemma div_ok (a b : Q) : ~ b == 0 -> div a b = Ok (a / b).
Proof.
  intro H. unfold div. destruct (Qeq_bool b 0) eqn:E; [|reflexivity].
  apply Qeq_bool_iff in E. contradiction.
Qed.

Lemma div_inv (a b q : Q) : div a b = Ok q -> ~ b == 0 /\ q = a / b.
Proof.
  unfold div. destruct (Qeq_bool b 0) eqn:E; [discriminate|].
  intro H. injection H as <-. split; [|reflexivity].
  intro Hb. apply Qeq_bool_iff in Hb. congruence.
Qed.

(** ** The cost model *)

Lemma spot_factor_range (d : ProviderData) : 0.4 <= spot_factor d <= 1.
Proof.
  unfold spot_factor. destruct (spot_available d) as [[|]|]; split; lra.
Qed.

Lemma credits_factor_range (d : ProviderData) : 0.8 <= credits_factor d <= 1.
Proof.
  unfold credits_factor.
  destruct (Qltb_cases 0 (credits_of d)) as [[E H] | [E H]]; rewrite E; [|split; lra].
  destruct (Q.min_spec 0.2 (credits_of d / 1000)) as [[H1 H2] | [H1 H2]]; rewrite H2.
  - split; lra.
  - assert (0 < credits_of d / 1000) by (apply Qlt_shift_div_l; lra).
    split; lra.
Qed.

Lemma workload_cost_factors (workload : Workload) (d : ProviderData) :
  _calculate_workload_cost workload d ==
  cost_per_hour d * inject_Z (required_instances workload) * spot_factor d * credits_factor d.
Proof.
  unfold _calculate_workload_cost, spot_factor, credits_factor, credits_of.
  assert (Hs : forall x, (match spot_available d with
                          | Some true => x * (1 - 0.6)
                          | _ => x
                          end) ==
                         x * (match spot_available d with
                              | Some true => 0.4
                              | _ => 1
                              end)).
  { intro x. destruct (spot_available d) as [[|]|]; lra. }
  destruct (credits_available d) as [c|].
  - destruct (Qltb 0 c).
    + rewrite min2_Qmin, Hs. lra.
    + rewrite Hs. lra.
  - change (Qltb 0 0) with false. cbv iota. rewrite Hs. lra.
Qed.

Lemma workload_cost_nonneg (workload : Workload) (d : ProviderData) :
  0 <= cost_per_hour d -> 0 <= _calculate_workload_cost workload d.
Proof.
  intro H. rewrite workload_cost_factors.
  pose proof (required_instances_Q workload).
  pose proof (spot_factor_range d). pose proof (credits_factor_range d).
  repeat apply Qmult_le_0_compat; lra.
Qed.

(** C4.  For a workload with at least one core and a provider state with
    non-negative price and credits, [_calculate_workload_cost] is the price
    times max(1, cores div 2), times 0.4 when spot is available, times
    1 - min(0.2, credits/1000) when credits are positive; it is never
    negative and the total discount multiplier lies in [0.32, 1]. *)
Theorem C4_workload_cost_formula_and_bounds :
  forall (workload : Workload) (d : ProviderData),
    (1 <= cpu_cores workload)%Z ->
    0 <= cost_per_hour d ->
    0 <= credits_of d ->
    _calculate_workload_cost workload d ==
      cost_per_hour d * inject_Z (Z.max 1 (cpu_cores workload / 2))
      * (if match spot_available d with Some true => true | _ => false end
         then 0.4 else 1)
      * (if Qltb 0 (credits_of d) then 1 - Qmin 0.2 (credits_of d / 1000) else 1)
    /\ _calculate_workload_cost workload d ==
         cost_per_hour d * inject_Z (Z.max 1 (cpu_cores workload / 2))
         * discount_multiplier d
    /\ 0 <= _calculate_workload_cost workload d
    /\ 0.32 <= discount_multiplier d <= 1.
Proof.
  intros workload d Hcores Hcost Hcredits.
  pose proof (workload_cost_factors workload d) as Hf.
  unfold required_instances in Hf. rewrite max2Z_max in Hf.
  repeat split.
  - rewrite Hf. unfold spot_factor, credits_factor.
    destruct (spot_available d) as [[|]|]; reflexivity.
  - rewrite Hf. unfold discount_multiplier. ring.
  - now apply workload_cost_nonneg.
  - unfold discount_multiplier.
    pose proof (spot_factor_range d). pose proof (credits_factor_range d). nra.
  - unfold discount_multiplier.
    pose proof (spot_factor_range d). pose proof (credits_factor_range d). nra.
Qed.

Lemma C4_witness :
  _calculate_workload_cost example_workload
    (mkProviderData "us-east-1" 0.05 50 0.5 0.6 10 (Some true) (Some 500) [])
  == 0.05 * inject_Z (Z.max 1 (4 / 2))
     * discount_multiplier
         (mkProviderData "us-east-1" 0.05 50 0.5 0.6 10 (Some true) (Some 500) []).
Proof.
  apply (C4_workload_cost_formula_and_bounds example_workload
           (mkProviderData "us-east-1" 0.05 50 0.5 0.6 10 (Some true) (Some 500) [])).
  - simpl. lia.
  - simpl. lra.
  - unfold credits_of. simpl. lra.
Defined.

(** ** Frames of the monadic code *)

Create HintDb framed discriminated.

Section Frames.

Variable PE : Event -> Prop.
Variable PD : Decision -> Prop.

Lemma frame_refl (s : Engine) : frame PE PD s s.
Proof.
  unfold frame. repeat (split; [reflexivity|]). split.
  - exists []. now rewrite app_nil_r.
  - exists []. now rewrite app_nil_r.
Qed.

Lemma frame_trans (s1 s2 s3 : Engine) :
  frame PE PD s1 s2 -> frame PE PD s2 s3 -> frame PE PD s1 s3.
Proof.
  unfold frame.
  intros (A1 & A2 & A3 & A4 & A5 & A6 & A7 & A8 & A9 & A10 & A11 & (ev1 & T1 & F1) & (d1 & D1 & G1))
         (B1 & B2 & B3 & B4 & B5 & B6 & B7 & B8 & B9 & B10 & B11 & (ev2 & T2 & F2) & (d2 & D2 & G2)).
  repeat (split; [congruence|]). split.
  - exists (ev1 ++ ev2). split.
    + rewrite T2, T1. now rewrite app_assoc.
    + apply Forall_app. now split.
  - exists (d1 ++ d2). split.
    + rewrite D2, D1. now rewrite app_assoc.
    + apply Forall_app. now split.
Qed.

Lemma framed_ret {A} (a : A) : framed PE PD (ret a).
Proof. intro s. apply frame_refl. Qed.

Lemma framed_raise {A} (e : exn) : framed PE PD (@raise A e).
Proof. intro s. apply frame_refl. Qed.

Lemma framed_lift {A} (r : result A) : framed PE PD (lift r).
Proof. intro s. apply frame_refl. Qed.

Lemma framed_gets {A} (f : Engine -> A) : framed PE PD (gets f).
Proof. intro s. apply frame_refl. Qed.

Lemma framed_bind {A B} (c : M A) (k : A -> M B) :
  framed PE PD c -> (forall a, framed PE PD (k a)) -> framed PE PD (bind c k).
Proof.
  intros Hc Hk s. unfold bind. specialize (Hc s).
  destruct (c s) as [[a|e] s1]; simpl in *.
  - eapply frame_trans; [exact Hc | apply Hk].
  - exact Hc.
Qed.

Lemma framed_lift_bind {A B} (r : result A) (k : A -> M B) :
  (forall a, r = Ok a -> framed PE PD (k a)) -> framed PE PD (bind (lift r) k).
Proof.
  intros Hk s. unfold bind, lift. destruct r as [a|e]; simpl.
  - now apply Hk.
  - apply frame_refl.
Qed.

Lemma framed_gets_bind {A B} (f : Engine -> A) (k : A -> M B) :
  (forall a, framed PE PD (k a)) -> framed PE PD (bind (gets f) k).
Proof. intro Hk. apply framed_bind; [apply framed_gets | exact Hk]. Qed.

Lemma framed_try {A} (c : M A) (h : exn -> M A) :
  framed PE PD c -> (forall e, framed PE PD (h e)) -> framed PE PD (try_except c h).
Proof.
  intros Hc Hh s. unfold try_except. specialize (Hc s).
  destruct (c s) as [[a|e] s1]; simpl in *.
  - exact Hc.
  - eapply frame_trans; [exact Hc | apply Hh].
Qed.

Lemma framed_emit (e : Event) : PE e -> framed PE PD (emit e).
Proof.
  intros He s. unfold emit, modify, set_trace, frame; simpl.
  repeat (split; [reflexivity|]). split.
  - exists [e]. split; [reflexivity | now constructor].
  - exists []. now rewrite app_nil_r.
Qed.

Lemma framed_now : framed PE PD now.
Proof.
  intro s. unfold now, bind, gets, modify, ret, set_clock, frame; simpl.
  repeat (split; [reflexivity|]). split.
  - exists []. now rewrite app_nil_r.
  - exists []. now rewrite app_nil_r.
Qed.

Lemma framed_record_decision (d : Decision) :
  PD d -> framed PE PD (modify (set_decision_history (fun h => h ++ [d]))).
Proof.
  intros Hd s. unfold modify, set_decision_history, frame; simpl.
  repeat (split; [reflexivity|]). split.
  - exists []. now rewrite app_nil_r.
  - exists [d]. split; [reflexivity | now constructor].
Qed.

Lemma framed_for_each {A B} (xs : list A) (body : A -> B -> M B) :
  (forall x acc, framed PE PD (body x acc)) ->
  forall acc, framed PE PD (for_each xs body acc).
Proof.
  intro Hbody. induction xs as [|x xs IH]; intro acc; simpl.
  - apply framed_ret.
  - apply framed_bind; [apply Hbody | intro; apply IH].
Qed.

Lemma framed_send_alert (message : AlertMessage) (severity : string) :
  PE (Alert message severity) -> framed PE PD (send_alert message severity).
Proof.
  intro H. unfold send_alert. apply framed_gets_bind. intro url.
  destruct (String.eqb url ""); [apply framed_ret | now apply framed_emit].
Qed.

End Frames.

#[export] Hint Resolve framed_ret framed_raise framed_lift framed_gets framed_now : framed.

Lemma frame_weaken (PE PE' : Event -> Prop) (PD PD' : Decision -> Prop) (s s' : Engine) :
  (forall e, PE e -> PE' e) -> (forall d, PD d -> PD' d) ->
  frame PE PD s s' -> frame PE' PD' s s'.
Proof.
  unfold frame.
  intros HE HD (A1 & A2 & A3 & A4 & A5 & A6 & A7 & A8 & A9 & A10 & A11 & (ev & T & F) & (ds & D & G)).
  repeat (split; [assumption|]). split.
  - exists ev. split; [assumption|]. eapply Forall_impl; [exact HE | exact F].
  - exists ds. split; [assumption|]. eapply Forall_impl; [exact HD | exact G].
Qed.

Lemma framed_weaken {A} (PE PE' : Event -> Prop) (PD PD' : Decision -> Prop) (c : M A) :
  (forall e, PE e -> PE' e) -> (forall d, PD d -> PD' d) ->
  framed PE PD c -> framed PE' PD' c.
Proof.
  intros HE HD Hc s. eapply frame_weaken; [exact HE | exact HD | apply Hc].
Qed.

Lemma frame_providers (PE : Event -> Prop) (PD : Decision -> Prop) (s s' : Engine) :
  frame PE PD s s' ->
  _get_current_provider_states s' = _get_current_provider_states s.
Proof.
  intros (A1 & A2 & A3 & A4 & A5 & A6 & A7 & A8 & A9 & A10 & A11 & _).
  unfold _get_current_provider_states, _get_default_provider_states.
  now rewrite A2, A8, A9.
Qed.

(** ** The predictive score *)

Lemma predict_framed (PD : Decision -> Prop) (workload : Workload) (d : ProviderData) :
  framed is_log PD (_predict_optimal_provider workload d).
Proof.
  unfold _predict_optimal_provider. apply framed_try.
  - apply framed_gets_bind. intros [clf|].
    + destruct (negb (has_classes_ clf)).
      * apply framed_bind; [apply framed_emit; exact I | intro; apply framed_ret].
      * apply framed_lift_bind. intros rows _.
        apply framed_lift_bind. intros row _.
        apply framed_lift_bind. intros p _. apply framed_ret.
    + apply framed_bind; [apply framed_emit; exact I | intro; apply framed_ret].
  - intro e. apply framed_bind; [apply framed_emit; exact I | intro; apply framed_ret].
Qed.

Lemma predict_value (workload : Workload) (d : ProviderData) (s : Engine) :
  fst (_predict_optimal_provider workload d s) = Ok (predictive_score (ml_model s) workload d).
Proof.
  unfold _predict_optimal_provider, predictive_score, try_except, bind, gets, lift, log, emit, modify, ret.
  destruct (ml_model s) as [clf|]; simpl; [|reflexivity].
  destruct (has_classes_ clf); simpl; [|reflexivity].
  destruct (predict_proba clf (features workload d)) as [rows|e]; simpl; [|reflexivity].
  destruct (index rows 0) as [row|e]; simpl; [|reflexivity].
  destruct (index row 1) as [p|e]; reflexivity.
Qed.

Lemma predict_spec (PD : Decision -> Prop) (workload : Workload) (d : ProviderData) (s : Engine) :
  exists s',
    _predict_optimal_provider workload d s = (Ok (predictive_score (ml_model s) workload d), s')
    /\ frame is_log PD s s'.
Proof.
  pose proof (predict_value workload d s) as Hv.
  pose proof (predict_framed PD workload d s) as Hf.
  destruct (_predict_optimal_provider workload d s) as [r s']; simpl in *.
  exists s'. subst r. now split.
Qed.

(** ** Dicts and [max] *)

Lemma dict_set_fresh {V} (d : dict V) (k : string) (v : V) :
  ~ In k (keys d) -> dict_set d k v = d ++ [(k, v)].
Proof.
  induction d as [|[k' v'] d IH]; simpl; intro H; [reflexivity|].
  destruct (String.eqb_spec k' k) as [->|Hne].
  - exfalso. apply H. now left.
  - f_equal. apply IH. intro Hin. apply H. now right.
Qed.

Lemma dict_get_in {V} (d : dict V) (k : string) (v : V) :
  NoDup (keys d) -> In (k, v) d -> dict_get d k = Some v.
Proof.
  induction d as [|[k' v'] d IH]; simpl; intros Hnd Hin; [contradiction|].
  inversion Hnd as [|? ? Hnotin Hnd']; subst.
  destruct Hin as [Heq | Hin].
  - injection Heq as -> ->. now rewrite String.eqb_refl.
  - destruct (String.eqb_spec k' k) as [->|Hne].
    + exfalso. apply Hnotin. unfold keys. change k with (fst (k, v)). now apply in_map.
    + now apply IH.
Qed.

Lemma dict_get_some {V} (d : dict V) (k : string) (v : V) :
  dict_get d k = Some v -> In (k, v) d.
Proof.
  induction d as [|[k' v'] d IH]; simpl; intro H; [discriminate|].
  destruct (String.eqb_spec k' k) as [->|Hne].
  - injection H as ->. now left.
  - right. now apply IH.
Qed.

Lemma subscript_in {V} (d : dict V) (k : string) (v : V) :
  NoDup (keys d) -> In (k, v) d -> subscript d k = Ok v.
Proof.
  intros Hnd Hin. unfold subscript. now rewrite (dict_get_in d k v Hnd Hin).
Qed.

Lemma subscript_inv {V} (d : dict V) (k : string) (v : V) :
  subscript d k = Ok v -> In (k, v) d.
Proof.
  unfold subscript. destruct (dict_get d k) as [v'|] eqn:E; [|discriminate].
  intro H. injection H as <-. now apply dict_get_some.
Qed.

Lemma max_from_map {A B} (f : A -> B) (key : B -> Q) (best : A) (xs : list A) :
  max_from key (f best) (map f xs) = f (max_from (fun x => key (f x)) best xs).
Proof.
  revert best. induction xs as [|x xs IH]; intro best; simpl; [reflexivity|].
  destruct (Qltb (key (f best)) (key (f x))); apply IH.
Qed.

(** [max] returns the first of the maximal elements: what precedes it is
    strictly smaller, what follows it is not larger. *)
Lemma max_from_split {A} (key : A -> Q) (xs pre mid : list A) (best : A) :
  (forall x, In x pre -> key x < key best) ->
  (forall x, In x mid -> key x <= key best) ->
  exists l1 l2,
    pre ++ best :: mid ++ xs = l1 ++ max_from key best xs :: l2 /\
    (forall x, In x l1 -> key x < key (max_from key best xs)) /\
    (forall x, In x l2 -> key x <= key (max_from key best xs)).
Proof.
  revert pre mid best. induction xs as [|x xs IH]; intros pre mid best Hpre Hmid; simpl.
  - exists pre, mid. rewrite app_nil_r. now repeat split.
  - destruct (Qltb_cases (key best) (key x)) as [[E H] | [E H]]; rewrite E.
    + destruct (IH (pre ++ best :: mid) [] x) as (l1 & l2 & Heq & H1 & H2).
      * intros y Hy. apply in_app_or in Hy. destruct Hy as [Hy | [<- | Hy]].
        -- eapply Qlt_trans; [now apply Hpre | exact H].
        -- exact H.
        -- eapply Qle_lt_trans; [now apply Hmid | exact H].
      * intros y [].
      * exists l1, l2. split; [|now split].
        rewrite <- Heq. simpl. rewrite <- app_assoc. reflexivity.
    + destruct (IH pre (mid ++ [x]) best) as (l1 & l2 & Heq & H1 & H2).
      * exact Hpre.
      * intros y Hy. apply in_app_or in Hy. destruct Hy as [Hy | [<- | []]].
        -- now apply Hmid.
        -- exact H.
      * exists l1, l2. split; [|now split].
        rewrite <- Heq. rewrite <- app_assoc. reflexivity.
Qed.

Lemma max_by_split {A} (key : A -> Q) (xs : list A) :
  xs <> [] ->
  exists m l1 l2,
    max_by key xs = Ok m /\ xs = l1 ++ m :: l2 /\
    (forall x, In x l1 -> key x < key m) /\
    (forall x, In x l2 -> key x <= key m).
Proof.
  destruct xs as [|x xs]; [congruence|]. intros _.
  destruct (max_from_split key xs [] [] x) as (l1 & l2 & Heq & H1 & H2).
  - intros y [].
  - intros y [].
  - exists (max_from key x xs), l1, l2. simpl in Heq. now repeat split.
Qed.

Lemma max_by_in {A} (key : A -> Q) (xs : list A) (m : A) :
  max_by key xs = Ok m -> In m xs /\ forall x, In x xs -> key x <= key m.
Proof.
  intro H. destruct xs as [|x xs]; [discriminate|].
  destruct (max_by_split key (x :: xs)) as (m' & l1 & l2 & Hm & Heq & H1 & H2); [discriminate|].
  rewrite H in Hm. injection Hm as <-. rewrite Heq. split.
  - apply in_or_app. right. now left.
  - intros y Hy. apply in_app_or in Hy. destruct Hy as [Hy | [<- | Hy]].
    + apply Qlt_le_weak. now apply H1.
    + apply Qle_refl.
    + now apply H2.
Qed.

Lemma min_from_in {A} (key : A -> Q) (best : A) (xs : list A) :
  In (min_from key best xs) (best :: xs).
Proof.
  revert best. induction xs as [|x xs IH]; intro best; simpl; [now left|].
  destruct (Qltb (key x) (key best)).
  - destruct (IH x) as [H | H]; [right; left; exact H | right; right; exact H].
  - destruct (IH best) as [H | H]; [left; exact H | right; right; exact H].
Qed.

Lemma min_by_in {A} (key : A -> Q) (xs : list A) (m : A) :
  min_by key xs = Ok m -> In m xs.
Proof.
  destruct xs as [|x xs]; simpl; [discriminate|].
  intro H. injection H as <-. apply min_from_in.
Qed.

(** ** The loops of the placement *)

Lemma keys_costs_of (workload : Workload) (providers : dict ProviderData) :
  keys (costs_of workload providers) = keys providers.
Proof.
  unfold keys, costs_of. rewrite map_map. reflexivity.
Qed.

Lemma keys_predictions_of (model : option Classifier) (workload : Workload) (providers : dict ProviderData) :
  keys (predictions_of model workload providers) = keys providers.
Proof.
  unfold keys, predictions_of. rewrite map_map. reflexivity.
Qed.

Lemma keys_scores_of (model : option Classifier) (workload : Workload) (providers : dict ProviderData) :
  keys (scores_of model workload providers) = keys providers.
Proof.
  unfold keys, scores_of. rewrite map_map. reflexivity.
Qed.

Lemma keys_app {V} (d1 d2 : dict V) : keys (d1 ++ d2) = keys d1 ++ keys d2.
Proof. unfold keys. apply map_app. Qed.

Lemma NoDup_app_fresh (l1 l2 : list string) (k : string) :
  NoDup (l1 ++ k :: l2) -> ~ In k l1.
Proof.
  intros H Hin. apply NoDup_remove_2 in H. apply H. apply in_or_app. now left.
Qed.

Lemma cost_and_prediction_loop_acc (PD : Decision -> Prop) (workload : Workload)
      (providers : dict ProviderData) :
  forall (c0 m0 : dict Q) (s : Engine),
    keys c0 = keys m0 ->
    NoDup (keys c0 ++ keys providers) ->
    exists s',
      for_each providers
        (fun item acc =>
           let '(provider_name, provider_data) := item in
           let '(costs, ml_predictions) := acc in
           let cost := _calculate_workload_cost workload provider_data in
           let costs := dict_set costs provider_name cost in
           ml_confidence <- _predict_optimal_provider workload provider_data ;;
           ret (costs, dict_set ml_predictions provider_name ml_confidence))
        (c0, m0) s
      = (Ok (c0 ++ costs_of workload providers,
             m0 ++ predictions_of (ml_model s) workload providers), s')
      /\ frame is_log PD s s'.
Proof.
  induction providers as [|[n d] providers IH]; intros c0 m0 s Hk Hnd.
  - exists s. simpl. rewrite !app_nil_r. split; [reflexivity | apply frame_refl].
  - simpl in Hnd.
    assert (Hfresh : ~ In n (keys c0)) by (eapply NoDup_app_fresh; exact Hnd).
    destruct (predict_spec PD workload d s) as (s1 & Hp & Hf1).
    destruct (IH (c0 ++ [(n, _calculate_workload_cost workload d)])
                 (m0 ++ [(n, predictive_score (ml_model s) workload d)]) s1)
      as (s2 & Hloop & Hf2).
    + rewrite !keys_app. now rewrite Hk.
    + rewrite keys_app. simpl. rewrite <- app_assoc. exact Hnd.
    + exists s2. split; [|eapply frame_trans; eassumption].
      cbn [for_each]. unfold bind at 1. unfold bind at 1. rewrite Hp.
      unfold ret at 1.
      rewrite (dict_set_fresh c0 n _ Hfresh).
      rewrite (dict_set_fresh m0 n); [|now rewrite <- Hk].
      refine (eq_trans Hloop _).
      destruct Hf1 as (Hm & _). rewrite Hm.
      simpl. rewrite <- !app_assoc. reflexivity.
Qed.

Lemma cost_and_prediction_loop_spec (PD : Decision -> Prop) (workload : Workload)
      (providers : dict ProviderData) (s : Engine) :
  NoDup (keys providers) ->
  exists s',
    cost_and_prediction_loop workload providers s
    = (Ok (costs_of workload providers, predictions_of (ml_model s) workload providers), s')
    /\ frame is_log PD s s'.
Proof.
  intro Hnd. unfold cost_and_prediction_loop.
  destruct (cost_and_prediction_loop_acc PD workload providers [] [] s eq_refl Hnd)
    as (s' & H & Hf).
  exists s'. now split.
Qed.

Lemma combined_score_loop_acc (model : option Classifier) (workload : Workload)
      (providers : dict ProviderData) :
  NoDup (keys providers) ->
  (forall n d, In (n, d) providers -> ~ _calculate_workload_cost workload d + 0.001 == 0) ->
  forall suf pre,
    providers = pre ++ suf ->
    rfor (keys suf)
      (fun provider_name combined_scores =>
         rbind (subscript (costs_of workload providers) provider_name) (fun c =>
         rbind (div 1.0 (c + 0.001)) (fun cost_score =>
         rbind (subscript (predictions_of model workload providers) provider_name) (fun ml_score =>
         Ok (dict_set combined_scores provider_name (0.7 * cost_score + 0.3 * ml_score))))))
      (scores_of model workload pre)
    = Ok (scores_of model workload providers).
Proof.
  intros Hnd Hnz. induction suf as [|[n d] suf IH]; intros pre Heq.
  - rewrite app_nil_r in Heq. subst pre. reflexivity.
  - assert (Hin : In (n, d) providers).
    { rewrite Heq. apply in_or_app. right. now left. }
    cbn [keys map fst rfor].
    rewrite (subscript_in (costs_of workload providers) n (_calculate_workload_cost workload d)).
    2: { now rewrite keys_costs_of. }
    2: { unfold costs_of. now apply (in_map (fun nd => (fst nd, _calculate_workload_cost workload (snd nd))) _ (n, d)). }
    cbn [rbind]. rewrite div_ok by (eapply Hnz; exact Hin). cbn [rbind].
    rewrite (subscript_in (predictions_of model workload providers) n (predictive_score model workload d)).
    2: { now rewrite keys_predictions_of. }
    2: { unfold predictions_of. now apply (in_map (fun nd => (fst nd, predictive_score model workload (snd nd))) _ (n, d)). }
    cbn [rbind]. rewrite dict_set_fresh.
    2: { rewrite keys_scores_of. eapply NoDup_app_fresh.
         rewrite Heq in Hnd. rewrite keys_app in Hnd. exact Hnd. }
    specialize (IH (pre ++ [(n, d)])).
    unfold scores_of in IH at 1. rewrite map_app in IH. apply IH.
    rewrite Heq. rewrite <- app_assoc. reflexivity.
Qed.

Lemma combined_score_loop_spec (model : option Classifier) (workload : Workload)
      (providers : dict ProviderData) :
  NoDup (keys providers) ->
  (forall n d, In (n, d) providers -> ~ _calculate_workload_cost workload d + 0.001 == 0) ->
  combined_score_loop (costs_of workload providers) (predictions_of model workload providers)
  = Ok (scores_of model workload providers).
Proof.
  intros Hnd Hnz. unfold combined_score_loop. rewrite keys_costs_of.
  apply (combined_score_loop_acc model workload providers Hnd Hnz providers []).
  reflexivity.
Qed.

(** ** The selection step and the placement *)

Lemma select_best_provider_spec (PD : Decision -> Prop) (workload : Workload) (s : Engine) :
  _get_current_provider_states s <> [] ->
  NoDup (keys (_get_current_provider_states s)) ->
  (forall n d, In (n, d) (_get_current_provider_states s) ->
               ~ _calculate_workload_cost workload d + 0.001 == 0) ->
  exists s' before n d after,
    select_best_provider workload s
    = (Ok (mkSelection (_get_current_provider_states s)
             (costs_of workload (_get_current_provider_states s))
             (predictions_of (ml_model s) workload (_get_current_provider_states s))
             (scores_of (ml_model s) workload (_get_current_provider_states s))
             n (combined_score (ml_model s) workload d)
             (_calculate_workload_cost workload d)), s')
    /\ frame is_log PD s s'
    /\ _get_current_provider_states s = before ++ (n, d) :: after
    /\ (forall x, In x before ->
          combined_score (ml_model s) workload (snd x) < combined_score (ml_model s) workload d)
    /\ (forall x, In x after ->
          combined_score (ml_model s) workload (snd x) <= combined_score (ml_model s) workload d)
    /\ max_by (fun x => combined_score (ml_model s) workload (snd x))
         (_get_current_provider_states s) = Ok (n, d).
Proof.
  set (P := _get_current_provider_states s). intros Hne Hnd Hnz.
  destruct (cost_and_prediction_loop_spec PD workload P s Hnd) as (s' & Hloop & Hf).
  destruct (max_by_split (fun x => combined_score (ml_model s) workload (snd x)) P Hne)
    as ([n d] & before & after & Hmax & Hsplit & Hlt & Hle).
  exists s', before, n, d, after.
  refine (conj _ (conj Hf (conj Hsplit (conj Hlt (conj Hle Hmax))))).
  unfold select_best_provider, bind, gets, lift, ret. fold P. rewrite Hloop.
  rewrite (combined_score_loop_spec (ml_model s) workload P Hnd Hnz).
  assert (Hwin : max_by snd (scores_of (ml_model s) workload P)
                 = Ok (n, combined_score (ml_model s) workload d)).
  { destruct P as [|x xs]; [congruence|]. simpl in Hmax. injection Hmax as Hmax.
    unfold scores_of. simpl.
    rewrite (max_from_map (fun nd => (fst nd, combined_score (ml_model s) workload (snd nd))) snd x xs).
    simpl. rewrite Hmax. reflexivity. }
  rewrite Hwin.
  rewrite (subscript_in (costs_of workload P) n (_calculate_workload_cost workload d)).
  - reflexivity.
  - now rewrite keys_costs_of.
  - unfold costs_of.
    apply (in_map (fun nd => (fst nd, _calculate_workload_cost workload (snd nd))) P (n, d)).
    rewrite Hsplit. apply in_or_app. right. now left.
Qed.

Lemma placement_equation (workload : Workload) (s : Engine) :
  _get_current_provider_states s <> [] ->
  NoDup (keys (_get_current_provider_states s)) ->
  (forall n d, In (n, d) (_get_current_provider_states s) ->
               ~ _calculate_workload_cost workload d + 0.001 == 0) ->
  exists s1 before n d after,
    select_best_provider workload s
    = (Ok (mkSelection (_get_current_provider_states s)
             (costs_of workload (_get_current_provider_states s))
             (predictions_of (ml_model s) workload (_get_current_provider_states s))
             (scores_of (ml_model s) workload (_get_current_provider_states s))
             n (combined_score (ml_model s) workload d)
             (_calculate_workload_cost workload d)), s1)
    /\ frame is_log (fun _ => False) s s1
    /\ _get_current_provider_states s = before ++ (n, d) :: after
    /\ (forall x, In x before ->
          combined_score (ml_model s) workload (snd x) < combined_score (ml_model s) workload d)
    /\ (forall x, In x after ->
          combined_score (ml_model s) workload (snd x) <= combined_score (ml_model s) workload d)
    /\ calculate_optimal_placement workload s
       = match compute_cost_confidence (costs_of workload (_get_current_provider_states s)) n
                 (_calculate_workload_cost workload d) with
         | Raise e => (Raise e, s1)
         | Ok cc =>
             match _explain_cost_decision workload
                     (costs_of workload (_get_current_provider_states s)) n with
             | Raise e => (Raise e, set_clock S s1)
             | Ok explanation =>
                 (Ok (n, region d, 0.7 * cc + 0.3 * predictive_score (ml_model s) workload d),
                  set_decision_history
                    (fun h => h ++ [mkDecision (clock s1) (id workload) n
                                      (_calculate_workload_cost workload d)
                                      (costs_of workload (_get_current_provider_states s))
                                      (predictions_of (ml_model s) workload (_get_current_provider_states s))
                                      (scores_of (ml_model s) workload (_get_current_provider_states s))
                                      (0.7 * cc + 0.3 * predictive_score (ml_model s) workload d)
                                      cc (predictive_score (ml_model s) workload d)
                                      explanation])
                    (set_clock S s1))
             end
         end.
Proof.
  intros Hne Hnd Hnz.
  destruct (select_best_provider_spec (fun _ => False) workload s Hne Hnd Hnz)
    as (s1 & before & n & d & after & Hsel & Hf & Hsplit & Hlt & Hle & _).
  exists s1, before, n, d, after.
  refine (conj Hsel (conj Hf (conj Hsplit (conj Hlt (conj Hle _))))).
  set (P := _get_current_provider_states s) in *.
  assert (Hin : In (n, d) P).
  { rewrite Hsplit. apply in_or_app. right. now left. }
  unfold calculate_optimal_placement. unfold bind at 1. rewrite Hsel.
  cbn [sel_provider_name sel_costs sel_estimated_cost sel_ml_predictions
       sel_combined_scores sel_providers].
  unfold bind at 1. unfold lift at 1.
  destruct (compute_cost_confidence (costs_of workload P) n (_calculate_workload_cost workload d))
    as [cc|e]; [|reflexivity].
  unfold bind at 1. unfold lift at 1.
  rewrite (subscript_in (predictions_of (ml_model s) workload P) n
             (predictive_score (ml_model s) workload d)).
  2: { now rewrite keys_predictions_of. }
  2: { unfold predictions_of.
       now apply (in_map (fun nd => (fst nd, predictive_score (ml_model s) workload (snd nd))) P (n, d)). }
  unfold now, bind, gets, modify, ret, lift. cbn [fst snd].
  destruct (_explain_cost_decision workload (costs_of workload P) n) as [explanation|e];
    [|reflexivity].
  rewrite (subscript_in P n d Hnd Hin). reflexivity.
Qed.

Lemma compute_cost_confidence_ok (costs : dict Q) (n : string) (c : Q) :
  ~ c == 0 ->
  exists cc,
    compute_cost_confidence costs n c = Ok cc /\ cost_confidence_as_recorded costs n c cc.
Proof.
  intro Hc. unfold compute_cost_confidence, cost_confidence_as_recorded.
  fold (other_costs costs n).
  destruct (other_costs costs n) as [|x xs] eqn:E.
  - exists 0.5. split; [reflexivity|]. left. now split.
  - destruct (max_by_split (fun c => c) (x :: xs)) as (m & l1 & l2 & Hm & Heq & _); [discriminate|].
    rewrite Hm. cbn [rbind]. rewrite (div_ok _ _ Hc). cbn [rbind].
    eexists. split; [reflexivity|]. right. exists m. split.
    + apply (max_by_in (fun c => c) (x :: xs) m Hm).
    + apply min2_one.
Qed.

Lemma compute_cost_confidence_inv (costs : dict Q) (n : string) (c cc : Q) :
  compute_cost_confidence costs n c = Ok cc ->
  cost_confidence_as_recorded costs n c cc.
Proof.
  unfold compute_cost_confidence, cost_confidence_as_recorded.
  fold (other_costs costs n).
  destruct (other_costs costs n) as [|x xs] eqn:E.
  - intro H. injection H as <-. left. now split.
  - destruct (max_by (fun c => c) (x :: xs)) as [m|e] eqn:Hm; [|discriminate].
    cbn [rbind]. destruct (div (m - c) c) as [q|e] eqn:Hq; [|discriminate].
    cbn [rbind]. intro H. injection H as <-.
    apply div_inv in Hq. destruct Hq as [_ ->].
    right. exists m. split.
    + apply (max_by_in (fun c => c) (x :: xs) m Hm).
    + apply min2_one.
Qed.

Lemma explain_inv (workload : Workload) (costs : dict Q) (n : string) (explanation : Explanation) :
  _explain_cost_decision workload costs n = Ok explanation ->
  ex_required_instances explanation = required_instances workload.
Proof.
  unfold _explain_cost_decision.
  destruct (subscript costs n) as [c|e]; [|discriminate]. cbn [rbind].
  destruct (filter (fun nc => negb (String.eqb (fst nc) n)) costs) as [|x xs].
  - cbn [rbind]. intro H. injection H as <-. reflexivity.
  - destruct (min_by snd (x :: xs)) as [alt|e]; [|discriminate]. cbn [rbind].
    destruct (div (snd alt - c) (snd alt)) as [q|e]; [|discriminate]. cbn [rbind].
    intro H. injection H as <-. reflexivity.
Qed.

Lemma explain_ok (workload : Workload) (costs : dict Q) (n : string) (c : Q) :
  subscript costs n = Ok c ->
  (forall n' c', In (n', c') costs -> ~ c' == 0) ->
  exists explanation, _explain_cost_decision workload costs n = Ok explanation.
Proof.
  intros Hn Hnz. unfold _explain_cost_decision. rewrite Hn. cbn [rbind].
  destruct (filter (fun nc => negb (String.eqb (fst nc) n)) costs) as [|x xs] eqn:E.
  - eexists. reflexivity.
  - destruct (min_by snd (x :: xs)) as [alt|e] eqn:Hm; [|discriminate Hm]. cbn [rbind].
    assert (Hin : In alt costs).
    { apply min_by_in in Hm. rewrite <- E in Hm. apply filter_In in Hm. tauto. }
    destruct alt as [an ac]. rewrite div_ok by (eapply Hnz; exact Hin). cbn [rbind].
    eexists. reflexivity.
Qed.

Lemma select_framed (PD : Decision -> Prop) (workload : Workload) :
  framed is_log PD (select_best_provider workload).
Proof.
  unfold select_best_provider. apply framed_gets_bind. intro providers.
  apply framed_bind.
  - unfold cost_and_prediction_loop. apply framed_for_each.
    intros [n d] [c m]. apply framed_bind; [apply predict_framed | intro; apply framed_ret].
  - intros [costs preds]. apply framed_lift_bind. intros scores _.
    apply framed_lift_bind. intros [n sc] _.
    apply framed_lift_bind. intros c _. apply framed_ret.
Qed.

Lemma placement_framed (workload : Workload) :
  framed is_log (decided_for workload) (calculate_optimal_placement workload).
Proof.
  unfold calculate_optimal_placement.
  apply framed_bind; [apply select_framed|]. intro sel.
  apply framed_lift_bind. intros cc _.
  apply framed_lift_bind. intros mlc _.
  apply framed_bind; [apply framed_now|]. intro ts.
  apply framed_lift_bind. intros explanation Hex.
  apply framed_bind.
  - apply framed_record_decision. split; [reflexivity|].
    simpl. eapply explain_inv. exact Hex.
  - intros _. apply framed_lift_bind. intros d _. apply framed_ret.
Qed.

(** When no computed cost is zero, neither the confidence nor the
    explanation divides by zero. *)
Lemma nonzero_costs_no_division_by_zero (workload : Workload) (providers : dict ProviderData)
      (n : string) (d : ProviderData) :
  NoDup (keys providers) ->
  (forall n d, In (n, d) providers -> ~ _calculate_workload_cost workload d == 0) ->
  In (n, d) providers ->
  exists cc explanation,
    compute_cost_confidence (costs_of workload providers) n
      (_calculate_workload_cost workload d) = Ok cc
    /\ cost_confidence_as_recorded (costs_of workload providers) n
         (_calculate_workload_cost workload d) cc
    /\ _explain_cost_decision workload (costs_of workload providers) n = Ok explanation.
Proof.
  intros Hnd Hnz Hin.
  destruct (compute_cost_confidence_ok (costs_of workload providers) n
              (_calculate_workload_cost workload d)) as (cc & Hcc & Hrec).
  { exact (Hnz n d Hin). }
  destruct (explain_ok workload (costs_of workload providers) n
              (_calculate_workload_cost workload d)) as (explanation & Hex).
  { apply subscript_in; [now rewrite keys_costs_of|].
    unfold costs_of.
    now apply (in_map (fun nd => (fst nd, _calculate_workload_cost workload (snd nd))) providers (n, d)). }
  { intros n' c' Hin'. unfold costs_of in Hin'. apply in_map_iff in Hin'.
    destruct Hin' as ([n'' d''] & Heq' & Hin''). injection Heq' as _ <-.
    exact (Hnz n'' d'' Hin''). }
  exists cc, explanation. now repeat split.
Qed.

Lemma nonneg_prices_score_defined (workload : Workload) (providers : dict ProviderData) :
  (forall n d, In (n, d) providers -> 0 <= cost_per_hour d) ->
  forall n d, In (n, d) providers -> ~ _calculate_workload_cost workload d + 0.001 == 0.
Proof.
  intros Hpos n d Hin H0.
  pose proof (workload_cost_nonneg workload d (Hpos n d Hin)). lra.
Qed.

(** When every computed cost is positive [calculate_optimal_placement]
    returns, and records one decision. *)
Lemma placement_returns (workload : Workload) (s : Engine) :
  _get_current_provider_states s <> [] ->
  NoDup (keys (_get_current_provider_states s)) ->
  (forall n d, In (n, d) (_get_current_provider_states s) ->
               0 < _calculate_workload_cost workload d) ->
  exists s1 before n d after cc explanation,
    frame is_log (fun _ => False) s s1
    /\ _get_current_provider_states s = before ++ (n, d) :: after
    /\ (forall x, In x before ->
          combined_score (ml_model s) workload (snd x) < combined_score (ml_model s) workload d)
    /\ (forall x, In x after ->
          combined_score (ml_model s) workload (snd x) <= combined_score (ml_model s) workload d)
    /\ cost_confidence_as_recorded (costs_of workload (_get_current_provider_states s)) n
         (_calculate_workload_cost workload d) cc
    /\ calculate_optimal_placement workload s
       = (Ok (n, region d, 0.7 * cc + 0.3 * predictive_score (ml_model s) workload d),
          set_decision_history
            (fun h => h ++ [mkDecision (clock s1) (id workload) n
                              (_calculate_workload_cost workload d)
                              (costs_of workload (_get_current_provider_states s))
                              (predictions_of (ml_model s) workload (_get_current_provider_states s))
                              (scores_of (ml_model s) workload (_get_current_provider_states s))
                              (0.7 * cc + 0.3 * predictive_score (ml_model s) workload d)
                              cc (predictive_score (ml_model s) workload d)
                              explanation])
            (set_clock S s1)).
Proof.
  intros Hne Hnd Hpos.
  destruct (placement_equation workload s Hne Hnd)
    as (s1 & before & n & d & after & _ & Hf & Hsplit & Hlt & Hle & Heq).
  { intros n d Hin H0. specialize (Hpos n d Hin). lra. }
  assert (Hin : In (n, d) (_get_current_provider_states s)).
  { rewrite Hsplit. apply in_or_app. right. now left. }
  destruct (nonzero_costs_no_division_by_zero workload _ n d Hnd) with (2 := Hin)
    as (cc & explanation & Hcc & Hrec & Hex).
  { intros n' d' Hin' H0. specialize (Hpos n' d' Hin'). lra. }
  exists s1, before, n, d, after, cc, explanation.
  refine (conj Hf (conj Hsplit (conj Hlt (conj Hle (conj Hrec _))))).
  rewrite Heq, Hcc, Hex. reflexivity.
Qed.

Lemma default_states_nodup (s : Engine) : NoDup (keys (_get_default_provider_states s)).
Proof.
  simpl. repeat constructor; simpl; intuition discriminate.
Qed.

(** C2, as stated, fails: with AWS at price zero and Alibaba at 0.50 the
    map is not empty and no price is negative, the selection picks ['aws'],
    and [calculate_optimal_placement] divides by the cost zero of the winner
    and returns no provider. *)
Lemma C2_counterexample_zero_cost_winner :
  keys (_get_current_provider_states free_aws_engine) = ["aws"; "alibaba"] /\
  (forall n d, In (n, d) (_get_current_provider_states free_aws_engine) ->
               0 <= cost_per_hour d) /\
  (exists sel self',
     select_best_provider example_workload free_aws_engine = (Ok sel, self') /\
     sel_provider_name sel = "aws" /\ sel_estimated_cost sel == 0) /\
  fst (calculate_optimal_placement example_workload free_aws_engine)
    = Raise ZeroDivisionError /\
  decision_history (snd (calculate_optimal_placement example_workload free_aws_engine)) = [].
Proof.
  split; [reflexivity|]. split.
  - intros n d [H | [H | []]]; injection H as _ <-; simpl; lra.
  - split.
    + eexists _, _. split; [vm_compute; reflexivity|]. split; reflexivity.
    + split; vm_compute; reflexivity.
Qed.

(** C2, amended.  For every workload and every non-empty map of provider
    states (no duplicate key, non-negative prices), the selection of
    [calculate_optimal_placement] is a key of the map, the dict of combined
    scores holds 0.7 x 1/(cost + 0.001) + 0.3 x predictive score for each
    provider, and the score of the selected provider is at least that of
    every provider of the map.  Whenever the function returns, the provider
    it returns is the selected one; it returns when no computed cost is
    zero, and it raises [ZeroDivisionError] instead when the cost of the
    selected provider is zero and the map has another provider. *)
Theorem C2_selected_provider_is_key_with_maximal_score :
  forall (workload : Workload) (self : Engine),
    _get_current_provider_states self <> [] ->
    NoDup (keys (_get_current_provider_states self)) ->
    (forall n d, In (n, d) (_get_current_provider_states self) -> 0 <= cost_per_hour d) ->
    exists sel self',
      select_best_provider workload self = (Ok sel, self') /\
      In (sel_provider_name sel) (keys (_get_current_provider_states self)) /\
      sel_combined_scores sel
        = scores_of (ml_model self) workload (_get_current_provider_states self) /\
      In (sel_provider_name sel, sel_combined_score sel) (sel_combined_scores sel) /\
      (forall n score, In (n, score) (sel_combined_scores sel) ->
                       score <= sel_combined_score sel) /\
      (forall name region confidence self'',
         calculate_optimal_placement workload self = (Ok (name, region, confidence), self'') ->
         name = sel_provider_name sel) /\
      ((forall n d, In (n, d) (_get_current_provider_states self) ->
                    ~ _calculate_workload_cost workload d == 0) ->
       exists region confidence self'',
         calculate_optimal_placement workload self
         = (Ok (sel_provider_name sel, region, confidence), self'')) /\
      (sel_estimated_cost sel == 0 ->
       other_costs (sel_costs sel) (sel_provider_name sel) <> [] ->
       calculate_optimal_placement workload self = (Raise ZeroDivisionError, self')).
Proof.
  intros workload self Hne Hnd Hnonneg.
  destruct (placement_equation workload self Hne Hnd
              (nonneg_prices_score_defined workload _ Hnonneg))
    as (s1 & before & n & d & after & Hsel & Hf & Hsplit & Hlt & Hle & Heq).
  set (P := _get_current_provider_states self) in *.
  assert (Hin : In (n, d) P).
  { rewrite Hsplit. apply in_or_app. right. now left. }
  eexists. exists s1. split; [exact Hsel|].
  cbn [sel_provider_name sel_combined_scores sel_combined_score sel_estimated_cost sel_costs].
  split; [|split; [reflexivity|split; [|split; [|split; [|split]]]]].
  - unfold keys. change n with (fst (n, d)). now apply in_map.
  - unfold scores_of.
    now apply (in_map (fun nd => (fst nd, combined_score (ml_model self) workload (snd nd))) P (n, d)).
  - intros n' score Hin'. unfold scores_of in Hin'. apply in_map_iff in Hin'.
    destruct Hin' as (x & Hx & Hxin). injection Hx as _ <-.
    rewrite Hsplit in Hxin. apply in_app_or in Hxin.
    destruct Hxin as [Hb | [<- | Ha]].
    + apply Qlt_le_weak. now apply Hlt.
    + apply Qle_refl.
    + now apply Hle.
  - intros name region confidence self'' Hret. rewrite Heq in Hret.
    destruct (compute_cost_confidence (costs_of workload P) n (_calculate_workload_cost workload d));
      [|discriminate].
    destruct (_explain_cost_decision workload (costs_of workload P) n); [|discriminate].
    now injection Hret as <- _ _ _.
  - intro Hnz.
    destruct (nonzero_costs_no_division_by_zero workload P n d Hnd Hnz Hin)
      as (cc & explanation & Hcc & _ & Hex).
    rewrite Heq, Hcc, Hex. eexists _, _, _. reflexivity.
  - intros Hzero Hother.
    unfold calculate_optimal_placement. unfold bind at 1. rewrite Hsel.
    cbn [sel_provider_name sel_costs sel_estimated_cost].
    unfold bind at 1. unfold lift at 1.
    unfold compute_cost_confidence. fold (other_costs (costs_of workload P) n).
    destruct (other_costs (costs_of workload P) n) as [|x xs]; [congruence|].
    cbn [max_by rbind]. unfold div.
    apply Qeq_bool_iff in Hzero. rewrite Hzero. reflexivity.
Qed.

Lemma C2_witness :
  exists sel self',
    select_best_provider example_workload (initial_engine 0.05 0.50) = (Ok sel, self') /\
    In (sel_provider_name sel) ["aws"; "alibaba"].
Proof.
  destruct (C2_selected_provider_is_key_with_maximal_score example_workload
              (initial_engine 0.05 0.50))
    as (sel & self' & Hsel & Hin & _).
  - simpl. discriminate.
  - apply default_states_nodup.
  - simpl. intros n d [H | [H | []]]; injection H as _ <-; simpl; lra.
  - exists sel, self'. split; [exact Hsel | exact Hin].
Defined.

(** C3, as stated, fails: with the equal prices of the scenario "Equal
    Costs" both providers have the same combined score and the same cost;
    the code returns ["aws"], the first key of the map, although
    ["alibaba"] is the lexically first name. *)
Lemma C3_counterexample_equal_costs :
  (exists region confidence self',
     calculate_optimal_placement example_workload equal_costs_engine
     = (Ok ("aws", region, confidence), self')) /\
  ~ tie_break_as_specified (ml_model equal_costs_engine) example_workload
      (_get_current_provider_states equal_costs_engine) "aws".
Proof.
  split.
  - eexists _, _, _. vm_compute. reflexivity.
  - intro H.
    specialize (H (mkProviderData "us-east-1" 0.05 50 0.5 0.6 10 (Some true) (Some 500) [])
                  "alibaba"
                  (mkProviderData "us-west-1" 0.05 60 0.4 0.5 15 (Some true) (Some 800) [])).
    destruct H as [H | [_ H]].
    + simpl. now left.
    + simpl. right. now left.
    + vm_compute. reflexivity.
    + vm_compute in H. discriminate.
    + vm_compute in H. discriminate.
Qed.

(** C3, amended.  The winner is a function of the workload, the model and
    the provider map alone, and among the providers with the maximal
    combined score it is the one that comes first in the iteration order of
    the map: every provider before it has a strictly smaller score, every
    provider after it has a score that is not larger. *)
Theorem C3_winner_is_first_maximal_in_map_order :
  forall (workload : Workload) (self : Engine),
    _get_current_provider_states self <> [] ->
    NoDup (keys (_get_current_provider_states self)) ->
    (forall n d, In (n, d) (_get_current_provider_states self) -> 0 <= cost_per_hour d) ->
    exists sel self' before d after,
      select_best_provider workload self = (Ok sel, self') /\
      _get_current_provider_states self = before ++ (sel_provider_name sel, d) :: after /\
      (forall n' d', In (n', d') before ->
         combined_score (ml_model self) workload d' < combined_score (ml_model self) workload d) /\
      (forall n' d', In (n', d') after ->
         combined_score (ml_model self) workload d' <= combined_score (ml_model self) workload d) /\
      (forall other : Engine,
         ml_model other = ml_model self ->
         _get_current_provider_states other = _get_current_provider_states self ->
         exists other', select_best_provider workload other = (Ok sel, other')).
Proof.
  intros workload self Hne Hnd Hnonneg.
  destruct (select_best_provider_spec (fun _ => True) workload self Hne Hnd
              (nonneg_prices_score_defined workload _ Hnonneg))
    as (s1 & before & n & d & after & Hsel & Hf & Hsplit & Hlt & Hle & Hmax).
  eexists. exists s1, before, d, after. split; [exact Hsel|].
  cbn [sel_provider_name]. split; [exact Hsplit|]. split; [|split].
  - intros n' d' Hin. apply (Hlt (n', d') Hin).
  - intros n' d' Hin. apply (Hle (n', d') Hin).
  - intros other Hm Hp.
    destruct (select_best_provider_spec (fun _ => True) workload other)
      as (o1 & before2 & n2 & d2 & after2 & Hsel2 & _ & _ & _ & _ & Hmax2).
    + now rewrite Hp.
    + now rewrite Hp.
    + rewrite Hp. apply (nonneg_prices_score_defined workload _ Hnonneg).
    + rewrite Hp, Hm in Hmax2. rewrite Hmax in Hmax2. injection Hmax2 as <- <-.
      exists o1. rewrite Hsel2, Hp, Hm. reflexivity.
Qed.

Lemma C3_witness :
  exists sel self',
    select_best_provider example_workload equal_costs_engine = (Ok sel, self') /\
    sel_provider_name sel = "aws".
Proof.
  destruct (C3_winner_is_first_maximal_in_map_order example_workload equal_costs_engine)
    as (sel & self' & before & d & after & Hsel & _).
  - simpl. discriminate.
  - apply default_states_nodup.
  - simpl. intros n d [H | [H | []]]; injection H as _ <-; simpl; lra.
  - exists sel, self'. split; [exact Hsel|].
    vm_compute in Hsel. now injection Hsel as <- _.
Defined.

(** ** Confidence *)

Lemma frame_no_decision (PE : Event -> Prop) (s s' : Engine) :
  frame PE (fun _ => False) s s' -> decision_history s' = decision_history s.
Proof.
  intros (_ & _ & _ & _ & _ & _ & _ & _ & _ & _ & _ & _ & (ds & Hd & Hds)).
  destruct ds as [|x ds]; [now rewrite Hd, app_nil_r|].
  inversion Hds as [|? ? Hx _]. contradiction.
Qed.


Lemma clamp_nonneg (hi x : Q) : 0 <= clamp 0 hi x.
Proof. unfold clamp. apply Q.le_max_l. Qed.

(** C5, as stated, fails: the code bounds the cost confidence above only.
    With a fitted model that favours the dearer provider, the winner costs
    32 against 16, the recorded cost confidence is -1 and the recorded
    confidence is -0.4. *)
Lemma C5_counterexample_negative_confidence :
  exists dec,
    fst (calculate_optimal_placement two_core_workload biased_engine)
      = Ok ("aws", "us-east-1", confidence_score dec) /\
    decision_history (snd (calculate_optimal_placement two_core_workload biased_engine))
      = [dec] /\
    confidence_score dec == -0.4 /\
    ~ 0 <= confidence_score dec /\
    ~ cost_confidence_as_specified (all_costs dec) (selected_provider dec)
        (estimated_cost dec) (cost_confidence dec).
Proof.
  eexists. split; [|split; [vm_compute; reflexivity|]].
  - vm_compute. reflexivity.
  - cbn [confidence_score cost_confidence all_costs selected_provider estimated_cost].
    split; [reflexivity|]. split.
    + intro H. vm_compute in H. now apply H.
    + intros [[H _] | (m & _ & H)].
      * vm_compute in H. discriminate.
      * pose proof (clamp_nonneg 1 ((m - 32.00) / 32.00 * 2)) as Hc.
        rewrite <- H in Hc. vm_compute in Hc. now apply Hc.
Qed.

Lemma compute_cost_confidence_divisor (costs : dict Q) (n : string) (c cc : Q) :
  compute_cost_confidence costs n c = Ok cc ->
  other_costs costs n = [] \/ ~ c == 0.
Proof.
  unfold compute_cost_confidence. fold (other_costs costs n).
  destruct (other_costs costs n) as [|x xs]; [now left|]. right.
  destruct (max_by (fun c => c) (x :: xs)) as [m|e]; [|discriminate].
  cbn [rbind] in H. destruct (div (m - c) c) as [q|e] eqn:Hq; [|discriminate].
  now apply div_inv in Hq.
Qed.

Lemma other_costs_of (workload : Workload) (providers : dict ProviderData) (n : string) (c : Q) :
  In c (other_costs (costs_of workload providers) n) ->
  exists n' d', In (n', d') providers /\ c = _calculate_workload_cost workload d'.
Proof.
  unfold other_costs, costs_of. intro H. apply in_map_iff in H.
  destruct H as ([n' c'] & Hc & Hin). simpl in Hc. subst c'.
  apply filter_In in Hin. destruct Hin as [Hin _]. apply in_map_iff in Hin.
  destruct Hin as ([n'' d'] & Heq & Hin). injection Heq as _ <-.
  now exists n'', d'.
Qed.

(** C5, amended.  Over a non-empty provider map with non-negative prices,
    every decision that [calculate_optimal_placement] records has confidence
    0.7 x costConfidence + 0.3 x predictiveScore(winner), where
    costConfidence is min(1, (maxOtherCost - winnerCost)/winnerCost x 2)
    against the most expensive other provider (no lower bound is applied)
    and 0.5 when there is no other provider.  The confidence is at most 1
    when the predictive score is; it is non-negative when the predictive
    score is and some other provider costs at least as much as the winner
    (or there is none).  A decision is recorded when no computed cost is
    zero. *)
Theorem C5_confidence_as_recorded :
  forall (workload : Workload) (self : Engine),
    _get_current_provider_states self <> [] ->
    NoDup (keys (_get_current_provider_states self)) ->
    (forall n d, In (n, d) (_get_current_provider_states self) -> 0 <= cost_per_hour d) ->
    (forall name region confidence self',
       calculate_optimal_placement workload self = (Ok (name, region, confidence), self') ->
       exists dec d,
         decision_history self' = decision_history self ++ [dec] /\
         selected_provider dec = name /\
         confidence_score dec = confidence /\
         In (name, d) (_get_current_provider_states self) /\
         estimated_cost dec = _calculate_workload_cost workload d /\
         all_costs dec = costs_of workload (_get_current_provider_states self) /\
         ml_confidence dec = predictive_score (ml_model self) workload d /\
         confidence_score dec = 0.7 * cost_confidence dec + 0.3 * ml_confidence dec /\
         cost_confidence_as_recorded (all_costs dec) name (estimated_cost dec)
           (cost_confidence dec) /\
         (ml_confidence dec <= 1 -> confidence_score dec <= 1) /\
         (0 <= ml_confidence dec ->
          (other_costs (all_costs dec) name = [] \/
           exists c, In c (other_costs (all_costs dec) name) /\ estimated_cost dec <= c) ->
          0 <= confidence_score dec)) /\
    ((forall n d, In (n, d) (_get_current_provider_states self) ->
                  ~ _calculate_workload_cost workload d == 0) ->
     exists name region confidence self',
       calculate_optimal_placement workload self = (Ok (name, region, confidence), self')).
Proof.
  intros workload self Hne Hnd Hnonneg.
  destruct (placement_equation workload self Hne Hnd
              (nonneg_prices_score_defined workload _ Hnonneg))
    as (s1 & before & n & d & after & _ & Hf & Hsplit & Hlt & Hle & Heq).
  set (P := _get_current_provider_states self) in *.
  assert (Hin : In (n, d) P).
  { rewrite Hsplit. apply in_or_app. right. now left. }
  assert (Hcost : 0 <= _calculate_workload_cost workload d).
  { apply workload_cost_nonneg. eapply Hnonneg. exact Hin. }
  split.
  - intros name region confidence self' Hret. rewrite Heq in Hret.
    destruct (compute_cost_confidence (costs_of workload P) n (_calculate_workload_cost workload d))
      as [cc|e] eqn:Hcc; [|discriminate].
    destruct (_explain_cost_decision workload (costs_of workload P) n) as [explanation|e];
      [|discriminate].
    injection Hret as <- _ <- <-.
    pose proof (compute_cost_confidence_inv _ _ _ _ Hcc) as Hrec.
    pose proof (compute_cost_confidence_divisor _ _ _ _ Hcc) as Hdiv.
    assert (Hlow : other_costs (costs_of workload P) n = [] \/
                   (exists c, In c (other_costs (costs_of workload P) n) /\
                              _calculate_workload_cost workload d <= c) -> 0 <= cc).
    { intro Hother.
      destruct Hrec as [[_ H] | (m & [Hm Hmax] & H)]; rewrite H; [lra|].
      destruct Hother as [He | (c & Hc & Hcle)]; [rewrite He in Hm; contradiction|].
      destruct Hdiv as [He | Hnz]; [rewrite He in Hm; contradiction|].
      apply Q.min_glb; [lra|].
      assert (0 <= (m - _calculate_workload_cost workload d) / _calculate_workload_cost workload d).
      { apply Qle_shift_div_l; [lra|]. specialize (Hmax c Hc). lra. }
      lra. }
    eexists. exists d. split.
    { unfold set_decision_history, set_clock. cbn [decision_history].
      now rewrite (frame_no_decision _ _ _ Hf). }
    cbn [selected_provider confidence_score all_costs estimated_cost ml_confidence cost_confidence].
    repeat (split; [first [exact Hin | reflexivity | exact Hrec]|]).
    split.
    + intro Hml.
      assert (Hle1 : cc <= 1).
      { destruct Hrec as [[_ H] | (m & _ & H)]; rewrite H; [lra | apply Q.le_min_l]. }
      lra.
    + intros Hml Hother. specialize (Hlow Hother). lra.
  - intro Hnz.
    destruct (nonzero_costs_no_division_by_zero workload P n d Hnd Hnz Hin)
      as (cc & explanation & Hcc & _ & Hex).
    rewrite Heq, Hcc, Hex. eexists _, _, _, _. reflexivity.
Qed.

Lemma C5_witness :
  exists name region confidence self',
    calculate_optimal_placement example_workload (initial_engine 0.05 0.50)
      = (Ok (name, region, confidence), self').
Proof.
  destruct (C5_confidence_as_recorded example_workload (initial_engine 0.05 0.50))
    as [_ Hret].
  - simpl. discriminate.
  - apply default_states_nodup.
  - simpl. intros n d [H | [H | []]]; injection H as _ <-; simpl; lra.
  - apply Hret.
    simpl. intros n d [H | [H | []]]; injection H as _ <-; vm_compute; discriminate.
Defined.

(** ** The cost-threshold gate *)

Lemma queue_for_approval_spec (workload : Workload) (savings : Q) (why : Reason) (s : Engine) :
  _queue_for_approval workload savings why s
  = (Ok tt, set_pending_workloads (fun l => l ++ [queued_item workload savings why s])
              (set_clock S s)).
Proof. reflexivity. Qed.

Lemma not_deployment_log (e : Event) : is_log e -> ~ is_deployment e.
Proof. destruct e; simpl; tauto. Qed.

(** C1.  When the placement of a workload returns a provider whose estimated
    cost strictly exceeds [cost_threshold], [process_workload] returns after
    appending one item with status [pending_approval] for that workload, and
    nothing it does is a Terraform run: after the placement it logs two
    warnings, queues the item and sends the high-cost alert when a webhook
    is configured.  This holds whatever [auto_deploy_enabled],
    [approval_threshold] and the simulated costs are. *)
Theorem C1_cost_threshold_gate_forces_pending_approval :
  forall (workload : Workload) (self self1 : Engine)
         (provider region : string) (confidence : Q) (provider_data : ProviderData),
    calculate_optimal_placement workload self = (Ok (provider, region, confidence), self1) ->
    dict_get (_get_current_provider_states self) provider = Some provider_data ->
    cost_threshold self < _calculate_workload_cost workload provider_data ->
    exists self' item evs,
      process_workload workload self = (Ok tt, self') /\
      pending_workloads self' = pending_workloads self ++ [item] /\
      workload_id item = id workload /\
      status item = pending_approval /\
      reason item = CostExceedsThreshold (_calculate_workload_cost workload provider_data)
                      (cost_threshold self) /\
      trace self' = trace self ++ evs /\
      Forall (fun e => ~ is_deployment e) evs /\
      decision_history self' = decision_history self1 /\
      exists alerts,
        trace self'
        = trace self1
          ++ [ Log (WarnCostExceeds (_calculate_workload_cost workload provider_data)
                      (cost_threshold self));
               Log (WarnWorkloadCostExceeds (id workload)
                      (_calculate_workload_cost workload provider_data)
                      (cost_threshold self)) ]
          ++ alerts /\
        (alerts = [] \/
         alerts = [Alert (HighCostWorkload (id workload)
                            (_calculate_workload_cost workload provider_data)) "warning"]).
Proof.
  intros workload self self1 provider region confidence provider_data Hplace Hget Hcost.
  pose proof (placement_framed workload self) as Hf. rewrite Hplace in Hf. cbn [snd] in Hf.
  pose proof (frame_providers _ _ _ _ Hf) as Hprov.
  destruct Hf as (_ & _ & _ & Hpend & _ & _ & Hthr & _ & _ & Hurl & _ & (evs & Htr & Hlogs) & _).
  assert (Hsub : subscript (_get_current_provider_states self1) provider = Ok provider_data).
  { unfold subscript. now rewrite Hprov, Hget. }
  assert (Hlt : Qltb (cost_threshold self1) (_calculate_workload_cost workload provider_data) = true).
  { apply Qltb_true. now rewrite Hthr. }
  assert (Hnd : Forall (fun e => ~ is_deployment e) evs).
  { eapply Forall_impl; [apply not_deployment_log | exact Hlogs]. }
  unfold process_workload, try_except. unfold bind at 1. rewrite Hplace.
  unfold bind at 1. unfold gets at 1. unfold bind at 1. unfold lift at 1. rewrite Hsub.
  unfold bind at 1. unfold _check_cost_threshold.
  unfold bind at 1. unfold gets at 1. rewrite Hlt.
  cbn [bind gets ret modify emit log now send_alert _queue_for_approval lift
       fst snd negb set_trace set_clock set_pending_workloads
       cost_threshold clock trace pending_workloads alert_webhook_url
       aws_simulated_cost alibaba_simulated_cost _get_aws_cost _get_alibaba_cost].
  rewrite Hurl.
  destruct (String.eqb (alert_webhook_url self) "");
    cbn [ret emit modify];
    (eexists _, _, _; split; [reflexivity|]);
    cbn [pending_workloads trace workload_id status reason decision_history
         set_trace set_clock set_pending_workloads cost_threshold];
    rewrite Hpend, Hthr;
    (split; [reflexivity|]); (split; [reflexivity|]); (split; [reflexivity|]);
    (split; [reflexivity|]);
    (split; [rewrite Htr, <- !app_assoc; reflexivity|]);
    (split; [apply Forall_app; split; [exact Hnd|]; repeat constructor; simpl; tauto|]);
    (split; [reflexivity|]).
  - exists []. split; [rewrite <- !app_assoc; reflexivity | now left].
  - eexists. split; [rewrite <- !app_assoc; reflexivity | now right].
Qed.

Lemma C1_witness :
  auto_deploy_enabled expensive_engine = true /\
  approval_threshold expensive_engine
    < Qabs (_get_aws_cost expensive_engine - _get_alibaba_cost expensive_engine) /\
  exists self' item,
    process_workload example_workload expensive_engine = (Ok tt, self') /\
    pending_workloads self' = [item] /\
    status item = pending_approval.
Proof.
  split; [reflexivity|]. split; [vm_compute; reflexivity|].
  edestruct (C1_cost_threshold_gate_forces_pending_approval example_workload expensive_engine)
    as (self' & item & evs & Hrun & Hpend & _ & Hst & _).
  - vm_compute. reflexivity.
  - vm_compute. reflexivity.
  - vm_compute. reflexivity.
  - exists self', item. split; [exact Hrun|]. split; [exact Hpend | exact Hst].
Defined.

(** ** Change plans *)

Lemma apply_framed (PE : Event -> Prop) (PD : Decision -> Prop) (plan : TerraformChanges) :
  PE (TerraformApply plan) -> PE (TerraformRollback plan) ->
  (forall r, PE (Log r)) -> (forall m sev, PE (Alert m sev)) ->
  framed PE PD (_apply_terraform_changes plan).
Proof.
  intros Ha Hr Hl Hal.
  assert (Hroll : forall outcome, framed PE PD (_rollback_terraform_changes plan outcome)).
  { intro outcome. unfold _rollback_terraform_changes, log.
    apply framed_bind; [now apply framed_emit | intros _].
    destruct outcome.
    - now apply framed_emit.
    - now apply framed_emit.
    - apply framed_bind; [now apply framed_emit | intros _]. now apply framed_emit. }
  unfold _apply_terraform_changes, log.
  apply framed_gets_bind. intros [rollback | notes | rollback].
  - apply framed_bind; [now apply framed_emit | intros _]. apply Hroll.
  - apply framed_bind; [now apply framed_emit | intros _].
    apply framed_bind; [|intros _; now apply framed_send_alert].
    apply framed_for_each. intros note []. now apply framed_emit.
  - apply framed_bind; [now apply framed_emit | intros _].
    apply framed_bind; [now apply framed_send_alert | intros _].
    apply framed_bind; [now apply framed_emit | intros _]. apply Hroll.
Qed.

Lemma log_all_returns (notes : list LogRecord) (s : Engine) :
  for_each notes (fun note (_ : unit) => log note) tt s
  = (Ok tt, set_trace (fun t => t ++ map Log notes) s).
Proof.
  revert s. induction notes as [|note notes IH]; intro s.
  - cbn [for_each ret map]. f_equal. destruct s. unfold set_trace. cbn.
    now rewrite app_nil_r.
  - cbn [for_each map]. unfold bind. unfold log at 1, emit at 1, modify at 1.
    rewrite IH. f_equal. unfold set_trace. cbn. now rewrite <- app_assoc.
Qed.

Lemma send_alert_returns (message : AlertMessage) (severity : string) (s : Engine) :
  fst (send_alert message severity s) = Ok tt.
Proof.
  unfold send_alert, bind, gets. destruct (String.eqb (alert_webhook_url s) ""); reflexivity.
Qed.

Lemma rollback_returns (plan : TerraformChanges) (outcome : RollbackOutcome) (s : Engine) :
  fst (_rollback_terraform_changes plan outcome s) = Ok tt.
Proof. destruct outcome; reflexivity. Qed.

Lemma apply_returns (plan : TerraformChanges) (s : Engine) :
  fst (_apply_terraform_changes plan s) = Ok tt.
Proof.
  unfold _apply_terraform_changes. unfold bind at 1. unfold gets at 1.
  destruct (terraform_outcome s plan) as [rollback | notes | rollback].
  - unfold bind at 1. unfold log at 1, emit at 1, modify at 1. apply rollback_returns.
  - unfold bind at 1. unfold emit at 1, modify at 1.
    unfold bind at 1. rewrite log_all_returns. apply send_alert_returns.
  - unfold bind at 1. unfold emit at 1, modify at 1.
    unfold bind at 1.
    match goal with
    | |- context [send_alert ?m ?sev ?st] =>
        pose proof (send_alert_returns m sev st) as Hs;
        destruct (send_alert m sev st) as [r st']
    end.
    cbn [fst] in Hs. subst r.
    unfold bind at 1. unfold log at 1, emit at 1, modify at 1. apply rollback_returns.
Qed.

Lemma generate_returns (workload : Workload) (provider region : string) (s : Engine) :
  exists plan,
    fst (generate_terraform_changes workload provider region s) = Ok plan /\
    tf_workload_id plan = id workload /\
    tf_provider plan = provider /\
    ((provider = "aws" \/ provider = "alibaba") -> single_active_provider workload plan) /\
    (provider <> "aws" -> provider <> "alibaba" -> changes plan = []).
Proof.
  unfold generate_terraform_changes, now. unfold bind at 1. unfold bind at 1.
  unfold gets at 1. unfold bind at 1. unfold modify at 1. unfold ret at 1.
  unfold bind at 1.
  match goal with
  | |- context [_apply_terraform_changes ?p ?st] =>
      pose proof (apply_returns p st) as Hap;
      destruct (_apply_terraform_changes p st) as [r st'] eqn:E;
      exists p
  end.
  cbn [fst] in Hap. subst r. split; [reflexivity|].
  split; [reflexivity|]. split; [reflexivity|].
  cbn [changes]. split.
  - intros [-> | ->]; cbn [String.eqb Ascii.eqb Bool.eqb].
    + exists "aws". eexists. split; [left; reflexivity|].
      cbn [action desired_capacity]. split; [reflexivity|].
      split; [apply required_instances_pos|].
      split; [unfold required_instances; apply max2Z_max|].
      intros n' d' [H | [H | []]] Hne; [congruence|].
      injection H as <- <-. now repeat split.
    + exists "alibaba". eexists. split; [right; left; reflexivity|].
      cbn [action desired_capacity]. split; [reflexivity|].
      split; [apply required_instances_pos|].
      split; [unfold required_instances; apply max2Z_max|].
      intros n' d' [H | [H | []]] Hne; [|congruence].
      injection H as <- <-. now repeat split.
  - intros H1 H2.
    destruct (String.eqb_spec provider "aws"); [contradiction|].
    destruct (String.eqb_spec provider "alibaba"); [contradiction|]. reflexivity.
Qed.

(** C6, as stated, fails: for a provider name that is neither ["aws"] nor
    ["alibaba"] the plan is applied with no entry at all. *)
Lemma C6_counterexample_unknown_provider :
  exists plan,
    fst (generate_terraform_changes example_workload "gcp" "us-central1"
           (initial_engine 0.05 0.50)) = Ok plan /\
    trace (snd (generate_terraform_changes example_workload "gcp" "us-central1"
                  (initial_engine 0.05 0.50))) = [TerraformApply plan] /\
    changes plan = [] /\
    ~ single_active_provider example_workload plan.
Proof.
  eexists. split; [vm_compute; reflexivity|].
  split; [vm_compute; reflexivity|]. split; [reflexivity|].
  intros (name & d & Hin & _). exact Hin.
Qed.

(** C6, amended.  [generate_terraform_changes] always returns a plan.  For
    the providers ["aws"] and ["alibaba"] the plan has exactly one entry
    with [action = scale_up], of desired capacity max(1, cores div 2) >= 1,
    and every other entry has [action = scale_down] and desired, minimum and
    maximum capacity 0.  For any other provider name the plan has no
    entry. *)
Theorem C6_single_active_provider_for_known_providers :
  forall (workload : Workload) (provider region : string) (self : Engine),
    exists plan,
      fst (generate_terraform_changes workload provider region self) = Ok plan /\
      ((provider = "aws" \/ provider = "alibaba") -> single_active_provider workload plan) /\
      (provider <> "aws" -> provider <> "alibaba" -> changes plan = []).
Proof.
  intros workload provider region self.
  destruct (generate_returns workload provider region self) as (plan & H & _ & _ & Hk & Hu).
  exists plan. now repeat split.
Qed.

Lemma C6_witness :
  exists plan,
    fst (generate_terraform_changes example_workload "alibaba" "us-west-1"
           (initial_engine 0.05 0.50)) = Ok plan /\
    single_active_provider example_workload plan.
Proof.
  destruct (C6_single_active_provider_for_known_providers example_workload "alibaba"
              "us-west-1" (initial_engine 0.05 0.50)) as (plan & H & Hk & _).
  exists plan. split; [exact H|]. apply Hk. right. reflexivity.
Defined.

(** ** What a run of Terraform leaves in the trace *)

Lemma set_trace_nil (s : Engine) : set_trace (fun t => t ++ []) s = s.
Proof. destruct s. unfold set_trace. cbn. now rewrite app_nil_r. Qed.

Lemma set_trace_app (a b : list Event) (s : Engine) :
  set_trace (fun t => t ++ b) (set_trace (fun t => t ++ a) s)
  = set_trace (fun t => t ++ (a ++ b)) s.
Proof. unfold set_trace. cbn. now rewrite <- app_assoc. Qed.

Lemma emit_effect (e : Event) (s : Engine) :
  emit e s = (Ok tt, set_trace (fun t => t ++ [e]) s).
Proof. reflexivity. Qed.

Lemma send_alert_effect (message : AlertMessage) (severity : string) (s : Engine) :
  exists evs,
    send_alert message severity s = (Ok tt, set_trace (fun t => t ++ evs) s) /\
    (evs = [] \/ evs = [Alert message severity]).
Proof.
  unfold send_alert, bind, gets.
  destruct (String.eqb (alert_webhook_url s) "").
  - exists []. split; [|now left]. unfold ret. now rewrite set_trace_nil.
  - exists [Alert message severity]. split; [reflexivity | now right].
Qed.

Lemma rollback_effect (plan : TerraformChanges) (outcome : RollbackOutcome) (s : Engine) :
  exists evs,
    _rollback_terraform_changes plan outcome s = (Ok tt, set_trace (fun t => t ++ evs) s) /\
    Forall (terraform_only_with plan) evs /\
    ~ In (TerraformApply plan) evs /\
    match outcome with
    | rollback_not_started => Forall (fun e => ~ is_deployment e) evs
    | _ => In (TerraformRollback plan) evs
    end.
Proof.
  unfold _rollback_terraform_changes, log. unfold bind at 1. rewrite emit_effect.
  destruct outcome.
  - exists [Log (WarnRollingBack (tf_workload_id plan)); Log ErrorDuringRollback].
    rewrite emit_effect, set_trace_app. split; [reflexivity|].
    split; [repeat constructor|].
    split; [intros [H | [H | []]]; discriminate H|].
    repeat constructor; simpl; tauto.
  - exists [Log (WarnRollingBack (tf_workload_id plan)); TerraformRollback plan].
    rewrite emit_effect, set_trace_app. split; [reflexivity|].
    split; [repeat constructor|].
    split; [intros [H | [H | []]]; discriminate H|].
    right. now left.
  - exists [Log (WarnRollingBack (tf_workload_id plan)); TerraformRollback plan;
            Log ErrorRollbackFailed].
    unfold bind at 1. rewrite !emit_effect, !set_trace_app. split; [reflexivity|].
    split; [repeat constructor|].
    split; [intros [H | [H | [H | []]]]; discriminate H|].
    right. now left.
Qed.

(** [_apply_terraform_changes] returns; the Terraform events it leaves all
    carry the plan, and which runs it starts is the environment's. *)
Lemma apply_effect (plan : TerraformChanges) (s : Engine) :
  exists evs,
    _apply_terraform_changes plan s = (Ok tt, set_trace (fun t => t ++ evs) s) /\
    Forall (terraform_only_with plan) evs /\
    terraform_started (terraform_outcome s plan) plan evs.
Proof.
  unfold _apply_terraform_changes. unfold bind at 1. unfold gets at 1.
  destruct (terraform_outcome s plan) as [rollback | notes | rollback].
  - unfold bind at 1. unfold log at 1. rewrite emit_effect.
    destruct (rollback_effect plan rollback (set_trace (fun t => t ++ [Log ErrorApplyingTerraform]) s))
      as (evs & Hrun & Hall & Hno & Hstart).
    rewrite Hrun, set_trace_app.
    exists ([Log ErrorApplyingTerraform] ++ evs). split; [reflexivity|].
    split; [constructor; [exact I | exact Hall]|].
    cbn [terraform_started app].
    destruct rollback.
    + constructor; [simpl; tauto | exact Hstart].
    + split; [now right | intros [H | H]; [discriminate H | now apply Hno]].
    + split; [now right | intros [H | H]; [discriminate H | now apply Hno]].
  - unfold bind at 1. rewrite emit_effect. unfold bind at 1. rewrite log_all_returns.
    rewrite set_trace_app.
    destruct (send_alert_effect (TerraformApplySuccessful (tf_workload_id plan)) "info"
                (set_trace (fun t => t ++ [TerraformApply plan] ++ map Log notes) s))
      as (evs & Hrun & Hevs).
    rewrite Hrun, set_trace_app.
    exists (([TerraformApply plan] ++ map Log notes) ++ evs). split; [reflexivity|].
    split; [|now left].
    apply Forall_app. split.
    + constructor; [reflexivity|]. apply Forall_forall. intros e He.
      apply in_map_iff in He. destruct He as (r & <- & _). exact I.
    + destruct Hevs as [-> | ->]; repeat constructor.
  - unfold bind at 1. rewrite emit_effect. unfold bind at 1.
    destruct (send_alert_effect (TerraformApplyFailed (tf_workload_id plan)) "error"
                (set_trace (fun t => t ++ [TerraformApply plan]) s))
      as (evs & Hrun & Hevs).
    rewrite Hrun, set_trace_app.
    unfold bind at 1. unfold log at 1. rewrite emit_effect, set_trace_app.
    destruct (rollback_effect plan rollback
                (set_trace (fun t => t ++ ([TerraformApply plan] ++ evs)
                                       ++ [Log ErrorApplyingTerraform]) s))
      as (evs' & Hrun' & Hall' & _ & _).
    rewrite Hrun', set_trace_app.
    exists ((([TerraformApply plan] ++ evs) ++ [Log ErrorApplyingTerraform]) ++ evs').
    split; [reflexivity|]. split; [|now left].
    apply Forall_app. split; [|exact Hall'].
    apply Forall_app. split; [|repeat constructor].
    constructor; [reflexivity|]. destruct Hevs as [-> | ->]; repeat constructor.
Qed.

(** [generate_terraform_changes] returns the plan it hands to Terraform: it
    carries the workload id, the provider and the region; for ["aws"] and
    ["alibaba"] it scales the provider up to the required instances and the
    other one down to zero. *)
Lemma generate_effect (workload : Workload) (provider region : string) (s : Engine) :
  exists plan s' evs,
    generate_terraform_changes workload provider region s = (Ok plan, s') /\
    frame (terraform_only_with plan) (fun _ => False) s s' /\
    trace s' = trace s ++ evs /\
    Forall (terraform_only_with plan) evs /\
    terraform_started (terraform_outcome s plan) plan evs /\
    tf_workload_id plan = id workload /\
    tf_provider plan = provider /\
    tf_region plan = region /\
    ((provider = "aws" \/ provider = "alibaba") ->
     single_active_provider workload plan /\
     scales_up_only provider (required_instances workload) plan).
Proof.
  destruct (generate_returns workload provider region s) as (plan0 & H0 & _ & _ & Hsingle & _).
  revert H0.
  unfold generate_terraform_changes, now.
  cbv [bind gets modify ret].
  match goal with
  | |- context [_apply_terraform_changes ?p] => set (plan := p)
  end.
  destruct (apply_effect plan (set_clock S s)) as (evs & Hrun & Hall & Hstart).
  rewrite Hrun. cbn [fst]. intro H0. injection H0 as H0.
  exists plan, (set_trace (fun t => t ++ evs) (set_clock S s)), evs.
  split; [reflexivity|]. split.
  { unfold frame, set_trace, set_clock. cbn.
    repeat (split; [reflexivity|]). split.
    - exists evs. split; [reflexivity | exact Hall].
    - exists []. split; [now rewrite app_nil_r | constructor]. }
  split; [reflexivity|]. split; [exact Hall|]. split; [exact Hstart|].
  split; [reflexivity|]. split; [reflexivity|]. split; [reflexivity|].
  intro Hp. split; [rewrite H0; exact (Hsingle Hp)|].
  unfold scales_up_only, plan. cbn [changes].
  destruct Hp as [-> | ->]; cbn [String.eqb Ascii.eqb Bool.eqb].
  - eexists. split; [left; reflexivity|]. cbn [action desired_capacity min_capacity max_capacity].
    repeat (split; [reflexivity|]).
    intros n' d' [H | [H | []]] Hne; injection H as <- <-; [congruence | now repeat split].
  - eexists. split; [right; left; reflexivity|].
    cbn [action desired_capacity min_capacity max_capacity].
    repeat (split; [reflexivity|]).
    intros n' d' [H | [H | []]] Hne; injection H as <- <-; [now repeat split | congruence].
Qed.

(** ** Deployment of an approved item *)

Lemma generate_framed_rebuilt (PD : Decision -> Prop) (wid provider region : string) :
  framed (deploys_capacity_two wid) PD
    (generate_terraform_changes (rebuilt_workload wid) provider region).
Proof.
  unfold generate_terraform_changes.
  apply framed_bind; [apply framed_now|]. intro ts.
  assert (Hcap : capacity_two wid
            (mkTerraformChanges ts (id (rebuilt_workload wid)) provider region
               "single_provider_optimization"
               (if String.eqb provider "aws" then
                  [ ("aws",
                     mkDirective "aws" region
                       (Some (_get_optimal_instance_type (rebuilt_workload wid) "aws"))
                       (required_instances (rebuilt_workload wid))
                       (required_instances (rebuilt_workload wid))
                       (required_instances (rebuilt_workload wid) * 2)
                       [ ("enable_spot", true); ("create_load_balancer", true);
                         ("create_target_group", true); ("create_listener", true);
                         ("create_instances", true) ]
                       scale_up);
                    ("alibaba",
                     mkDirective "alicloud" region None 0 0 0
                       [ ("destroy_load_balancer", true); ("destroy_target_group", true);
                         ("destroy_listener", true); ("destroy_instances", true) ]
                       scale_down) ]
                else if String.eqb provider "alibaba" then
                  [ ("aws",
                     mkDirective "aws" region None 0 0 0
                       [ ("destroy_load_balancer", true); ("destroy_target_group", true);
                         ("destroy_listener", true); ("destroy_instances", true) ]
                       scale_down);
                    ("alibaba",
                     mkDirective "alicloud" region
                       (Some (_get_optimal_instance_type (rebuilt_workload wid) "alibaba"))
                       (required_instances (rebuilt_workload wid))
                       (required_instances (rebuilt_workload wid))
                       (required_instances (rebuilt_workload wid) * 2)
                       [ ("enable_spot", true); ("create_load_balancer", true);
                         ("create_target_group", true); ("create_listener", true);
                         ("create_instances", true) ]
                       scale_up) ]
                else []))).
  { split; [reflexivity|]. cbn [changes].
    intros n d Hin Hup.
    destruct (String.eqb provider "aws"); [|destruct (String.eqb provider "alibaba")].
    - destruct Hin as [H | [H | []]]; injection H as <- <-; [now repeat split | discriminate Hup].
    - destruct Hin as [H | [H | []]]; injection H as <- <-; [discriminate Hup | now repeat split].
    - destruct Hin. }
  apply framed_bind; [|intros _; apply framed_ret].
  apply apply_framed; try exact Hcap; intros; exact I.
Qed.

Lemma deploy_framed (item : ApprovalRequest) :
  framed (deploys_capacity_two (workload_id item))
         (decided_for (rebuilt_workload (workload_id item)))
         (_deploy_workload (ItemDict item)).
Proof.
  unfold _deploy_workload. apply framed_try.
  - apply framed_lift_bind. intros wid Hwid. injection Hwid as <-.
    apply framed_bind.
    + eapply framed_weaken; [| |apply (placement_framed (rebuilt_workload (workload_id item)))].
      * intros [r| | |] H; simpl in *; tauto.
      * tauto.
    + intros [[provider region] confidence].
      apply framed_bind; [apply generate_framed_rebuilt | intros _; apply framed_ret].
  - intro e. apply framed_emit. exact I.
Qed.

Lemma deploy_workload_object_framed (PD : Decision -> Prop) (workload : Workload) :
  framed is_log PD (_deploy_workload (WorkloadObject workload)).
Proof.
  unfold _deploy_workload. apply framed_try.
  - apply framed_lift_bind. intros wid Hwid. discriminate Hwid.
  - intro e. apply framed_emit. exact I.
Qed.

Lemma deploy_returns (arg : DeployArg) (s : Engine) :
  fst (_deploy_workload arg s) = Ok tt.
Proof.
  unfold _deploy_workload, try_except.
  destruct (bind (lift (deploy_arg_workload_id arg)) _ s) as [[[]|e] s1]; reflexivity.
Qed.

(** The decisions a deployment records are those of the placement of the
    rebuilt workload. *)
Lemma deploy_decisions (item : ApprovalRequest) (s : Engine) :
  decision_history (snd (_deploy_workload (ItemDict item) s))
  = decision_history
      (snd (calculate_optimal_placement (rebuilt_workload (workload_id item)) s)).
Proof.
  unfold _deploy_workload, try_except. unfold bind at 1. unfold lift at 1.
  cbn [deploy_arg_workload_id]. unfold bind at 1.
  change (mkWorkload (workload_id item) 4 8 "medium" 0.5 0.5 24.0)
    with (rebuilt_workload (workload_id item)).
  destruct (calculate_optimal_placement (rebuilt_workload (workload_id item)) s)
    as [[[[provider region] confidence]|e] s1]; cbn [snd].
  - unfold bind at 1.
    pose proof (generate_framed_rebuilt (fun _ => False) (workload_id item) provider region s1)
      as Hf.
    destruct (generate_terraform_changes (rebuilt_workload (workload_id item)) provider region s1)
      as [[plan|e] s2]; cbn [snd] in *; now apply frame_no_decision in Hf.
  - reflexivity.
Qed.

Lemma deploy_after_placement (item : ApprovalRequest) (s s1 : Engine)
      (provider region : string) (confidence : Q) :
  calculate_optimal_placement (rebuilt_workload (workload_id item)) s
    = (Ok (provider, region, confidence), s1) ->
  _deploy_workload (ItemDict item) s
  = (Ok tt, snd (generate_terraform_changes (rebuilt_workload (workload_id item))
                   provider region s1)).
Proof.
  intro Hplace.
  unfold _deploy_workload, try_except. unfold bind at 1. unfold lift at 1.
  cbn [deploy_arg_workload_id]. unfold bind at 1.
  change (mkWorkload (workload_id item) 4 8 "medium" 0.5 0.5 24.0)
    with (rebuilt_workload (workload_id item)).
  rewrite Hplace. unfold bind at 1.
  destruct (generate_effect (rebuilt_workload (workload_id item)) provider region s1)
    as (plan & s2 & evs & Hgen & _).
  rewrite Hgen. reflexivity.
Qed.

Lemma deploy_after_failure (item : ApprovalRequest) (s s1 : Engine) (e : exn) :
  calculate_optimal_placement (rebuilt_workload (workload_id item)) s = (Raise e, s1) ->
  _deploy_workload (ItemDict item) s
  = (Ok tt, set_trace (fun t => t ++ [Log (ErrorDeployingWorkload e)]) s1).
Proof.
  intro Hplace.
  unfold _deploy_workload, try_except. unfold bind at 1. unfold lift at 1.
  cbn [deploy_arg_workload_id]. unfold bind at 1.
  change (mkWorkload (workload_id item) 4 8 "medium" 0.5 0.5 24.0)
    with (rebuilt_workload (workload_id item)).
  rewrite Hplace. reflexivity.
Qed.

(** C9.  The deployment of an approval item takes only the item's
    ['workload_id']: two items with the same id, such as the items queued
    for two workloads that differ in every other attribute, are deployed
    identically.  The workload it rebuilds has 4 cores, 8 GB, priority
    ['medium'], sensitivities 0.5 and duration 24 hours, hence 2 required
    instances.  The deployment always returns, and what it does is the
    placement of the rebuilt workload followed by
    [generate_terraform_changes] for the rebuilt workload and the provider
    and region that the placement returned: the decisions recorded are those
    of that placement; the plan handed to Terraform carries the item's id
    and that provider and region, and for ["aws"] and ["alibaba"] it scales
    the provider up to desired and minimum capacity 2 and maximum capacity 4
    and the other provider down to zero; which Terraform runs are started
    with the plan is the environment's.  When the placement raises, the
    deployment only logs the error. *)
Theorem C9_deployment_uses_fixed_workload_attributes :
  forall (item : ApprovalRequest) (self : Engine),
    (forall item', workload_id item' = workload_id item ->
       _deploy_workload (ItemDict item') self = _deploy_workload (ItemDict item) self) /\
    (forall (w w' : Workload) savings savings' why why' s0 s0',
       id w = id w' ->
       _deploy_workload (ItemDict (queued_item w savings why s0)) self
       = _deploy_workload (ItemDict (queued_item w' savings' why' s0')) self) /\
    required_instances (rebuilt_workload (workload_id item)) = 2%Z /\
    cpu_cores (rebuilt_workload (workload_id item)) = 4%Z /\
    memory_gb (rebuilt_workload (workload_id item)) = 8%Z /\
    priority (rebuilt_workload (workload_id item)) = "medium" /\
    cost_sensitivity (rebuilt_workload (workload_id item)) = 0.5 /\
    latency_sensitivity (rebuilt_workload (workload_id item)) = 0.5 /\
    estimated_duration_hours (rebuilt_workload (workload_id item)) = 24.0 /\
    exists self' evs ds,
      _deploy_workload (ItemDict item) self = (Ok tt, self') /\
      trace self' = trace self ++ evs /\
      Forall (deploys_capacity_two (workload_id item)) evs /\
      decision_history self' = decision_history self ++ ds /\
      Forall (decided_for (rebuilt_workload (workload_id item))) ds /\
      decision_history self'
      = decision_history
          (snd (calculate_optimal_placement (rebuilt_workload (workload_id item)) self)) /\
      pending_workloads self' = pending_workloads self /\
      (forall provider region confidence s1,
         calculate_optimal_placement (rebuilt_workload (workload_id item)) self
           = (Ok (provider, region, confidence), s1) ->
         exists plan evs',
           generate_terraform_changes (rebuilt_workload (workload_id item)) provider region s1
             = (Ok plan, self') /\
           trace self' = trace s1 ++ evs' /\
           Forall (terraform_only_with plan) evs' /\
           terraform_started (terraform_outcome self plan) plan evs' /\
           tf_workload_id plan = workload_id item /\
           tf_provider plan = provider /\
           tf_region plan = region /\
           ((provider = "aws" \/ provider = "alibaba") ->
            scales_up_only provider 2 plan)) /\
      (forall e s1,
         calculate_optimal_placement (rebuilt_workload (workload_id item)) self
           = (Raise e, s1) ->
         self' = set_trace (fun t => t ++ [Log (ErrorDeployingWorkload e)]) s1).
Proof.
  intros item self.
  split; [intros item' Heq; unfold _deploy_workload, deploy_arg_workload_id; now rewrite Heq|].
  split; [intros; unfold _deploy_workload, deploy_arg_workload_id, queued_item;
          cbn [workload_id]; congruence|].
  repeat (split; [reflexivity|]).
  pose proof (deploy_returns (ItemDict item) self) as Hr.
  pose proof (deploy_framed item self) as Hf.
  pose proof (deploy_decisions item self) as Hdec.
  destruct (_deploy_workload (ItemDict item) self) as [r self'] eqn:Hrun.
  cbn [fst snd] in *. subst r.
  destruct Hf as (_ & _ & _ & Hp & _ & _ & _ & _ & _ & _ & _ & (evs & Ht & He) & (ds & Hd & Hds)).
  exists self', evs, ds.
  split; [reflexivity|]. split; [exact Ht|]. split; [exact He|]. split; [exact Hd|].
  split; [exact Hds|]. split; [exact Hdec|]. split; [exact Hp|]. split.
  - intros provider region confidence s1 Hplace.
    rewrite (deploy_after_placement item self s1 provider region confidence Hplace) in Hrun.
    injection Hrun as Hrun.
    destruct (generate_effect (rebuilt_workload (workload_id item)) provider region s1)
      as (plan & s2 & evs' & Hgen & _ & Htr & Hall & Hstart & Hid & Hprov & Hreg & Hup).
    rewrite Hgen in Hrun. cbn [snd] in Hrun. subst s2.
    exists plan, evs'.
    pose proof (placement_framed (rebuilt_workload (workload_id item)) self) as Hfp.
    rewrite Hplace in Hfp. cbn [snd] in Hfp.
    destruct Hfp as (_ & _ & _ & _ & _ & _ & _ & _ & _ & _ & Hout & _).
    rewrite Hout in Hstart.
    split; [exact Hgen|]. split; [exact Htr|]. split; [exact Hall|]. split; [exact Hstart|].
    split; [exact Hid|]. split; [exact Hprov|]. split; [exact Hreg|].
    intro Hk. exact (proj2 (Hup Hk)).
  - intros e s1 Hplace.
    rewrite (deploy_after_failure item self s1 e Hplace) in Hrun.
    now injection Hrun as <-.
Qed.

Lemma C9_witness :
  _deploy_workload
    (ItemDict (queued_item example_workload 0.45 ManualApprovalRequired waiting_engine))
    waiting_engine
  = _deploy_workload
      (ItemDict (queued_item (mkWorkload "workload-001" 64 256 "critical" 1 1 1) 900
                   (CostExceedsThreshold 900 50) (initial_engine 0.05 0.50)))
      waiting_engine /\
  exists plan self',
    _deploy_workload (ItemDict waiting_item) waiting_engine = (Ok tt, self') /\
    In (TerraformApply plan) (trace self') /\
    tf_workload_id plan = "workload-001" /\
    scales_up_only "aws" 2 plan.
Proof.
  destruct (C9_deployment_uses_fixed_workload_attributes waiting_item waiting_engine)
    as (_ & Hsame & _ & _ & _ & _ & _ & _ & _ & self' & evs & ds & Hrun & _ & _ & _ & _ & _
        & _ & Hplace & _).
  split; [apply Hsame; reflexivity|].
  assert (Hp : exists confidence s1,
             calculate_optimal_placement (rebuilt_workload (workload_id waiting_item))
               waiting_engine
             = (Ok ("aws", "us-east-1", confidence), s1)).
  { eexists _, _. vm_compute. reflexivity. }
  destruct Hp as (confidence & s1 & Hp).
  destruct (Hplace "aws" "us-east-1" confidence s1 Hp)
    as (plan & evs' & _ & Htr & _ & Hstart & Hid & _ & _ & Hup).
  exists plan, self'. split; [exact Hrun|].
  split; [rewrite Htr; apply in_or_app; right; exact Hstart|].
  split; [exact Hid | apply Hup; now left].
Defined.

(** ** The approval operation *)

Lemma with_status_same (item : ApprovalRequest) : with_status (status item) item = item.
Proof. now destruct item. Qed.

Lemma stays_resolved_refl (l : list ApprovalRequest) : stays_resolved l l.
Proof.
  unfold stays_resolved. induction l as [|x l IH]; constructor; [|exact IH].
  split; [now rewrite with_status_same | congruence].
Qed.

Lemma stays_resolved_trans (l1 l2 l3 : list ApprovalRequest) :
  stays_resolved l1 l2 -> stays_resolved l2 l3 -> stays_resolved l1 l3.
Proof.
  unfold stays_resolved. intro H12. revert l3.
  induction H12 as [|x y l1 l2 [Hxy Hres] H12 IH]; intros l3 H23.
  - inversion H23. constructor.
  - inversion H23 as [|? z ? l3' [Hyz Hres'] H23']; subst. constructor; [|now apply IH].
    split.
    + rewrite Hyz at 1. rewrite Hxy. reflexivity.
    + intro Hne.
      destruct (status z) eqn:Ez, (status y) eqn:Ey;
        try (apply Hres'; congruence);
        apply Hres; congruence.
Qed.

Lemma set_first_status_spec (wid : string) (st : Status) (l l' : list ApprovalRequest)
      (hit : ApprovalRequest) :
  resolved st ->
  set_first_status wid st l = Some (hit, l') ->
  stays_resolved l l' /\ status hit = st /\ workload_id hit = wid /\ In hit l'.
Proof.
  intro Hst. revert l' hit. induction l as [|x l IH]; intros l' hit H; simpl in H; [discriminate|].
  destruct (String.eqb_spec (workload_id x) wid) as [Hid | Hid].
  - injection H as <- <-. split; [|split; [reflexivity|split; [exact Hid | now left]]].
    constructor; [|apply stays_resolved_refl].
    split; [reflexivity | intros _; exact Hst].
  - destruct (set_first_status wid st l) as [[hit' l'']|]; [|discriminate].
    injection H as <- <-. destruct (IH l'' hit' eq_refl) as (H1 & H2 & H3 & H4).
    split; [|split; [exact H2|split; [exact H3 | now right]]].
    constructor; [|exact H1]. split; [now rewrite with_status_same | congruence].
Qed.

Lemma approve_workload_step (wid : string) (approve : bool) (s : Engine) :
  stays_resolved (pending_workloads s) (pending_workloads (snd (approve_workload wid approve s))).
Proof.
  unfold approve_workload. unfold bind at 1. unfold gets at 1.
  destruct (set_first_status wid (if approve then approved else rejected) (pending_workloads s))
    as [[hit l']|] eqn:E.
  - apply set_first_status_spec in E; [|destruct approve; [now left | now right]].
    destruct E as (Hsr & _).
    unfold bind, modify. destruct approve.
    + pose proof (deploy_framed hit (set_pending_workloads (fun _ => l') s)) as Hf.
      destruct (_deploy_workload (ItemDict hit) (set_pending_workloads (fun _ => l') s))
        as [r s']. cbn [snd] in *.
      destruct Hf as (_ & _ & _ & Hp & _). rewrite Hp. exact Hsr.
    + exact Hsr.
  - apply stays_resolved_refl.
Qed.

Lemma run_approvals_stays_resolved (calls : list (string * bool)) (s : Engine) :
  stays_resolved (pending_workloads s) (pending_workloads (run_approvals calls s)).
Proof.
  revert s. induction calls as [|[wid approve] calls IH]; intro s; simpl.
  - apply stays_resolved_refl.
  - eapply stays_resolved_trans; [apply approve_workload_step | apply IH].
Qed.

(** C7, as stated, fails: [approve_workload] takes the first item with the
    given id whatever its status, so a rejected item becomes approved (and
    is deployed) by a later call. *)
Lemma C7_counterexample_rejected_item_approved :
  map status (pending_workloads (run_approvals [("workload-001", false)] waiting_engine))
    = [rejected] /\
  map status (pending_workloads
                (run_approvals [("workload-001", false); ("workload-001", true)] waiting_engine))
    = [approved] /\
  ~ never_reverts
      (pending_workloads (run_approvals [("workload-001", false)] waiting_engine))
      (pending_workloads
         (run_approvals [("workload-001", false); ("workload-001", true)] waiting_engine)).
Proof.
  split; [vm_compute; reflexivity|]. split; [vm_compute; reflexivity|].
  intro H. vm_compute in H. inversion H as [|? ? ? ? Hhd _]; subst.
  specialize (Hhd (or_intror eq_refl)). discriminate Hhd.
Qed.

(** C7, amended.  Over every sequence of [approve_workload] calls the items
    keep their position and every key but the status, and a status changes
    only to [approved] or [rejected]: a resolved item never returns to a
    pending status (it may move to the other resolved status).  A switch
    request of the drift monitor is appended as a new item and leaves the
    existing ones as they are. *)
Theorem C7_resolved_items_stay_resolved :
  forall (calls : list (string * bool)) (self : Engine),
    stays_resolved (pending_workloads self) (pending_workloads (run_approvals calls self)) /\
    Forall2 (fun old new => resolved (status old) -> resolved (status new))
      (pending_workloads self) (pending_workloads (run_approvals calls self)) /\
    forall (workload : RunningWorkload) (new_provider : string) (savings : Q),
      exists item,
        pending_workloads (snd (_request_switch_approval workload new_provider savings self))
          = pending_workloads self ++ [item] /\
        status item = pending_switch_approval.
Proof.
  intros calls self.
  pose proof (run_approvals_stays_resolved calls self) as H.
  split; [exact H|]. split.
  - unfold stays_resolved in H.
    induction H as [|x y l1 l2 [Hxy Hres] H12 IH]; constructor; [|exact IH].
    intro Hx. destruct (status y) eqn:Ey, (status x) eqn:Ex;
      try (apply Hres; congruence); try exact Hx;
      destruct Hx; discriminate.
  - intros workload new_provider savings. eexists. split; reflexivity.
Qed.

Lemma C7_witness :
  Forall2 (fun old new => resolved (status old) -> resolved (status new))
    (pending_workloads (run_approvals [("workload-001", true)] waiting_engine))
    (pending_workloads
       (run_approvals [("workload-001", false)]
          (run_approvals [("workload-001", true)] waiting_engine))).
Proof.
  apply (C7_resolved_items_stay_resolved [("workload-001", false)]
           (run_approvals [("workload-001", true)] waiting_engine)).
Defined.

(** ** The recommendation stored in an approval item *)

(** C10.  The item queued for a workload carries ['alibaba'] as recommended
    provider exactly when the simulated Alibaba cost is strictly below the
    simulated AWS cost, and ['aws'] otherwise; the keys other than the id,
    the savings and the reason are the same whatever the workload.  The
    recommendation can differ from the provider selected in the decision
    recorded for the same workload: with twenty [t3.medium] instances
    reported for AWS the decision selects ['alibaba'] and the item
    recommends ['aws']. *)
Theorem C10_recommended_provider_from_simulated_costs :
  (forall (workload : Workload) (savings : Q) (why : Reason) (self : Engine),
     exists self',
       _queue_for_approval workload savings why self = (Ok tt, self') /\
       pending_workloads self'
         = pending_workloads self ++ [queued_item workload savings why self] /\
       (item_recommended_provider (queued_item workload savings why self) = Ok "alibaba"
        <-> alibaba_simulated_cost self < aws_simulated_cost self) /\
       (item_recommended_provider (queued_item workload savings why self) = Ok "aws"
        <-> aws_simulated_cost self <= alibaba_simulated_cost self) /\
       (forall (workload' : Workload) (savings' : Q) (why' : Reason),
          req_keys (queued_item workload' savings' why' self)
          = req_keys (queued_item workload savings why self))) /\
  (exists dec item,
     fst (process_workload example_workload busy_aws_engine) = Ok tt /\
     decision_history (snd (process_workload example_workload busy_aws_engine)) = [dec] /\
     pending_workloads (snd (process_workload example_workload busy_aws_engine)) = [item] /\
     dec_workload_id dec = workload_id item /\
     selected_provider dec = "alibaba" /\
     item_recommended_provider item = Ok "aws").
Proof.
  split.
  - intros workload savings why self. eexists. split; [apply queue_for_approval_spec|].
    split; [reflexivity|].
    unfold item_recommended_provider, queued_item, _get_aws_cost, _get_alibaba_cost.
    cbn [req_keys].
    destruct (Qltb_cases (alibaba_simulated_cost self) (aws_simulated_cost self))
      as [[E H] | [E H]]; rewrite E.
    + split; [tauto|]. split; [|reflexivity].
      split; [discriminate|]. intro Hle. exfalso. lra.
    + split; [|split; [tauto | reflexivity]].
      split; [discriminate|]. intro Hlt. exfalso. lra.
  - eexists _, _. split; [vm_compute; reflexivity|].
    split; [vm_compute; reflexivity|]. split; [vm_compute; reflexivity|].
    cbn [dec_workload_id workload_id selected_provider item_recommended_provider req_keys].
    now repeat split.
Qed.

(** ** The drift monitor *)

Lemma monitor_raises_type_error (workload : RunningWorkload) (s : Engine) :
  _monitor_workload_costs workload s
  = (Ok tt,
     set_trace (fun t => t ++ [Log (ErrorMonitoringWorkload (run_id workload) TypeError)]) s).
Proof. reflexivity. Qed.

(** C8, on the code.  With AWS at 0.60 and Alibaba at 0.05 per hour, the
    workload running on AWS could move to a provider that is 0.55 cheaper,
    and its cost is above 0.075.  The monitor visits it, [await] is applied
    to the float returned by [_get_aws_cost], and the [TypeError] is caught
    and logged: no switch request is appended and no cost spike is
    logged. *)
Theorem C8_drift_monitor_awaits_a_float :
  _get_running_workloads drifted_engine = Ok [running_on_aws] /\
  0.01 < _get_aws_cost drifted_engine - _get_alibaba_cost drifted_engine /\
  0.075 < _get_aws_cost drifted_engine /\
  fst (_monitor_workload_costs running_on_aws drifted_engine) = Ok tt /\
  pending_workloads (snd (_monitor_workload_costs running_on_aws drifted_engine))
    = pending_workloads drifted_engine /\
  trace (snd (_monitor_workload_costs running_on_aws drifted_engine))
    = [Log (ErrorMonitoringWorkload "workload-001" TypeError)] /\
  trace (snd (monitoring_iteration drifted_engine))
    = [Log (ErrorMonitoringWorkload "workload-001" TypeError)] /\
  forall (workload : RunningWorkload) (self : Engine),
    pending_workloads (snd (_monitor_workload_costs workload self)) = pending_workloads self /\
    trace (snd (_monitor_workload_costs workload self))
      = trace self ++ [Log (ErrorMonitoringWorkload (run_id workload) TypeError)].
Proof.
  split; [reflexivity|]. split; [vm_compute; reflexivity|]. split; [vm_compute; reflexivity|].
  split; [reflexivity|]. split; [reflexivity|]. split; [reflexivity|]. split; [reflexivity|].
  intros workload self. rewrite monitor_raises_type_error. split; reflexivity.
Qed.

(** ** Further facts about the code *)

(** When the selected provider has estimated cost zero and the map has
    another provider, the confidence computation divides by zero:
    [calculate_optimal_placement] raises [ZeroDivisionError] after the
    selection and records no decision. *)
Theorem zero_cost_winner_raises :
  forall (workload : Workload) (self self1 : Engine) (sel : Selection),
    select_best_provider workload self = (Ok sel, self1) ->
    sel_estimated_cost sel == 0 ->
    other_costs (sel_costs sel) (sel_provider_name sel) <> [] ->
    calculate_optimal_placement workload self = (Raise ZeroDivisionError, self1) /\
    decision_history self1 = decision_history self.
Proof.
  intros workload self self1 sel Hsel Hzero Hother. split.
  - unfold calculate_optimal_placement. unfold bind at 1. rewrite Hsel.
    unfold bind at 1. unfold lift at 1.
    unfold compute_cost_confidence. fold (other_costs (sel_costs sel) (sel_provider_name sel)).
    destruct (other_costs (sel_costs sel) (sel_provider_name sel)) as [|x xs]; [congruence|].
    cbn [max_by rbind]. unfold div.
    apply Qeq_bool_iff in Hzero. rewrite Hzero. reflexivity.
  - pose proof (select_framed (fun _ => False) workload self) as Hf.
    rewrite Hsel in Hf. cbn [snd] in Hf. now apply frame_no_decision in Hf.
Qed.

Lemma zero_cost_winner_raises_witness :
  fst (calculate_optimal_placement example_workload free_aws_engine) = Raise ZeroDivisionError /\
  pending_workloads (snd (process_workload example_workload free_aws_engine)) = [] /\
  In (Log (ErrorProcessingWorkload "workload-001" ZeroDivisionError))
     (trace (snd (process_workload example_workload free_aws_engine))).
Proof.
  split.
  - destruct (select_best_provider example_workload free_aws_engine) as [r s1] eqn:E.
    vm_compute in E. injection E as <- <-.
    edestruct (zero_cost_winner_raises example_workload free_aws_engine) as [H _].
    + vm_compute. reflexivity.
    + reflexivity.
    + vm_compute. discriminate.
    + rewrite H. reflexivity.
  - split; [vm_compute; reflexivity|]. vm_compute. tauto.
Defined.

(** The auto-deploy branch of [process_workload] hands the [Workload]
    instance to [_deploy_workload], which subscripts it: the [TypeError] is
    caught and logged, and no Terraform run is started. *)
Theorem auto_deploy_branch_never_deploys :
  (forall (workload : Workload) (self : Engine),
     _deploy_workload (WorkloadObject workload) self
     = (Ok tt, set_trace (fun t => t ++ [Log (ErrorDeployingWorkload TypeError)]) self)) /\
  auto_deploy_enabled auto_deploy_engine = true /\
  approval_threshold auto_deploy_engine
    < Qabs (_get_aws_cost auto_deploy_engine - _get_alibaba_cost auto_deploy_engine) /\
  fst (process_workload example_workload auto_deploy_engine) = Ok tt /\
  pending_workloads (snd (process_workload example_workload auto_deploy_engine)) = [] /\
  trace (snd (process_workload example_workload auto_deploy_engine))
    = [ Log WarnMlModelNotTrained; Log WarnMlModelNotTrained;
        Log (ErrorDeployingWorkload TypeError) ].
Proof.
  split; [reflexivity|]. split; [reflexivity|]. split; [vm_compute; reflexivity|].
  split; [vm_compute; reflexivity|]. split; vm_compute; reflexivity.
Qed.

(** Cost monotonicity: raising the price of a provider, all else fixed,
    never raises its combined score. *)
Theorem combined_score_antitone_in_price :
  forall (model : option Classifier) (workload : Workload) (d : ProviderData) (price price' : Q),
    0 <= price -> price <= price' ->
    combined_score model workload
      (mkProviderData (region d) price' (latency_ms d) (cpu_utilization d)
         (memory_utilization d) (available_instances d) (spot_available d)
         (credits_available d) (extra_keys d))
    <= combined_score model workload
         (mkProviderData (region d) price (latency_ms d) (cpu_utilization d)
            (memory_utilization d) (available_instances d) (spot_available d)
            (credits_available d) (extra_keys d)).
Proof.
  intros model workload d price price' H0 Hle.
  set (d1 := mkProviderData (region d) price (latency_ms d) (cpu_utilization d)
               (memory_utilization d) (available_instances d) (spot_available d)
               (credits_available d) (extra_keys d)).
  set (d2 := mkProviderData (region d) price' (latency_ms d) (cpu_utilization d)
               (memory_utilization d) (available_instances d) (spot_available d)
               (credits_available d) (extra_keys d)).
  assert (Hp : predictive_score model workload d2 = predictive_score model workload d1)
    by reflexivity.
  assert (Hc1 : 0 <= _calculate_workload_cost workload d1)
    by (apply workload_cost_nonneg; exact H0).
  assert (Hc : _calculate_workload_cost workload d1 <= _calculate_workload_cost workload d2).
  { rewrite !workload_cost_factors.
    change (spot_factor d2) with (spot_factor d1).
    change (credits_factor d2) with (credits_factor d1).
    change (cost_per_hour d1) with price. change (cost_per_hour d2) with price'.
    pose proof (required_instances_Q workload).
    pose proof (spot_factor_range d1). pose proof (credits_factor_range d1).
    assert (0 <= inject_Z (required_instances workload) * spot_factor d1 * credits_factor d1).
    { repeat apply Qmult_le_0_compat; lra. }
    nra. }
  unfold combined_score. rewrite Hp.
  assert (Hinv : / (_calculate_workload_cost workload d2 + 0.001)
                 <= / (_calculate_workload_cost workload d1 + 0.001)).
  { destruct (Qle_lt_or_eq _ _ Hc) as [Hlt | Heq].
    - apply Qlt_le_weak.
      apply (proj1 (Qinv_lt_contravar (_calculate_workload_cost workload d1 + 0.001)
                      (_calculate_workload_cost workload d2 + 0.001)
                      ltac:(lra) ltac:(lra))). lra.
    - rewrite Heq. apply Qle_refl. }
  unfold Qdiv. lra.
Qed.

Lemma combined_score_antitone_in_price_witness :
  combined_score (Some unfitted) example_workload
    (mkProviderData "us-east-1" 0.60 50 0.5 0.6 10 (Some true) (Some 500) [])
  <= combined_score (Some unfitted) example_workload
       (mkProviderData "us-east-1" 0.05 50 0.5 0.6 10 (Some true) (Some 500) []).
Proof.
  apply (combined_score_antitone_in_price (Some unfitted) example_workload
           (mkProviderData "us-east-1" 0 50 0.5 0.6 10 (Some true) (Some 500) []) 0.05 0.60).
  - lra.
  - lra.
Defined.

(** ** What a run of [process_workload] can change *)

Section Growth.

Variable PE : Event -> Prop.
Variable PD : Decision -> Prop.
Variable PI : ApprovalRequest -> Prop.

Lemma grows_refl (s : Engine) : grows PE PD PI s s.
Proof.
  unfold grows. repeat (split; [reflexivity|]).
  split; [|split]; exists []; now rewrite app_nil_r.
Qed.

Lemma grows_trans (s1 s2 s3 : Engine) :
  grows PE PD PI s1 s2 -> grows PE PD PI s2 s3 -> grows PE PD PI s1 s3.
Proof.
  unfold grows.
  intros (A1 & A2 & A3 & A4 & A5 & A6 & A7 & A8 & A9 & A10
          & (ev1 & T1 & F1) & (d1 & D1 & G1) & (i1 & I1 & J1))
         (B1 & B2 & B3 & B4 & B5 & B6 & B7 & B8 & B9 & B10
          & (ev2 & T2 & F2) & (d2 & D2 & G2) & (i2 & I2 & J2)).
  repeat (split; [congruence|]). split; [|split].
  - exists (ev1 ++ ev2). rewrite T2, T1, app_assoc. split; [reflexivity|].
    apply Forall_app. now split.
  - exists (d1 ++ d2). rewrite D2, D1, app_assoc. split; [reflexivity|].
    apply Forall_app. now split.
  - exists (i1 ++ i2). rewrite I2, I1, app_assoc. split; [reflexivity|].
    apply Forall_app. now split.
Qed.

Lemma grows_of_frame (s s' : Engine) : frame PE PD s s' -> grows PE PD PI s s'.
Proof.
  unfold frame, grows.
  intros (A1 & A2 & A3 & A4 & A5 & A6 & A7 & A8 & A9 & A10 & A11 & HT & HD).
  do 10 (split; [assumption|]). split; [exact HT|]. split; [exact HD|].
  exists []. rewrite app_nil_r. split; [exact A4 | constructor].
Qed.

Lemma growing_of_framed {A} (c : M A) : framed PE PD c -> growing PE PD PI c.
Proof. intros H s. apply grows_of_frame. apply H. Qed.

Lemma growing_ret {A} (a : A) : growing PE PD PI (ret a).
Proof. intro s. apply grows_refl. Qed.

Lemma growing_bind {A B} (c : M A) (k : A -> M B) :
  growing PE PD PI c -> (forall a, growing PE PD PI (k a)) -> growing PE PD PI (bind c k).
Proof.
  intros Hc Hk s. unfold bind. specialize (Hc s).
  destruct (c s) as [[a|e] s1]; simpl in *.
  - eapply grows_trans; [exact Hc | apply Hk].
  - exact Hc.
Qed.

Lemma growing_try {A} (c : M A) (h : exn -> M A) :
  growing PE PD PI c -> (forall e, growing PE PD PI (h e)) ->
  growing PE PD PI (try_except c h).
Proof.
  intros Hc Hh s. unfold try_except. specialize (Hc s).
  destruct (c s) as [[a|e] s1]; simpl in *.
  - exact Hc.
  - eapply grows_trans; [exact Hc | apply Hh].
Qed.

End Growth.

Lemma check_cost_threshold_framed (PD : Decision -> Prop) (cost : Q) :
  framed is_log PD (_check_cost_threshold cost).
Proof.
  unfold _check_cost_threshold. apply framed_gets_bind. intro threshold.
  destruct (Qltb threshold cost); [|apply framed_ret].
  apply framed_bind; [apply framed_emit; exact I | intro; apply framed_ret].
Qed.

Lemma queue_for_approval_growing (PE : Event -> Prop) (PD : Decision -> Prop)
      (workload : Workload) (savings : Q) (why : Reason) :
  growing PE PD (placement_request_for workload) (_queue_for_approval workload savings why).
Proof.
  intro s. rewrite queue_for_approval_spec. cbn [snd].
  unfold grows, set_pending_workloads, set_clock; cbn.
  repeat (split; [reflexivity|]). split; [|split].
  - exists []. now rewrite app_nil_r.
  - exists []. now rewrite app_nil_r.
  - eexists. split; [reflexivity|]. constructor; [|constructor]. now split.
Qed.

(** A run of [process_workload], whatever the engine and the workload and
    however it ends: it starts and rolls back no Terraform run; it leaves
    the configuration, the telemetry and the existing approval items as they
    are; what it appends are decisions for this workload and
    [pending_approval] items for this workload. *)
Theorem process_workload_never_starts_terraform :
  forall (workload : Workload) (self : Engine),
    grows (fun e => ~ is_deployment e) (decided_for workload)
      (placement_request_for workload) self (snd (process_workload workload self)).
Proof.
  intros workload self.
  revert self. change (growing (fun e => ~ is_deployment e) (decided_for workload)
                         (placement_request_for workload) (process_workload workload)).
  assert (Hlog : forall A (c : M A),
             framed is_log (decided_for workload) c ->
             growing (fun e => ~ is_deployment e) (decided_for workload)
               (placement_request_for workload) c).
  { intros A c Hc. apply growing_of_framed.
    eapply framed_weaken; [apply not_deployment_log | | exact Hc]. tauto. }
  assert (Halert : forall m sev,
             growing (fun e => ~ is_deployment e) (decided_for workload)
               (placement_request_for workload) (send_alert m sev)).
  { intros m sev. apply growing_of_framed. apply framed_send_alert. simpl. tauto. }
  unfold process_workload. apply growing_try.
  - apply growing_bind; [apply Hlog, placement_framed|]. intros [[provider region] confidence].
    apply growing_bind; [apply Hlog, framed_gets|]. intro providers.
    apply growing_bind; [apply Hlog, framed_lift|]. intro provider_data.
    apply growing_bind; [apply Hlog, check_cost_threshold_framed|]. intros [|]; cbn [negb].
    + apply growing_bind; [apply Hlog, framed_gets|]. intro aws_cost.
      apply growing_bind; [apply Hlog, framed_gets|]. intro alibaba_cost.
      apply growing_bind; [apply Hlog, framed_gets|]. intro auto.
      apply growing_bind; [apply Hlog, framed_gets|]. intro threshold.
      destruct (auto && Qltb threshold (Qabs (aws_cost - alibaba_cost))).
      * apply Hlog, deploy_workload_object_framed.
      * apply queue_for_approval_growing.
    + apply growing_bind; [apply Hlog, framed_gets|]. intro threshold.
      apply growing_bind; [apply Hlog, framed_emit; exact I|]. intros _.
      apply growing_bind; [apply queue_for_approval_growing|]. intros _.
      apply Halert.
  - intro e. apply growing_bind; [apply Hlog, framed_emit; exact I|]. intros _.
    apply Halert.
Qed.

(** ** The decision log and the telemetry store *)

Lemma slice_from_negative (A : Type) (xs : list A) (start : Z) :
  (start < 0)%Z ->
  slice_from xs start = skipn (List.length xs - Z.to_nat (- start)) xs.
Proof.
  intro Hn. unfold slice_from.
  destruct (Z.ltb_spec start 0); [|lia]. f_equal. lia.
Qed.

Lemma slice_from_last (A : Type) (xs : list A) (n : Z) :
  (0 < n)%Z ->
  slice_from xs (- n) = skipn (List.length xs - Z.to_nat n) xs.
Proof.
  intro Hn. unfold slice_from.
  destruct (Z.ltb_spec (- n) 0); [|lia]. f_equal. lia.
Qed.

(** [get_decision_history limit], for a positive limit, returns the most
    recent [limit] decisions (all of them when there are fewer), in order;
    for [limit = 0] it returns the whole log, not the empty list; for a
    negative limit it drops the [-limit] oldest decisions. *)
Theorem get_decision_history_slices :
  forall (self : Engine),
    (forall limit, (0 < limit)%Z ->
       exists older,
         decision_history self = older ++ get_decision_history limit self /\
         List.length (get_decision_history limit self)
         = Nat.min (Z.to_nat limit) (List.length (decision_history self))) /\
    get_decision_history 0 self = decision_history self /\
    (forall limit, (limit < 0)%Z ->
       get_decision_history limit self = skipn (Z.to_nat (- limit)) (decision_history self)).
Proof.
  intro self. split; [|split].
  - intros limit Hl. unfold get_decision_history. rewrite slice_from_last by exact Hl.
    exists (firstn (List.length (decision_history self) - Z.to_nat limit) (decision_history self)).
    split; [now rewrite firstn_skipn|]. rewrite length_skipn. lia.
  - unfold get_decision_history, slice_from. cbn [Z.opp Z.ltb Z.compare].
    rewrite Z.min_l by lia. reflexivity.
  - intros limit Hl. unfold get_decision_history, slice_from.
    destruct (Z.ltb_spec (- limit) 0); [lia|].
    destruct (Z.min_spec (- limit) (Z.of_nat (List.length (decision_history self))))
      as [[H1 ->] | [H1 ->]].
    + reflexivity.
    + rewrite Nat2Z.id. rewrite skipn_all. symmetry. apply skipn_all2. lia.
Qed.

Lemma store_telemetry_state (telemetry : Telemetry) (s : Engine) :
  store_telemetry telemetry s
  = (Ok tt,
     set_telemetry_data
       (fun l => if (1000 <? List.length (l ++ [telemetry]))%nat
                 then slice_from (l ++ [telemetry]) (-1000)
                 else l ++ [telemetry]) s).
Proof.
  unfold store_telemetry, bind, modify, gets, ret, set_telemetry_data.
  cbn beta iota delta [fst snd telemetry_data].
  destruct (1000 <? List.length (telemetry_data s ++ [telemetry]))%nat; reflexivity.
Qed.

Lemma stored_record_is_current (telemetry : Telemetry) (s : Engine) :
  _get_current_provider_states
    (set_telemetry_data
       (fun l => if (1000 <? List.length (l ++ [telemetry]))%nat
                 then slice_from (l ++ [telemetry]) (-1000)
                 else l ++ [telemetry]) s)
  = tel_providers telemetry.
Proof.
  unfold _get_current_provider_states. cbn [telemetry_data set_telemetry_data].
  destruct (Nat.ltb_spec 1000 (List.length (telemetry_data s ++ [telemetry]))) as [Hlt | Hle].
  - rewrite slice_from_negative by lia.
    rewrite length_app in *. cbn [List.length] in *.
    rewrite skipn_app.
    replace (List.length (telemetry_data s) + 1 - Z.to_nat (- -1000)
             - List.length (telemetry_data s))%nat with 0%nat by lia.
    cbn [skipn]. rewrite rev_app_distr. reflexivity.
  - rewrite rev_app_distr. reflexivity.
Qed.

(** Storing a telemetry record keeps at most 1000 records, drops at most
    the oldest one when the store held at most 1000, touches nothing else,
    and makes the providers of the new record the current provider
    states. *)
Theorem store_telemetry_bounded_and_current :
  forall (telemetry : Telemetry) (self : Engine),
    fst (store_telemetry telemetry self) = Ok tt /\
    (List.length (telemetry_data (snd (store_telemetry telemetry self))) <= 1000)%nat /\
    (exists dropped,
       telemetry_data self ++ [telemetry]
       = dropped ++ telemetry_data (snd (store_telemetry telemetry self)) /\
       ((List.length (telemetry_data self) < 1000)%nat -> dropped = []) /\
       ((List.length (telemetry_data self) <= 1000)%nat -> (List.length dropped <= 1)%nat)) /\
    _get_current_provider_states (snd (store_telemetry telemetry self))
      = tel_providers telemetry /\
    set_telemetry_data (fun _ => telemetry_data self) (snd (store_telemetry telemetry self))
      = self.
Proof.
  intros telemetry self. rewrite store_telemetry_state. cbn [fst snd].
  split; [reflexivity|].
  unfold _get_current_provider_states. cbn [telemetry_data set_telemetry_data].
  destruct (Nat.ltb_spec 1000 (List.length (telemetry_data self ++ [telemetry]))) as [Hlt | Hle].
  - rewrite slice_from_negative by lia.
    rewrite length_app in *. cbn [List.length] in *.
    set (k := (List.length (telemetry_data self) + 1 - Z.to_nat (- -1000))%nat).
    assert (Hk : (k = List.length (telemetry_data self) + 1 - 1000)%nat) by (unfold k; lia).
    split; [rewrite length_skipn, length_app; cbn [List.length]; lia|].
    split; [|split].
    + exists (firstn k (telemetry_data self ++ [telemetry])). split; [|split].
      * now rewrite firstn_skipn.
      * intro H. lia.
      * intro H. rewrite length_firstn. lia.
    + rewrite skipn_app. replace (k - List.length (telemetry_data self))%nat with 0%nat by lia.
      cbn [skipn]. rewrite rev_app_distr. reflexivity.
    + destruct self. reflexivity.
  - split; [exact Hle|]. split; [|split].
    + exists []. split; [reflexivity|]. split; [reflexivity | simpl; lia].
    + rewrite rev_app_distr. reflexivity.
    + destruct self. reflexivity.
Qed.

(** ** Telemetry the engine fetches, and the placement it leads to *)

Lemma instances_cost_bounds (instance_types : list string) (acc : Q) :
  acc + 0.0208 * inject_Z (Z.of_nat (List.length instance_types))
    <= instances_cost instance_types acc /\
  instances_cost instance_types acc
    <= acc + 0.05 * inject_Z (Z.of_nat (List.length instance_types)).
Proof.
  revert acc. induction instance_types as [|t ts IH]; intro acc.
  - cbn [instances_cost List.length Z.of_nat]. change (inject_Z 0) with 0. split; lra.
  - cbn [instances_cost]. rewrite length_cons, Nat2Z.inj_succ.
    unfold Z.succ. rewrite inject_Z_plus.
    destruct (contains "t3.medium" t); [|destruct (contains "t3.small" t)];
      match goal with
      | |- context [instances_cost ts ?a] => destruct (IH a) as [H1 H2]
      end;
      change (inject_Z 1) with 1; split; lra.
Qed.

Lemma clamp01 (x : Q) : 0 <= max2 0 (min2 1 x) <= 1.
Proof.
  unfold max2, min2.
  destruct (Qltb_cases x 1) as [[E H] | [E H]]; rewrite E;
    match goal with
    | |- context [Qltb 0 ?y] => destruct (Qltb_cases 0 y) as [[E' H'] | [E' H']]; rewrite E'
    end; split; lra.
Qed.

Lemma discount_of_spot_and_credits (d : ProviderData) (c : Q) :
  spot_available d = Some true -> credits_available d = Some c -> 200 <= c ->
  discount_multiplier d == 0.32.
Proof.
  intros Hs Hc Hle. unfold discount_multiplier, spot_factor, credits_factor, credits_of.
  rewrite Hs, Hc.
  destruct (Qltb_cases 0 c) as [[E H] | [E H]]; rewrite E; [|lra].
  rewrite Q.min_l; [lra|].
  apply Qle_shift_div_l; lra.
Qed.

Lemma region_and_latency_fallback (readings : AwsReadings) :
  region_and_latency readings = ("us-east-1", 50 + aws_latency_noise readings).
Proof.
  unfold region_and_latency. destruct (terraform_region readings); reflexivity.
Qed.

Lemma fetched_aws_region (probe : AwsProbe) (s : Engine) :
  region (_fetch_aws_telemetry probe s) = "us-east-1".
Proof.
  destruct probe as [types readings | readings];
    cbn [_fetch_aws_telemetry region]; now rewrite region_and_latency_fallback.
Qed.

Lemma fetched_aws_price_positive (probe : AwsProbe) (s : Engine) :
  0 < aws_simulated_cost s -> 0 < cost_per_hour (_fetch_aws_telemetry probe s).
Proof.
  intro Ha.
  destruct probe as [types readings | readings]; cbn [_fetch_aws_telemetry cost_per_hour];
    [|exact Ha].
  destruct (Qltb_cases 0 (instances_cost types 0)) as [[E H] | [E H]]; rewrite E; assumption.
Qed.

(** The telemetry record that [_fetch_telemetry_data] builds, whatever the
    cloud APIs and the random draws give: its provider map has exactly the
    keys ['aws'] and ['alibaba'], in this order; both entries offer spot
    instances and carry none of the keys the predictor probes; the AWS
    region is always ['us-east-1'] and the AWS latency always the simulated
    one, whatever the Terraform outputs say, because the latency probe is
    called without [await] and formatting its coroutine object raises; with
    positive simulated costs both prices are positive; when the EC2 listing
    succeeds the AWS utilisations lie in [0, 1] and, with at least one
    running instance, the AWS price is the sum of the instance prices,
    between 0.0208 and 0.05 per instance; with Alibaba credits of at least
    200 both entries have the discount multiplier 0.32. *)
Theorem fetched_telemetry_shape :
  forall (time : nat) (probe : AwsProbe) (draws : AlibabaDraws) (self : Engine),
    tel_providers (_fetch_telemetry_data time probe draws self)
      = [ ("aws", _fetch_aws_telemetry probe self);
          ("alibaba", _fetch_alibaba_telemetry draws self) ] /\
    (forall n d, In (n, d) (tel_providers (_fetch_telemetry_data time probe draws self)) ->
       spot_available d = Some true /\ extra_keys d = []) /\
    (region (_fetch_aws_telemetry probe self) = "us-east-1" /\
     exists readings,
       (probe = ListingFailed readings \/ exists types, probe = Listed types readings) /\
       latency_ms (_fetch_aws_telemetry probe self) = 50 + aws_latency_noise readings) /\
    (0 < aws_simulated_cost self -> 0 < alibaba_simulated_cost self ->
     forall n d, In (n, d) (tel_providers (_fetch_telemetry_data time probe draws self)) ->
       0 < cost_per_hour d) /\
    (forall instance_types readings, probe = Listed instance_types readings ->
       0 <= cpu_utilization (_fetch_aws_telemetry probe self) <= 1 /\
       0 <= memory_utilization (_fetch_aws_telemetry probe self) <= 1 /\
       available_instances (_fetch_aws_telemetry probe self)
         = Z.of_nat (List.length instance_types) /\
       (instance_types = [] ->
        cost_per_hour (_fetch_aws_telemetry probe self) = aws_simulated_cost self) /\
       (instance_types <> [] ->
        cost_per_hour (_fetch_aws_telemetry probe self) = instances_cost instance_types 0 /\
        0.0208 * inject_Z (Z.of_nat (List.length instance_types))
          <= cost_per_hour (_fetch_aws_telemetry probe self)
          <= 0.05 * inject_Z (Z.of_nat (List.length instance_types)))) /\
    (200 <= draw_credits draws ->
     forall n d, In (n, d) (tel_providers (_fetch_telemetry_data time probe draws self)) ->
       discount_multiplier d == 0.32).
Proof.
  intros time probe draws self.
  assert (Hshape : tel_providers (_fetch_telemetry_data time probe draws self)
                   = [ ("aws", _fetch_aws_telemetry probe self);
                       ("alibaba", _fetch_alibaba_telemetry draws self) ]) by reflexivity.
  rewrite Hshape. split; [reflexivity|].
  assert (Haws : spot_available (_fetch_aws_telemetry probe self) = Some true /\
                 extra_keys (_fetch_aws_telemetry probe self) = [] /\
                 credits_available (_fetch_aws_telemetry probe self) = Some 500).
  { destruct probe; repeat split. }
  split; [|split; [|split; [|split]]].
  - intros n d [H | [H | []]]; injection H as _ <-; [tauto | now split].
  - split; [apply fetched_aws_region|].
    destruct probe as [types readings | readings]; exists readings;
      (split; [first [now left | right; now exists types]|]);
      cbn [_fetch_aws_telemetry latency_ms]; now rewrite region_and_latency_fallback.
  - intros Ha Hb n d [H | [H | []]]; injection H as _ <-; [|exact Hb].
    now apply fetched_aws_price_positive.
  - intros types readings ->. cbn [_fetch_aws_telemetry cpu_utilization memory_utilization
                                     available_instances cost_per_hour].
    split; [apply clamp01|]. split; [apply clamp01|]. split; [reflexivity|].
    destruct (instances_cost_bounds types 0) as [Hlo Hhi]. split.
    + intros ->. reflexivity.
    + intro Hne.
      assert (Hpos : 0 < instances_cost types 0).
      { destruct types as [|t ts]; [congruence|].
        rewrite length_cons, Nat2Z.inj_succ in Hlo. unfold Z.succ in Hlo.
        rewrite inject_Z_plus in Hlo. change (inject_Z 1) with 1 in Hlo.
        assert (0 <= inject_Z (Z.of_nat (List.length ts))).
        { change 0 with (inject_Z 0). rewrite <- Zle_Qle. lia. }
        lra. }
      apply Qltb_true in Hpos. rewrite Hpos. split; [reflexivity|]. split; lra.
  - intros Hcred n d [H | [H | []]]; injection H as _ <-.
    + destruct Haws as (Hs & _ & Hc).
      apply (discount_of_spot_and_credits _ 500 Hs Hc). lra.
    + apply (discount_of_spot_and_credits _ (draw_credits draws)); [reflexivity | reflexivity | exact Hcred].
Qed.

Lemma predictive_score_extra_keys (model : option Classifier) (workload : Workload)
      (d d' : ProviderData) :
  extra_keys d = extra_keys d' ->
  predictive_score model workload d = predictive_score model workload d'.
Proof.
  intro H. unfold predictive_score, features. now rewrite H.
Qed.

(** At equal predictive scores the cheaper provider does not score lower. *)
Lemma cheaper_scores_no_lower (model : option Classifier) (workload : Workload)
      (d d' : ProviderData) :
  0 <= _calculate_workload_cost workload d ->
  _calculate_workload_cost workload d <= _calculate_workload_cost workload d' ->
  predictive_score model workload d' == predictive_score model workload d ->
  combined_score model workload d' <= combined_score model workload d.
Proof.
  unfold combined_score. intros H0 Hle Hp.
  set (c := _calculate_workload_cost workload d) in *.
  set (c' := _calculate_workload_cost workload d') in *.
  assert (Hinv : / (c' + 0.001) <= / (c + 0.001)).
  { destruct (Qle_lt_or_eq _ _ Hle) as [Hlt | Heq].
    - apply Qlt_le_weak.
      apply (proj1 (Qinv_lt_contravar (c + 0.001) (c' + 0.001) ltac:(lra) ltac:(lra))). lra.
    - rewrite Heq. apply Qle_refl. }
  unfold Qdiv. rewrite Hp. lra.
Qed.

Lemma cost_order_is_price_order (workload : Workload) (d d' : ProviderData) :
  discount_multiplier d == discount_multiplier d' ->
  (_calculate_workload_cost workload d <= _calculate_workload_cost workload d'
   <-> cost_per_hour d <= cost_per_hour d').
Proof.
  intro Hm. rewrite !workload_cost_factors.
  pose proof (required_instances_Q workload) as Hk.
  pose proof (spot_factor_range d) as Hsf. pose proof (credits_factor_range d) as Hcf.
  unfold discount_multiplier in Hm.
  assert (Hpos : 0 < inject_Z (required_instances workload) * (spot_factor d * credits_factor d)).
  { apply Qmult_lt_0_compat; [lra|]. apply Qmult_lt_0_compat; lra. }
  set (K := inject_Z (required_instances workload) * (spot_factor d * credits_factor d)) in *.
  assert (E1 : cost_per_hour d * inject_Z (required_instances workload) * spot_factor d
               * credits_factor d == cost_per_hour d * K) by (unfold K; ring).
  assert (E2 : cost_per_hour d' * inject_Z (required_instances workload) * spot_factor d'
               * credits_factor d' == cost_per_hour d' * K).
  { unfold K. rewrite Hm. ring. }
  rewrite E1, E2. split; intro Hle; nra.
Qed.

(** The placement between two providers with the same predictor inputs:
    the first wins unless the second has the strictly lower cost. *)
Lemma two_provider_placement (workload : Workload) (self : Engine) (na nb : string)
      (da db : ProviderData) :
  _get_current_provider_states self = [(na, da); (nb, db)] ->
  na <> nb ->
  0 < _calculate_workload_cost workload da ->
  0 < _calculate_workload_cost workload db ->
  extra_keys da = extra_keys db ->
  exists name where_ confidence self' dec,
    calculate_optimal_placement workload self = (Ok (name, where_, confidence), self') /\
    ((name = na /\ where_ = region da) \/ (name = nb /\ where_ = region db)) /\
    (_calculate_workload_cost workload da <= _calculate_workload_cost workload db ->
     name = na) /\
    (name = nb ->
     _calculate_workload_cost workload db < _calculate_workload_cost workload da) /\
    frame is_log (decided_for workload) self self' /\
    decision_history self' = decision_history self ++ [dec] /\
    dec_workload_id dec = id workload /\
    selected_provider dec = name.
Proof.
  intros HP Hne Ha Hb Hx.
  pose proof (placement_framed workload self) as Hframe.
  destruct (placement_returns workload self)
    as (s1 & before & n & d & after & cc & explanation & Hf1 & Hsplit & Hlt & Hle & _ & Heq).
  { rewrite HP. discriminate. }
  { rewrite HP. simpl. repeat constructor; simpl; intuition congruence. }
  { rewrite HP. intros n d [H | [H | []]]; injection H as _ <-; assumption. }
  rewrite Heq in Hframe. cbn [snd] in Hframe.
  apply frame_no_decision in Hf1.
  pose proof (predictive_score_extra_keys (ml_model self) workload da db Hx) as Hp.
  rewrite HP in Hsplit.
  destruct before as [|x [|y before]].
  - injection Hsplit as <- <- <-.
    exists na, (region da). eexists _, _, _. split; [exact Heq|].
    split; [left; now split|]. split; [reflexivity|]. split; [intro; congruence|].
    split; [exact Hframe|].
    cbn [decision_history set_decision_history set_clock]. rewrite Hf1.
    split; [reflexivity|]. split; reflexivity.
  - injection Hsplit as <- <- <- <-.
    assert (Hord : _calculate_workload_cost workload db < _calculate_workload_cost workload da).
    { apply Qnot_le_lt. intro E.
      pose proof (cheaper_scores_no_lower (ml_model self) workload da db
                    (Qlt_le_weak _ _ Ha) E) as Hs.
      specialize (Hlt (na, da) (or_introl eq_refl)). cbn [snd] in Hlt.
      rewrite Hp in Hs. specialize (Hs (Qeq_refl _)). lra. }
    exists nb, (region db). eexists _, _, _. split; [exact Heq|].
    split; [right; now split|]. split; [intro; exfalso; lra|]. split; [intros _; exact Hord|].
    split; [exact Hframe|].
    cbn [decision_history set_decision_history set_clock]. rewrite Hf1.
    split; [reflexivity|]. split; reflexivity.
  - exfalso. apply (f_equal (@List.length _)) in Hsplit.
    rewrite length_app in Hsplit. cbn [List.length] in Hsplit. lia.
Qed.

(** The same by the prices, for two providers with the same discounts. *)
Lemma two_provider_placement_by_price (workload : Workload) (self : Engine) (na nb : string)
      (da db : ProviderData) :
  _get_current_provider_states self = [(na, da); (nb, db)] ->
  na <> nb ->
  0 < _calculate_workload_cost workload da ->
  0 < _calculate_workload_cost workload db ->
  discount_multiplier da == discount_multiplier db ->
  extra_keys da = extra_keys db ->
  exists name where_ confidence self' dec,
    calculate_optimal_placement workload self = (Ok (name, where_, confidence), self') /\
    ((name = na /\ where_ = region da) \/ (name = nb /\ where_ = region db)) /\
    (cost_per_hour da <= cost_per_hour db -> name = na) /\
    (name = nb -> cost_per_hour db < cost_per_hour da) /\
    frame is_log (decided_for workload) self self' /\
    decision_history self' = decision_history self ++ [dec] /\
    dec_workload_id dec = id workload /\
    selected_provider dec = name.
Proof.
  intros HP Hne Ha Hb Hm Hx.
  destruct (two_provider_placement workload self na nb da db HP Hne Ha Hb Hx)
    as (name & where_ & confidence & self' & dec & Hrun & Hwho & Hfirst & Hsecond & Hrest).
  pose proof (cost_order_is_price_order workload da db Hm) as Hord.
  exists name, where_, confidence, self', dec.
  split; [exact Hrun|]. split; [exact Hwho|].
  split; [intro Hle; apply Hfirst; now apply Hord|].
  split; [|exact Hrest].
  intro Hn. specialize (Hsecond Hn). apply Qnot_le_lt. intro Hle.
  apply Hord in Hle. lra.
Qed.

(** With two providers that have the same discount multiplier and the same
    predictor inputs, and positive computed costs,
    [calculate_optimal_placement] returns one of the two with its region:
    the first of the map whenever its price per hour is not higher, so that
    the second is returned only when its price is strictly lower; it records
    exactly one decision, for the provider it returns, and otherwise only
    logs. *)
Theorem two_provider_placement_follows_price :
  forall (workload : Workload) (self : Engine) (na nb : string) (da db : ProviderData),
    _get_current_provider_states self = [(na, da); (nb, db)] ->
    na <> nb ->
    0 < _calculate_workload_cost workload da ->
    0 < _calculate_workload_cost workload db ->
    discount_multiplier da == discount_multiplier db ->
    extra_keys da = extra_keys db ->
    exists name where_ confidence self' dec,
      calculate_optimal_placement workload self = (Ok (name, where_, confidence), self') /\
      ((name = na /\ where_ = region da) \/ (name = nb /\ where_ = region db)) /\
      (cost_per_hour da <= cost_per_hour db -> name = na) /\
      (name = nb -> cost_per_hour db < cost_per_hour da) /\
      frame is_log (decided_for workload) self self' /\
      decision_history self' = decision_history self ++ [dec] /\
      dec_workload_id dec = id workload /\
      selected_provider dec = name.
Proof.
  intros workload self na nb da db. apply two_provider_placement_by_price.
Qed.

Lemma two_provider_placement_follows_price_witness :
  exists confidence self',
    calculate_optimal_placement example_workload (initial_engine 0.05 0.50)
    = (Ok ("aws", "us-east-1", confidence), self').
Proof.
  destruct (two_provider_placement_follows_price example_workload (initial_engine 0.05 0.50)
              "aws" "alibaba"
              (mkProviderData "us-east-1" 0.05 50 0.5 0.6 10 (Some true) (Some 500) [])
              (mkProviderData "us-west-1" 0.50 60 0.4 0.5 15 (Some true) (Some 800) []))
    as (name & where_ & confidence & self' & dec & H & Hwho & Hfirst & _).
  - reflexivity.
  - discriminate.
  - vm_compute. reflexivity.
  - vm_compute. reflexivity.
  - vm_compute. reflexivity.
  - reflexivity.
  - exists confidence, self'. rewrite H.
    assert (Hn : name = "aws") by (apply Hfirst; simpl; lra).
    destruct Hwho as [[_ ->] | [Hb _]]; [now rewrite Hn | congruence].
Defined.

(** The two entries of a fetched record have the same discount multiplier
    when the Alibaba credits are at least 200, and the same predictor
    inputs. *)
Lemma fetched_entries_alike (probe : AwsProbe) (draws : AlibabaDraws) (self : Engine) :
  200 <= draw_credits draws ->
  discount_multiplier (_fetch_aws_telemetry probe self)
    == discount_multiplier (_fetch_alibaba_telemetry draws self) /\
  extra_keys (_fetch_aws_telemetry probe self)
    = extra_keys (_fetch_alibaba_telemetry draws self).
Proof.
  intro Hcred. split.
  - rewrite (discount_of_spot_and_credits (_fetch_aws_telemetry probe self) 500);
      [|destruct probe; reflexivity|destruct probe; reflexivity|lra].
    rewrite (discount_of_spot_and_credits (_fetch_alibaba_telemetry draws self)
               (draw_credits draws)); [reflexivity|reflexivity|reflexivity|exact Hcred].
  - destruct probe; reflexivity.
Qed.

(** After the engine has stored a telemetry record it fetched (Alibaba
    credits of at least 200, positive computed costs of the workload on the
    two entries), the placement of the workload, under any model, returns
    ['aws'] with region ['us-east-1'] or ['alibaba'] with region
    ['us-west-1']: ['aws'] whenever the AWS price of the record is at most
    the simulated Alibaba cost, so that ['alibaba'] is returned only when
    the simulated Alibaba cost is strictly lower. *)
Theorem placement_on_fetched_telemetry :
  forall (workload : Workload) (time : nat) (probe : AwsProbe) (draws : AlibabaDraws)
         (self : Engine),
    200 <= draw_credits draws ->
    costs_positive workload
      (snd (store_telemetry (_fetch_telemetry_data time probe draws self) self)) ->
    exists name where_ confidence self',
      calculate_optimal_placement workload
        (snd (store_telemetry (_fetch_telemetry_data time probe draws self) self))
      = (Ok (name, where_, confidence), self') /\
      ((name = "aws" /\ where_ = "us-east-1") \/
       (name = "alibaba" /\ where_ = "us-west-1")) /\
      (cost_per_hour (_fetch_aws_telemetry probe self) <= alibaba_simulated_cost self ->
       name = "aws") /\
      (name = "alibaba" ->
       alibaba_simulated_cost self < cost_per_hour (_fetch_aws_telemetry probe self)).
Proof.
  intros workload time probe draws self Hcred Hpos.
  assert (Hstates : _get_current_provider_states
                      (snd (store_telemetry (_fetch_telemetry_data time probe draws self) self))
                    = [ ("aws", _fetch_aws_telemetry probe self);
                        ("alibaba", _fetch_alibaba_telemetry draws self) ]).
  { rewrite store_telemetry_state. cbn [snd]. apply stored_record_is_current. }
  destruct (fetched_entries_alike probe draws self Hcred) as [Hm Hx].
  destruct (two_provider_placement_by_price workload
              (snd (store_telemetry (_fetch_telemetry_data time probe draws self) self))
              "aws" "alibaba" (_fetch_aws_telemetry probe self)
              (_fetch_alibaba_telemetry draws self))
    as (name & where_ & confidence & self' & dec & H & Hwho & Hfirst & Hsecond & _).
  - exact Hstates.
  - discriminate.
  - apply (Hpos "aws"). rewrite Hstates. now left.
  - apply (Hpos "alibaba"). rewrite Hstates. right. now left.
  - exact Hm.
  - exact Hx.
  - exists name, where_, confidence, self'. rewrite fetched_aws_region in Hwho.
    split; [exact H|]. split; [exact Hwho|]. split; [exact Hfirst | exact Hsecond].
Qed.

Lemma placement_on_fetched_telemetry_witness :
  exists confidence self',
    calculate_optimal_placement example_workload
      (snd (store_telemetry
              (_fetch_telemetry_data 0
                 (Listed ["t3.medium"; "t3.medium"] (mkAwsReadings (Ok "eu-west-1") 0 0.2 0.3))
                 (mkAlibabaDraws 0 0.4 0.5 15 800) (initial_engine 0.05 0.50))
              (initial_engine 0.05 0.50)))
    = (Ok ("aws", "us-east-1", confidence), self').
Proof.
  destruct (placement_on_fetched_telemetry example_workload 0
              (Listed ["t3.medium"; "t3.medium"] (mkAwsReadings (Ok "eu-west-1") 0 0.2 0.3))
              (mkAlibabaDraws 0 0.4 0.5 15 800) (initial_engine 0.05 0.50))
    as (name & where_ & confidence & self' & H & Hwho & Hfirst & _).
  - simpl. lra.
  - intros n d [E | [E | []]]; injection E as _ <-; vm_compute; reflexivity.
  - exists confidence, self'. rewrite H.
    assert (Hn : name = "aws") by (apply Hfirst; vm_compute; discriminate).
    destruct Hwho as [[_ ->] | [Hb _]]; [now rewrite Hn | congruence].
Defined.

(** The default provider states of an engine without telemetry. *)
Lemma default_states (self : Engine) :
  telemetry_data self = [] ->
  _get_current_provider_states self
  = [ ("aws", mkProviderData "us-east-1" (aws_simulated_cost self) 50 0.5 0.6 10
                (Some true) (Some 500) []);
      ("alibaba", mkProviderData "us-west-1" (alibaba_simulated_cost self) 60 0.4 0.5 15
                    (Some true) (Some 800) []) ].
Proof.
  intro Htel. unfold _get_current_provider_states. now rewrite Htel.
Qed.

(** The placement of an engine without telemetry, by the simulated costs. *)
Lemma default_placement (workload : Workload) (self : Engine) :
  telemetry_data self = [] ->
  costs_positive workload self ->
  exists name where_ confidence self' dec,
    calculate_optimal_placement workload self = (Ok (name, where_, confidence), self') /\
    ((name = "aws" /\ where_ = "us-east-1") \/
     (name = "alibaba" /\ where_ = "us-west-1")) /\
    (aws_simulated_cost self <= alibaba_simulated_cost self -> name = "aws") /\
    (name = "alibaba" -> alibaba_simulated_cost self < aws_simulated_cost self) /\
    frame is_log (decided_for workload) self self' /\
    decision_history self' = decision_history self ++ [dec] /\
    dec_workload_id dec = id workload /\
    selected_provider dec = name.
Proof.
  intros Htel Hpos.
  pose proof (default_states self Htel) as Hstates.
  apply (two_provider_placement_by_price workload self "aws" "alibaba"
           (mkProviderData "us-east-1" (aws_simulated_cost self) 50 0.5 0.6 10
              (Some true) (Some 500) [])
           (mkProviderData "us-west-1" (alibaba_simulated_cost self) 60 0.4 0.5 15
              (Some true) (Some 800) [])).
  - exact Hstates.
  - discriminate.
  - apply (Hpos "aws"). rewrite Hstates. now left.
  - apply (Hpos "alibaba"). rewrite Hstates. right. now left.
  - vm_compute. reflexivity.
  - reflexivity.
Qed.

(** Without telemetry (the default provider states) and with positive
    computed costs, [calculate_optimal_placement] returns ['aws'] or
    ['alibaba'], under any model.  When the simulated AWS cost is not the
    higher one it returns ['aws'], which an item queued afterwards
    recommends as well; when it returns ['alibaba'], the simulated Alibaba
    cost is strictly lower and the item recommends ['alibaba'] too. *)
Theorem recommendation_matches_placement_without_telemetry :
  forall (workload : Workload) (self : Engine),
    telemetry_data self = [] ->
    costs_positive workload self ->
    exists name where_ confidence self',
      calculate_optimal_placement workload self = (Ok (name, where_, confidence), self') /\
      (name = "aws" \/ name = "alibaba") /\
      (aws_simulated_cost self <= alibaba_simulated_cost self ->
       name = "aws" /\
       forall (other : Workload) (savings : Q) (why : Reason),
         item_recommended_provider (queued_item other savings why self') = Ok "aws") /\
      (name = "alibaba" ->
       alibaba_simulated_cost self < aws_simulated_cost self /\
       forall (other : Workload) (savings : Q) (why : Reason),
         item_recommended_provider (queued_item other savings why self') = Ok "alibaba").
Proof.
  intros workload self Htel Hpos.
  destruct (default_placement workload self Htel Hpos)
    as (name & where_ & confidence & self' & dec & H & Hwho & Hfirst & Hsecond & Hf & _).
  destruct Hf as (_ & _ & _ & _ & _ & _ & _ & Hsa & Hsb & _).
  assert (Hrec : forall other savings why,
             item_recommended_provider (queued_item other savings why self')
             = Ok (if Qltb (alibaba_simulated_cost self) (aws_simulated_cost self)
                   then "alibaba" else "aws")).
  { intros. unfold item_recommended_provider, queued_item, _get_aws_cost, _get_alibaba_cost.
    cbn [req_keys]. rewrite Hsa, Hsb. reflexivity. }
  exists name, where_, confidence, self'.
  split; [exact H|]. split; [destruct Hwho as [[-> _] | [-> _]]; tauto|]. split.
  - intro Hle. split; [now apply Hfirst|]. intros. rewrite Hrec.
    destruct (Qltb_cases (alibaba_simulated_cost self) (aws_simulated_cost self))
      as [[E Hlt] | [E _]]; rewrite E; [exfalso; lra | reflexivity].
  - intro Hn. specialize (Hsecond Hn). split; [exact Hsecond|]. intros. rewrite Hrec.
    apply Qltb_true in Hsecond. now rewrite Hsecond.
Qed.

Lemma recommendation_matches_placement_without_telemetry_witness :
  exists where_ confidence self',
    calculate_optimal_placement example_workload (initial_engine 0.05 0.50)
    = (Ok ("aws", where_, confidence), self') /\
    item_recommended_provider (queued_item example_workload 0.45 ManualApprovalRequired self')
    = Ok "aws".
Proof.
  destruct (recommendation_matches_placement_without_telemetry example_workload
              (initial_engine 0.05 0.50))
    as (name & where_ & confidence & self' & H & _ & Hfirst & _).
  - reflexivity.
  - intros n d [E | [E | []]]; injection E as _ <-; vm_compute; reflexivity.
  - destruct Hfirst as [-> Hrec]; [simpl; lra|].
    exists where_, confidence, self'. split; [exact H | apply Hrec].
Defined.

(** ** More on the approval operation *)

Lemma set_first_status_none (wid : string) (st : Status) (l : list ApprovalRequest) :
  ~ In wid (map workload_id l) -> set_first_status wid st l = None.
Proof.
  induction l as [|x l IH]; simpl; intro H; [reflexivity|].
  destruct (String.eqb_spec (workload_id x) wid) as [Heq | Hne].
  - exfalso. apply H. now left.
  - rewrite IH; [reflexivity|]. intro Hin. apply H. now right.
Qed.

Lemma set_first_status_some (wid : string) (st : Status) (l : list ApprovalRequest) :
  In wid (map workload_id l) ->
  exists before item after,
    l = before ++ item :: after /\
    ~ In wid (map workload_id before) /\
    workload_id item = wid /\
    set_first_status wid st l
    = Some (with_status st item, before ++ with_status st item :: after).
Proof.
  induction l as [|x l IH]; simpl; intro H; [contradiction|].
  destruct (String.eqb_spec (workload_id x) wid) as [Heq | Hne].
  - exists [], x, l. repeat split; try assumption. intros [].
  - destruct H as [H | H]; [contradiction|].
    destruct (IH H) as (before & item & after & -> & Hb & Hid & Hset).
    exists (x :: before), item, after. rewrite Hset.
    repeat split; try assumption. simpl. intros [Hx | Hx]; [contradiction | now apply Hb].
Qed.

(** [approve_workload] with an id that no item carries changes nothing at
    all and signals nothing: it returns normally with the engine as it
    was. *)
Theorem approve_unknown_id_is_silent_no_op :
  forall (wid : string) (approve : bool) (self : Engine),
    ~ In wid (map workload_id (pending_workloads self)) ->
    approve_workload wid approve self = (Ok tt, self).
Proof.
  intros wid approve self H. unfold approve_workload, bind, gets, ret.
  now rewrite (set_first_status_none wid _ _ H).
Qed.

Lemma approve_unknown_id_is_silent_no_op_witness :
  approve_workload "workload-999" true waiting_engine = (Ok tt, waiting_engine).
Proof.
  apply approve_unknown_id_is_silent_no_op.
  simpl. intros [H | []]. discriminate H.
Defined.

(** A rejection marks the first item that carries the id as [rejected],
    whatever its status was, and does nothing else: no deployment, no
    decision, no event, no other item changed.  Rejecting again changes
    nothing more. *)
Theorem rejection_marks_first_item_only_and_is_idempotent :
  forall (wid : string) (self : Engine),
    In wid (map workload_id (pending_workloads self)) ->
    exists before item after,
      pending_workloads self = before ++ item :: after /\
      ~ In wid (map workload_id before) /\
      workload_id item = wid /\
      approve_workload wid false self
      = (Ok tt, set_pending_workloads
                  (fun _ => before ++ with_status rejected item :: after) self) /\
      approve_workload wid false (snd (approve_workload wid false self))
      = approve_workload wid false self.
Proof.
  intros wid self Hin.
  destruct (set_first_status_some wid rejected _ Hin)
    as (before & item & after & Hl & Hb & Hid & Hset).
  exists before, item, after. split; [exact Hl|]. split; [exact Hb|]. split; [exact Hid|].
  assert (H1 : approve_workload wid false self
               = (Ok tt, set_pending_workloads
                           (fun _ => before ++ with_status rejected item :: after) self)).
  { unfold approve_workload, bind, gets, modify, ret. cbn [fst snd]. now rewrite Hset. }
  split; [exact H1|]. rewrite H1. cbn [snd].
  unfold approve_workload, bind, gets, modify, ret.
  cbn [fst snd pending_workloads set_pending_workloads].
  destruct (set_first_status_some wid rejected (before ++ with_status rejected item :: after))
    as (before' & item' & after' & Hl' & Hb' & Hid' & Hset').
  { rewrite map_app. apply in_or_app. right. left. exact Hid. }
  assert (Hset2 : set_first_status wid rejected (before ++ with_status rejected item :: after)
                  = Some (with_status rejected item,
                          before ++ with_status rejected item :: after)).
  { clear - Hb Hid. induction before as [|x before IH]; simpl.
    - rewrite Hid, String.eqb_refl. reflexivity.
    - destruct (String.eqb_spec (workload_id x) wid) as [Heq | Hne].
      + exfalso. apply Hb. now left.
      + rewrite IH; [reflexivity|]. intro H. apply Hb. now right. }
  rewrite Hset2. reflexivity.
Qed.

Lemma rejection_marks_first_item_only_and_is_idempotent_witness :
  approve_workload "workload-001" false
    (snd (approve_workload "workload-001" false waiting_engine))
  = approve_workload "workload-001" false waiting_engine.
Proof.
  destruct (rejection_marks_first_item_only_and_is_idempotent "workload-001" waiting_engine)
    as (before & item & after & _ & _ & _ & _ & H).
  - simpl. now left.
  - exact H.
Defined.

(** ** Running workloads and the monitoring pass *)

Lemma running_of_listing (l : list ApprovalRequest) :
  running_of l
  = if existsb (fun item => is_approved item && is_switch_request item) l
    then Raise (KeyError "recommended_provider")
    else Ok (map (fun item =>
                    mkRunningWorkload (workload_id item)
                      (match req_keys item with
                       | PlacementKeys _ _ recommended => recommended
                       | SwitchKeys _ new_provider => new_provider
                       end) 4 8 "medium" (req_timestamp item))
               (filter is_approved l)).
Proof.
  unfold is_approved, is_switch_request.
  induction l as [|item l IH]; [reflexivity|].
  cbn [running_of existsb filter]. unfold item_recommended_provider.
  destruct (status item); cbn [andb orb map]; try exact IH.
  destruct (req_keys item); cbn [rbind orb]; [|reflexivity].
  rewrite IH.
  match goal with |- context [existsb ?f l] => destruct (existsb f l) end; reflexivity.
Qed.

(** [_get_running_workloads] lists one running workload per approved item,
    in order, each with 4 cores, 8 GB and priority ['medium'], and raises
    [KeyError 'recommended_provider'] as soon as one approved item is a
    switch request, which has no such key. *)
Theorem running_workloads_listing :
  forall (self : Engine),
    _get_running_workloads self
    = if existsb (fun item => is_approved item && is_switch_request item)
           (pending_workloads self)
      then Raise (KeyError "recommended_provider")
      else Ok (map (fun item =>
                      mkRunningWorkload (workload_id item)
                        (match req_keys item with
                         | PlacementKeys _ _ recommended => recommended
                         | SwitchKeys _ new_provider => new_provider
                         end) 4 8 "medium" (req_timestamp item))
                 (filter is_approved (pending_workloads self))).
Proof.
  intro self. apply running_of_listing.
Qed.

Lemma monitor_all_running (rs : list RunningWorkload) (s : Engine) :
  for_each rs (fun workload (_ : unit) => await (Coroutine (_monitor_workload_costs workload)))
    tt s
  = (Ok tt,
     set_trace (fun t => t ++ map (fun r => Log (ErrorMonitoringWorkload (run_id r) TypeError)) rs)
       s).
Proof.
  revert s. induction rs as [|r rs IH]; intro s.
  - cbn [for_each ret map]. f_equal. destruct s. unfold set_trace. cbn.
    now rewrite app_nil_r.
  - cbn [for_each await map]. unfold bind. rewrite monitor_raises_type_error.
    rewrite IH. f_equal. unfold set_trace. cbn. now rewrite <- app_assoc.
Qed.

Lemma monitoring_iteration_state :
  forall (self : Engine),
    monitoring_iteration self
    = (Ok tt,
       set_trace
         (fun t =>
            t ++ if existsb (fun item => is_approved item && is_switch_request item)
                      (pending_workloads self)
                 then [Log (ErrorContinuousMonitoring (KeyError "recommended_provider"))]
                 else map (fun item => Log (ErrorMonitoringWorkload (workload_id item) TypeError))
                        (filter is_approved (pending_workloads self)))
         self).
Proof.
  intro self. unfold monitoring_iteration, try_except. unfold bind at 1.
  unfold _get_running_workloads. rewrite running_of_listing.
  destruct (existsb (fun item => is_approved item && is_switch_request item)
              (pending_workloads self)).
  - reflexivity.
  - rewrite monitor_all_running, map_map. reflexivity.
Qed.

(** A pass of the continuous monitor returns normally and changes nothing
    but the log: it adds one ['Error monitoring workload ...'] record with a
    [TypeError] per approved item, or, when an approved item is a switch
    request, the single record ['Error in continuous monitoring'] with the
    [KeyError].  It never appends a switch request, records no decision and
    starts no Terraform run. *)
Theorem monitoring_pass_only_logs_errors :
  forall (self : Engine),
    monitoring_iteration self
    = (Ok tt,
       set_trace
         (fun t =>
            t ++ if existsb (fun item => is_approved item && is_switch_request item)
                      (pending_workloads self)
                 then [Log (ErrorContinuousMonitoring (KeyError "recommended_provider"))]
                 else map (fun item => Log (ErrorMonitoringWorkload (workload_id item) TypeError))
                        (filter is_approved (pending_workloads self)))
         self).
Proof.
  exact monitoring_iteration_state.
Qed.

(** ** An approval, end to end *)

Lemma terraform_started_after_logs (outcome : ApplyOutcome) (plan : TerraformChanges)
      (logs evs : list Event) :
  Forall is_log logs ->
  terraform_started outcome plan evs ->
  terraform_started outcome plan (logs ++ evs).
Proof.
  intros Hlogs Hstart.
  assert (Hnone : forall p, ~ In (TerraformApply p) logs).
  { intros p Hin. apply (proj1 (Forall_forall _ _) Hlogs) in Hin. exact Hin. }
  destruct outcome as [[| |] | notes | rollback]; cbn [terraform_started] in *.
  - apply Forall_app. split; [|exact Hstart].
    eapply Forall_impl; [|exact Hlogs]. intros e He. now apply not_deployment_log.
  - destruct Hstart as [Hin Hno]. split; [apply in_or_app; now right|].
    intro H. apply in_app_or in H. destruct H as [H | H]; [now apply (Hnone plan) | now apply Hno].
  - destruct Hstart as [Hin Hno]. split; [apply in_or_app; now right|].
    intro H. apply in_app_or in H. destruct H as [H | H]; [now apply (Hnone plan) | now apply Hno].
  - apply in_or_app. now right.
  - apply in_or_app. now right.
Qed.

(** Approving a queued workload while the engine has no telemetry and the
    rebuilt workload has positive computed costs: the call returns normally;
    the first item with the id becomes [approved] and no other item changes;
    exactly one decision is recorded, for the provider of the plan; every
    Terraform event carries one and the same plan, and the runs that are
    started with it are those the environment allows: [terraform apply]
    unless its set-up fails, then the rollback, and none when the rollback
    cannot be started either.  The plan targets ['aws'] whenever the
    simulated AWS cost is not the higher one, and ['alibaba'] only when the
    simulated Alibaba cost is strictly lower; it scales that provider up to
    two instances and the other one down to zero, whatever the attributes
    of the workload that was queued. *)
Theorem approval_deploys_on_cheaper_provider :
  forall (wid : string) (self : Engine),
    In wid (map workload_id (pending_workloads self)) ->
    telemetry_data self = [] ->
    costs_positive (rebuilt_workload wid) self ->
    exists before item after plan evs dec,
      pending_workloads self = before ++ item :: after /\
      ~ In wid (map workload_id before) /\
      workload_id item = wid /\
      fst (approve_workload wid true self) = Ok tt /\
      pending_workloads (snd (approve_workload wid true self))
        = before ++ with_status approved item :: after /\
      decision_history (snd (approve_workload wid true self))
        = decision_history self ++ [dec] /\
      dec_workload_id dec = wid /\
      selected_provider dec = tf_provider plan /\
      trace (snd (approve_workload wid true self)) = trace self ++ evs /\
      Forall (terraform_only_with plan) evs /\
      terraform_started (terraform_outcome self plan) plan evs /\
      tf_workload_id plan = wid /\
      ((tf_provider plan = "aws" /\ tf_region plan = "us-east-1") \/
       (tf_provider plan = "alibaba" /\ tf_region plan = "us-west-1")) /\
      (aws_simulated_cost self <= alibaba_simulated_cost self -> tf_provider plan = "aws") /\
      (tf_provider plan = "alibaba" ->
       alibaba_simulated_cost self < aws_simulated_cost self) /\
      single_active_provider (rebuilt_workload wid) plan /\
      scales_up_only (tf_provider plan) 2 plan.
Proof.
  intros wid self Hin Htel Hpos.
  destruct (set_first_status_some wid approved _ Hin)
    as (before & item & after & Hl & Hnb & Hid & Hset).
  exists before, item, after.
  set (s0 := set_pending_workloads
               (fun _ => before ++ with_status approved item :: after) self).
  assert (Happ : approve_workload wid true self
                 = _deploy_workload (ItemDict (with_status approved item)) s0).
  { unfold approve_workload. unfold bind at 1. unfold gets at 1. rewrite Hset.
    reflexivity. }
  destruct (default_placement (rebuilt_workload wid) s0 Htel Hpos)
    as (winner & where_ & confidence & s1 & dec & Hplace & Hwho & Hfirst & Hsecond
        & Hf1 & Hdec & Hdid & Hsel).
  cbn [s0 aws_simulated_cost alibaba_simulated_cost set_pending_workloads]
    in Hfirst, Hsecond.
  destruct (generate_effect (rebuilt_workload wid) winner where_ s1)
    as (plan & s2 & evs2 & Hgen & Hf2 & Htr2 & Hall2 & Hstart & Hpid & Hpp & Hpr & Hup).
  assert (Hrun : _deploy_workload (ItemDict (with_status approved item)) s0 = (Ok tt, s2)).
  { unfold _deploy_workload, try_except. unfold bind at 1. unfold lift at 1.
    cbn [deploy_arg_workload_id with_status workload_id]. rewrite Hid.
    change (mkWorkload wid 4 8 "medium" 0.5 0.5 24.0) with (rebuilt_workload wid).
    unfold bind at 1. rewrite Hplace. unfold bind at 1. rewrite Hgen. reflexivity. }
  rewrite Happ, Hrun. cbn [fst snd].
  destruct Hf1 as (_ & _ & _ & Hp1 & _ & _ & _ & _ & _ & _ & Hout & (evs1 & Htr1 & Hall1) & _).
  pose proof (frame_no_decision _ _ _ Hf2) as Hd2.
  destruct Hf2 as (_ & _ & _ & Hp2 & _).
  rewrite Hout in Hstart.
  assert (Hw : winner = "aws" \/ winner = "alibaba").
  { destruct Hwho as [[-> _] | [-> _]]; tauto. }
  destruct (Hup Hw) as [Hsingle Hscale].
  exists plan, (evs1 ++ evs2), dec.
  split; [exact Hl|]. split; [exact Hnb|]. split; [exact Hid|]. split; [reflexivity|].
  split; [rewrite Hp2, Hp1; reflexivity|].
  split; [rewrite Hd2, Hdec; reflexivity|].
  split; [exact Hdid|].
  split; [rewrite Hsel, Hpp; reflexivity|].
  split; [rewrite Htr2, Htr1, app_assoc; reflexivity|].
  split.
  { apply Forall_app. split; [|exact Hall2].
    eapply Forall_impl; [|exact Hall1]. intros [r| | |] H; simpl in *; tauto. }
  split; [now apply terraform_started_after_logs|].
  rewrite Hpp, Hpr.
  split; [exact Hpid|]. split; [exact Hwho|]. split; [exact Hfirst|]. split; [exact Hsecond|].
  split; [exact Hsingle | exact Hscale].
Qed.

Lemma approval_deploys_on_cheaper_provider_witness :
  exists plan evs dec,
    pending_workloads (snd (approve_workload "workload-001" true waiting_engine))
      = [with_status approved waiting_item] /\
    decision_history (snd (approve_workload "workload-001" true waiting_engine)) = [dec] /\
    trace (snd (approve_workload "workload-001" true waiting_engine)) = evs /\
    In (TerraformApply plan) evs /\
    tf_provider plan = "aws" /\
    scales_up_only "aws" 2 plan /\
    Forall (fun e => ~ is_deployment e)
      (trace (snd (approve_workload "workload-001" true no_terraform_engine))).
Proof.
  destruct (approval_deploys_on_cheaper_provider "workload-001" waiting_engine)
    as (before & item & after & plan & evs & dec & Hl & Hnb & Hid & _ & Hp & Hd & _ & _ & Ht
        & _ & Hstart & _ & _ & Hfirst & _ & _ & Hscale).
  - simpl. now left.
  - reflexivity.
  - intros n d [E | [E | []]]; injection E as _ <-; vm_compute; reflexivity.
  - exists plan, evs, dec.
    assert (Hprov : tf_provider plan = "aws") by (apply Hfirst; simpl; lra).
    rewrite Hprov in Hscale.
    destruct before as [|x before].
    + injection Hl as <- <-. split; [exact Hp|]. split; [exact Hd|]. split; [exact Ht|].
      split; [exact Hstart|]. split; [exact Hprov|]. split; [exact Hscale|].
      destruct (approval_deploys_on_cheaper_provider "workload-001" no_terraform_engine)
        as (_ & _ & _ & plan' & evs' & _ & _ & _ & _ & _ & _ & _ & _ & _ & Ht' & _ & Hnone & _).
      * simpl. now left.
      * reflexivity.
      * intros n d [E | [E | []]]; injection E as _ <-; vm_compute; reflexivity.
      * rewrite Ht'. exact Hnone.
    + exfalso. apply (f_equal (@List.length _)) in Hl. simpl in Hl.
      rewrite length_app in Hl. simpl in Hl. lia.
Defined.

(** ** A first placement within the cost threshold *)

(** When the placement of a workload returns a provider whose estimated cost
    is within [cost_threshold]: with auto-deploy enabled and the difference
    of the simulated costs above [approval_threshold], [process_workload]
    hands the [Workload] object to [_deploy_workload], whose subscript
    raises [TypeError]; the error is logged and the workload is neither
    deployed nor queued.  In every other case exactly one item is queued,
    with the reason ['Manual approval required'] and the difference of the
    simulated costs as its savings. *)
Theorem auto_deploy_drops_the_workload :
  forall (workload : Workload) (self self1 : Engine)
         (provider region : string) (confidence : Q) (provider_data : ProviderData),
    calculate_optimal_placement workload self = (Ok (provider, region, confidence), self1) ->
    dict_get (_get_current_provider_states self) provider = Some provider_data ->
    _calculate_workload_cost workload provider_data <= cost_threshold self ->
    pending_workloads self1 = pending_workloads self /\
    ((auto_deploy_enabled self = true /\
      approval_threshold self < Qabs (_get_aws_cost self - _get_alibaba_cost self)) ->
     process_workload workload self
     = (Ok tt, set_trace (fun t => t ++ [Log (ErrorDeployingWorkload TypeError)]) self1)) /\
    ((auto_deploy_enabled self = false \/
      Qabs (_get_aws_cost self - _get_alibaba_cost self) <= approval_threshold self) ->
     process_workload workload self
     = (Ok tt,
        set_pending_workloads
          (fun l => l ++ [queued_item workload
                            (Qabs (_get_aws_cost self - _get_alibaba_cost self))
                            ManualApprovalRequired self1])
          (set_clock S self1))).
Proof.
  intros workload self self1 provider region confidence provider_data Hplace Hget Hcost.
  pose proof (placement_framed workload self) as Hf. rewrite Hplace in Hf. cbn [snd] in Hf.
  pose proof (frame_providers _ _ _ _ Hf) as Hprov.
  destruct Hf as (_ & _ & Hauto & Hpend & Happr & _ & Hthr & Haws & Hali & _).
  assert (Hsub : subscript (_get_current_provider_states self1) provider = Ok provider_data).
  { unfold subscript. now rewrite Hprov, Hget. }
  assert (Hlt : Qltb (cost_threshold self1) (_calculate_workload_cost workload provider_data)
                = false).
  { apply Qltb_false. now rewrite Hthr. }
  assert (Hrun : process_workload workload self
                 = if auto_deploy_enabled self
                      && Qltb (approval_threshold self)
                           (Qabs (_get_aws_cost self - _get_alibaba_cost self))
                   then (Ok tt,
                         set_trace (fun t => t ++ [Log (ErrorDeployingWorkload TypeError)]) self1)
                   else (Ok tt,
                         set_pending_workloads
                           (fun l => l ++ [queued_item workload
                                             (Qabs (_get_aws_cost self - _get_alibaba_cost self))
                                             ManualApprovalRequired self1])
                           (set_clock S self1))).
  { unfold process_workload, try_except. unfold bind at 1. rewrite Hplace.
    unfold bind at 1. unfold gets at 1. unfold bind at 1. unfold lift at 1. rewrite Hsub.
    unfold bind at 1. unfold _check_cost_threshold.
    unfold bind at 1. unfold gets at 1. rewrite Hlt.
    unfold ret at 1. cbn [negb].
    unfold bind at 1. unfold gets at 1. unfold bind at 1. unfold gets at 1.
    unfold bind at 1. unfold gets at 1. unfold bind at 1. unfold gets at 1.
    unfold _get_aws_cost, _get_alibaba_cost. rewrite Hauto, Happr, Haws, Hali.
    destruct (auto_deploy_enabled self
              && Qltb (approval_threshold self)
                   (Qabs (aws_simulated_cost self - alibaba_simulated_cost self))).
    - reflexivity.
    - rewrite queue_for_approval_spec. unfold queued_item, _get_aws_cost, _get_alibaba_cost.
      rewrite Haws, Hali. reflexivity. }
  split; [exact Hpend|]. split.
  - intros [Hon Hsav]. rewrite Hrun, Hon. apply Qltb_true in Hsav. rewrite Hsav. reflexivity.
  - intros Hoff. rewrite Hrun. destruct Hoff as [Hoff | Hsav].
    + rewrite Hoff. reflexivity.
    + apply Qltb_false in Hsav. rewrite Hsav, andb_false_r. reflexivity.
Qed.

Lemma auto_deploy_drops_the_workload_witness :
  exists self1,
    process_workload example_workload auto_deploy_engine
    = (Ok tt, set_trace (fun t => t ++ [Log (ErrorDeployingWorkload TypeError)]) self1) /\
    pending_workloads self1 = pending_workloads auto_deploy_engine.
Proof.
  exists (snd (calculate_optimal_placement example_workload auto_deploy_engine)).
  destruct (auto_deploy_drops_the_workload example_workload auto_deploy_engine
              (snd (calculate_optimal_placement example_workload auto_deploy_engine))
              "aws" "us-east-1"
              (snd (match fst (calculate_optimal_placement example_workload auto_deploy_engine)
                    with Ok x => x | Raise _ => ("", "", 0) end))
              (mkProviderData "us-east-1" 0.05 50 0.5 0.6 10 (Some true) (Some 500) []))
    as (Hpend & Hdrop & _).
  - vm_compute. reflexivity.
  - vm_compute. reflexivity.
  - vm_compute. discriminate.
  - split; [|exact Hpend]. apply Hdrop. split; [reflexivity | vm_compute; reflexivity].
Defined.

(** ** Items that share an id *)

Lemma set_first_status_keeps (wid : string) (st : Status)
      (before : list ApprovalRequest) (item : ApprovalRequest) (after : list ApprovalRequest)
      (hit : ApprovalRequest) (l' : list ApprovalRequest) :
  wid <> workload_id item \/ In wid (map workload_id before) ->
  set_first_status wid st (before ++ item :: after) = Some (hit, l') ->
  exists before' after',
    l' = before' ++ item :: after' /\
    map workload_id before' = map workload_id before.
Proof.
  revert hit l'. induction before as [|x before IH]; intros hit l' Hor H; simpl in H.
  - destruct Hor as [Hne | []].
    destruct (String.eqb_spec (workload_id item) wid) as [Heq | _]; [congruence|].
    destruct (set_first_status wid st after) as [[hit' l'']|]; [|discriminate].
    injection H as _ <-. exists [], l''. split; reflexivity.
  - destruct (String.eqb_spec (workload_id x) wid) as [Heq | Hne].
    + injection H as _ <-. exists (with_status st x :: before), after.
      split; reflexivity.
    + destruct (set_first_status wid st (before ++ item :: after)) as [[hit' l'']|] eqn:E;
        [|discriminate].
      injection H as _ <-.
      destruct (IH hit' l'') as (before' & after' & -> & Hids).
      * destruct Hor as [H | [H | H]]; [now left | congruence | now right].
      * reflexivity.
      * exists (x :: before'), after'. split; [reflexivity|]. simpl. now rewrite Hids.
Qed.

Lemma approve_keeps_shadowed (wid : string) (approve : bool) (s : Engine)
      (before : list ApprovalRequest) (item : ApprovalRequest) (after : list ApprovalRequest) :
  pending_workloads s = before ++ item :: after ->
  In (workload_id item) (map workload_id before) ->
  exists before' after',
    pending_workloads (snd (approve_workload wid approve s)) = before' ++ item :: after' /\
    map workload_id before' = map workload_id before.
Proof.
  intros Hl Hin. unfold approve_workload. unfold bind at 1. unfold gets at 1.
  destruct (set_first_status wid (if approve then approved else rejected) (pending_workloads s))
    as [[hit l']|] eqn:E.
  - rewrite Hl in E. apply set_first_status_keeps in E.
    + destruct E as (before' & after' & -> & Hids). exists before', after'.
      split; [|exact Hids].
      unfold bind, modify. destruct approve; [|reflexivity].
      pose proof (deploy_framed hit
                    (set_pending_workloads (fun _ => before' ++ item :: after') s)) as Hf.
      destruct (_deploy_workload (ItemDict hit)
                  (set_pending_workloads (fun _ => before' ++ item :: after') s)) as [r s'].
      cbn [snd] in *. destruct Hf as (_ & _ & _ & Hp & _). exact Hp.
    + destruct (string_dec wid (workload_id item)) as [-> | Hne]; [now right | now left].
  - exists before, after. split; [exact Hl | reflexivity].
Qed.

Lemma run_approvals_keep_shadowed (calls : list (string * bool)) (s : Engine)
      (before : list ApprovalRequest) (item : ApprovalRequest) (after : list ApprovalRequest) :
  pending_workloads s = before ++ item :: after ->
  In (workload_id item) (map workload_id before) ->
  exists before' after',
    pending_workloads (run_approvals calls s) = before' ++ item :: after' /\
    map workload_id before' = map workload_id before.
Proof.
  revert s before after. induction calls as [|[wid approve] calls IH]; intros s before after Hl Hin.
  - exists before, after. split; [exact Hl | reflexivity].
  - cbn [run_approvals].
    destruct (approve_keeps_shadowed wid approve s before item after Hl Hin)
      as (before1 & after1 & Hl1 & Hids1).
    destruct (IH _ before1 after1 Hl1) as (before2 & after2 & Hl2 & Hids2).
    + now rewrite Hids1.
    + exists before2, after2. split; [exact Hl2 | congruence].
Qed.

(** An item that comes after another item with the same workload id can
    never be approved or rejected: whatever sequence of [approve_workload]
    calls is made, it stays in the list unchanged, at the same position. *)
Theorem shadowed_item_is_never_resolved :
  forall (calls : list (string * bool)) (self : Engine)
         (before : list ApprovalRequest) (item : ApprovalRequest)
         (after : list ApprovalRequest),
    pending_workloads self = before ++ item :: after ->
    In (workload_id item) (map workload_id before) ->
    exists before' after',
      pending_workloads (run_approvals calls self) = before' ++ item :: after' /\
      map workload_id before' = map workload_id before /\
      List.length before' = List.length before.
Proof.
  intros calls self before item after Hl Hin.
  destruct (run_approvals_keep_shadowed calls self before item after Hl Hin)
    as (before' & after' & H & Hids).
  exists before', after'. split; [exact H|]. split; [exact Hids|].
  apply (f_equal (@List.length _)) in Hids. now rewrite !length_map in Hids.
Qed.

Lemma shadowed_item_is_never_resolved_witness :
  exists before' after',
    pending_workloads
      (run_approvals [("workload-001", true); ("workload-001", false)]
         (set_pending_workloads (fun _ => [waiting_item; waiting_item]) waiting_engine))
    = before' ++ waiting_item :: after' /\
    List.length before' = 1%nat.
Proof.
  destruct (shadowed_item_is_never_resolved
              [("workload-001", true); ("workload-001", false)]
              (set_pending_workloads (fun _ => [waiting_item; waiting_item]) waiting_engine)
              [waiting_item] waiting_item [])
    as (before' & after' & H & _ & Hlen).
  - reflexivity.
  - simpl. now left.
  - exists before', after'. split; [exact H | exact Hlen].
Defined.

Lemma running_of_ids (l : list ApprovalRequest) (rs : list RunningWorkload) (r : RunningWorkload) :
  running_of l = Ok rs -> In r rs -> In (run_id r) (map workload_id l).
Proof.
  revert rs. induction l as [|x l IH]; intros rs H Hin; simpl in H.
  - injection H as <-. contradiction.
  - destruct (status x); try (right; now apply (IH rs)).
    destruct (item_recommended_provider x) as [p|e]; [|discriminate]. cbn [rbind] in H.
    destruct (running_of l) as [rest|e]; [|discriminate]. cbn [rbind] in H.
    injection H as <-. destruct Hin as [<- | Hin]; [now left | right; now apply (IH rest)].
Qed.

(** A switch request for a running workload can never be approved or
    rejected: [_request_switch_approval] appends it under the id of the
    workload, which is the id of the approved item the running workload was
    listed from, so every later [approve_workload] call with that id
    resolves the earlier item again; [get_pending_workloads] does not list
    the request either. *)
Theorem switch_request_is_never_resolved :
  forall (self : Engine) (running : list RunningWorkload) (workload : RunningWorkload)
         (new_provider : string) (savings : Q) (calls : list (string * bool)),
    _get_running_workloads self = Ok running ->
    In workload running ->
    exists request,
      _request_switch_approval workload new_provider savings self
      = (Ok tt, set_pending_workloads (fun l => l ++ [request]) (set_clock S self)) /\
      workload_id request = run_id workload /\
      status request = pending_switch_approval /\
      get_pending_workloads (snd (_request_switch_approval workload new_provider savings self))
        = get_pending_workloads self /\
      exists others,
        pending_workloads
          (run_approvals calls
             (snd (_request_switch_approval workload new_provider savings self)))
        = others ++ [request] /\
        map workload_id others = map workload_id (pending_workloads self).
Proof.
  intros self running workload new_provider savings calls Hrun Hin.
  exists (mkApprovalRequest (run_id workload) (clock self) savings pending_switch_approval
            (CostOptimization new_provider savings)
            (SwitchKeys (run_provider workload) new_provider)).
  assert (Heq : _request_switch_approval workload new_provider savings self
                = (Ok tt,
                   set_pending_workloads
                     (fun l => l ++ [mkApprovalRequest (run_id workload) (clock self) savings
                                       pending_switch_approval
                                       (CostOptimization new_provider savings)
                                       (SwitchKeys (run_provider workload) new_provider)])
                     (set_clock S self))) by reflexivity.
  split; [exact Heq|]. split; [reflexivity|]. split; [reflexivity|].
  rewrite Heq. cbn [snd]. split.
  - unfold get_pending_workloads. cbn [pending_workloads set_pending_workloads set_clock].
    rewrite filter_app. cbn [filter status]. now rewrite app_nil_r.
  - destruct (run_approvals_keep_shadowed calls
                (set_pending_workloads
                   (fun l => l ++ [mkApprovalRequest (run_id workload) (clock self) savings
                                     pending_switch_approval
                                     (CostOptimization new_provider savings)
                                     (SwitchKeys (run_provider workload) new_provider)])
                   (set_clock S self))
                (pending_workloads self)
                (mkApprovalRequest (run_id workload) (clock self) savings
                   pending_switch_approval (CostOptimization new_provider savings)
                   (SwitchKeys (run_provider workload) new_provider))
                [])
      as (before' & after' & H & Hids).
    + reflexivity.
    + cbn [workload_id]. eapply running_of_ids; [exact Hrun | exact Hin].
    + assert (Hlen : List.length (pending_workloads
                       (run_approvals calls
                          (set_pending_workloads
                             (fun l => l ++ [mkApprovalRequest (run_id workload) (clock self)
                                               savings pending_switch_approval
                                               (CostOptimization new_provider savings)
                                               (SwitchKeys (run_provider workload) new_provider)])
                             (set_clock S self))))
                     = S (List.length (pending_workloads self))).
      { pose proof (run_approvals_stays_resolved calls
                      (set_pending_workloads
                         (fun l => l ++ [mkApprovalRequest (run_id workload) (clock self)
                                           savings pending_switch_approval
                                           (CostOptimization new_provider savings)
                                           (SwitchKeys (run_provider workload) new_provider)])
                         (set_clock S self))) as Hsr.
        apply Forall2_length in Hsr. rewrite <- Hsr.
        cbn [pending_workloads set_pending_workloads set_clock].
        rewrite length_app. simpl. lia. }
      rewrite H in Hlen. rewrite length_app in Hlen. cbn [List.length] in Hlen.
      apply (f_equal (@List.length _)) in Hids as Hlen2. rewrite !length_map in Hlen2.
      destruct after' as [|y after']; [|simpl in Hlen; lia].
      exists before'. split; [exact H | exact Hids].
Qed.

Lemma switch_request_is_never_resolved_witness :
  exists request others,
    status request = pending_switch_approval /\
    pending_workloads
      (run_approvals [("workload-001", true); ("workload-001", false)]
         (snd (_request_switch_approval running_on_aws "alibaba" 0.55 drifted_engine)))
    = others ++ [request].
Proof.
  destruct (switch_request_is_never_resolved drifted_engine [running_on_aws] running_on_aws
              "alibaba" 0.55 [("workload-001", true); ("workload-001", false)])
    as (request & _ & _ & Hst & _ & others & H & _).
  - reflexivity.
  - now left.
  - exists request, others. split; [exact Hst | exact H].
Defined.

(** ** The [max_cost] condition of auto-deploy *)

Section MaxCost.

Lemma ignores_ret {A} (a : A) : ignores_max_cost (ret a).
Proof. intros m s. reflexivity. Qed.

Lemma ignores_raise {A} (e : exn) : ignores_max_cost (@raise A e).
Proof. intros m s. reflexivity. Qed.

Lemma ignores_lift {A} (r : result A) : ignores_max_cost (lift r).
Proof. intros m s. reflexivity. Qed.

Lemma ignores_gets {A} (f : Engine -> A) :
  (forall m s, f (set_max_cost_per_hour m s) = f s) -> ignores_max_cost (gets f).
Proof. intros H m s. unfold gets. now rewrite H. Qed.

Lemma ignores_modify (f : Engine -> Engine) :
  (forall m s, f (set_max_cost_per_hour m s) = set_max_cost_per_hour m (f s)) ->
  ignores_max_cost (modify f).
Proof. intros H m s. unfold modify. now rewrite H. Qed.

Lemma ignores_bind {A B} (c : M A) (k : A -> M B) :
  ignores_max_cost c -> (forall a, ignores_max_cost (k a)) -> ignores_max_cost (bind c k).
Proof.
  intros Hc Hk m s. unfold bind. rewrite Hc.
  destruct (c s) as [[a|e] s']; cbn [fst snd]; [apply Hk | reflexivity].
Qed.

Lemma ignores_try {A} (c : M A) (handler : exn -> M A) :
  ignores_max_cost c -> (forall e, ignores_max_cost (handler e)) ->
  ignores_max_cost (try_except c handler).
Proof.
  intros Hc Hh m s. unfold try_except. rewrite Hc.
  destruct (c s) as [[a|e] s']; cbn [fst snd]; [reflexivity | apply Hh].
Qed.

Lemma ignores_emit (e : Event) : ignores_max_cost (emit e).
Proof. intros m s. reflexivity. Qed.

Lemma ignores_now : ignores_max_cost now.
Proof. intros m s. reflexivity. Qed.

Lemma ignores_send_alert (message : AlertMessage) (severity : string) :
  ignores_max_cost (send_alert message severity).
Proof.
  unfold send_alert. apply ignores_bind; [apply ignores_gets; reflexivity|].
  intro url. destruct (String.eqb url ""); [apply ignores_ret | apply ignores_emit].
Qed.

Lemma ignores_for_each {A B} (xs : list A) (body : A -> B -> M B) (acc : B) :
  (forall x b, ignores_max_cost (body x b)) -> ignores_max_cost (for_each xs body acc).
Proof.
  intro H. revert acc. induction xs as [|x xs IH]; intro acc; cbn [for_each].
  - apply ignores_ret.
  - apply ignores_bind; [apply H | exact IH].
Qed.

Ltac ignores_step :=
  match goal with
  | |- ignores_max_cost (ret _) => apply ignores_ret
  | |- ignores_max_cost (raise _) => apply ignores_raise
  | |- ignores_max_cost (lift _) => apply ignores_lift
  | |- ignores_max_cost (gets _) => apply ignores_gets; reflexivity
  | |- ignores_max_cost (modify _) => apply ignores_modify; reflexivity
  | |- ignores_max_cost (emit _) => apply ignores_emit
  | |- ignores_max_cost (log _) => apply ignores_emit
  | |- ignores_max_cost now => apply ignores_now
  | |- ignores_max_cost (send_alert _ _) => apply ignores_send_alert
  | |- ignores_max_cost (await (Plain _)) => apply ignores_raise
  | |- ignores_max_cost (await (Coroutine _)) => cbn [await]
  | |- ignores_max_cost (bind _ _) => apply ignores_bind; [|intro]
  | |- ignores_max_cost (try_except _ _) => apply ignores_try; [|intro]
  | |- ignores_max_cost (for_each _ _ _) => apply ignores_for_each; intros
  | |- ignores_max_cost (if ?b then _ else _) => destruct b
  | |- ignores_max_cost (match ?x with _ => _ end) => destruct x
  | |- ignores_max_cost (let _ := _ in _) => cbv zeta
  end.

Lemma ignores_predict (workload : Workload) (provider_data : ProviderData) :
  ignores_max_cost (_predict_optimal_provider workload provider_data).
Proof. unfold _predict_optimal_provider. repeat ignores_step. Qed.

Lemma ignores_placement (workload : Workload) :
  ignores_max_cost (calculate_optimal_placement workload).
Proof.
  unfold calculate_optimal_placement, select_best_provider, cost_and_prediction_loop.
  repeat first [apply ignores_predict | ignores_step].
Qed.

Lemma ignores_generate (workload : Workload) (provider region : string) :
  ignores_max_cost (generate_terraform_changes workload provider region).
Proof.
  unfold generate_terraform_changes, _apply_terraform_changes, _rollback_terraform_changes.
  repeat ignores_step.
Qed.

Lemma ignores_deploy (arg : DeployArg) : ignores_max_cost (_deploy_workload arg).
Proof.
  unfold _deploy_workload.
  repeat first [apply ignores_placement | apply ignores_generate | ignores_step].
Qed.

Lemma ignores_process (workload : Workload) : ignores_max_cost (process_workload workload).
Proof.
  unfold process_workload, _check_cost_threshold, _queue_for_approval.
  repeat first [apply ignores_placement | apply ignores_deploy | ignores_step].
Qed.

Lemma ignores_approve (wid : string) (approve : bool) :
  ignores_max_cost (approve_workload wid approve).
Proof.
  unfold approve_workload.
  repeat first [apply ignores_deploy | ignores_step].
Qed.

Lemma ignores_monitoring : ignores_max_cost monitoring_iteration.
Proof.
  unfold monitoring_iteration.
  apply ignores_try; [|intro e; apply ignores_emit].
  apply ignores_bind; [intros m s; reflexivity|]. intro running.
  apply ignores_for_each. intros workload []. cbn [await].
  unfold _monitor_workload_costs, _request_switch_approval. repeat ignores_step.
Qed.

End MaxCost.

Lemma get_default_dict_set {V} (d : dict V) (k k' : string) (v default : V) :
  get_default (dict_set d k v) k' default
  = if String.eqb k k' then v else get_default d k' default.
Proof.
  unfold get_default. induction d as [|[k0 v0] d IH]; simpl.
  - destruct (String.eqb k k'); reflexivity.
  - destruct (String.eqb_spec k0 k) as [-> | Hne]; simpl.
    + destruct (String.eqb k k'); reflexivity.
    + destruct (String.eqb_spec k0 k') as [-> | Hne'].
      * destruct (String.eqb_spec k k') as [-> | _]; [congruence | reflexivity].
      * exact IH.
Qed.

(** The ['max_cost'] condition of [enable_auto_deploy] has no effect: it is
    stored in [max_cost_per_hour] and nowhere else, and neither a first
    placement, nor an approval, nor a monitoring pass reads that field.
    Enabling auto-deploy with another ['max_cost'] gives the same results
    and the same state, but for that field. *)
Theorem max_cost_condition_has_no_effect :
  forall (conditions : dict Q) (env_cost_threshold m : Q) (self : Engine),
    snd (enable_auto_deploy (dict_set conditions "max_cost" m) env_cost_threshold self)
    = set_max_cost_per_hour m
        (snd (enable_auto_deploy conditions env_cost_threshold self)) /\
    (forall workload, ignores_max_cost (process_workload workload)) /\
    (forall wid approve, ignores_max_cost (approve_workload wid approve)) /\
    ignores_max_cost monitoring_iteration /\
    forall workload,
      fst (process_workload workload
             (snd (enable_auto_deploy (dict_set conditions "max_cost" m)
                     env_cost_threshold self)))
      = fst (process_workload workload
               (snd (enable_auto_deploy conditions env_cost_threshold self))) /\
      pending_workloads
        (snd (process_workload workload
                (snd (enable_auto_deploy (dict_set conditions "max_cost" m)
                        env_cost_threshold self))))
      = pending_workloads
          (snd (process_workload workload
                  (snd (enable_auto_deploy conditions env_cost_threshold self)))) /\
      trace
        (snd (process_workload workload
                (snd (enable_auto_deploy (dict_set conditions "max_cost" m)
                        env_cost_threshold self))))
      = trace
          (snd (process_workload workload
                  (snd (enable_auto_deploy conditions env_cost_threshold self)))).
Proof.
  intros conditions env_cost_threshold m self.
  assert (Hen : snd (enable_auto_deploy (dict_set conditions "max_cost" m)
                       env_cost_threshold self)
                = set_max_cost_per_hour m
                    (snd (enable_auto_deploy conditions env_cost_threshold self))).
  { unfold enable_auto_deploy, modify, set_max_cost_per_hour. cbn.
    rewrite !get_default_dict_set. reflexivity. }
  split; [exact Hen|]. split; [exact ignores_process|]. split; [exact ignores_approve|].
  split; [exact ignores_monitoring|].
  intro workload. rewrite Hen, ignores_process. cbn [fst snd].
  split; [reflexivity|]. split; reflexivity.
Qed.

(** ** Placement while the model is not trained *)

Lemma untrained_predicts_half (model : option Classifier) (workload : Workload)
      (d : ProviderData) :
  model = None \/ (exists clf, model = Some clf /\ has_classes_ clf = false) ->
  predictive_score model workload d = 0.5.
Proof.
  intros [-> | (clf & -> & H)]; unfold predictive_score; [reflexivity|].
  now rewrite H.
Qed.

(** While the model is missing or not fitted, for every non-empty provider
    map without duplicate keys and with positive computed costs,
    [calculate_optimal_placement] returns a provider of the map with its
    region, and every provider that precedes it in the map has a strictly
    higher workload cost; so the first provider is returned whenever no
    other one is cheaper.  The confidence it returns is at most 0.85; it is
    at least 0.15 when no provider that follows the winner in the map is
    cheaper than the winner, and 0.5 when the map has one provider. *)
Theorem untrained_model_places_on_cheapest :
  forall (workload : Workload) (self : Engine),
    _get_current_provider_states self <> [] ->
    NoDup (keys (_get_current_provider_states self)) ->
    costs_positive workload self ->
    (ml_model self = None \/
     exists clf, ml_model self = Some clf /\ has_classes_ clf = false) ->
    exists before n d after confidence self',
      calculate_optimal_placement workload self = (Ok (n, region d, confidence), self') /\
      _get_current_provider_states self = before ++ (n, d) :: after /\
      (forall x, In x before ->
         _calculate_workload_cost workload d < _calculate_workload_cost workload (snd x)) /\
      (forall n0 d0 rest,
         _get_current_provider_states self = (n0, d0) :: rest ->
         (forall x, In x rest ->
            _calculate_workload_cost workload d0
              <= _calculate_workload_cost workload (snd x)) ->
         before = [] /\ n = n0 /\ d = d0) /\
      confidence <= 0.85 /\
      ((forall x, In x after ->
          _calculate_workload_cost workload d <= _calculate_workload_cost workload (snd x)) ->
       0.15 <= confidence) /\
      (before = [] -> after = [] -> confidence == 0.5).
Proof.
  intros workload self Hne Hnd Hpos Hmodel.
  destruct (placement_returns workload self Hne Hnd Hpos)
    as (s1 & before & n & d & after & cc & explanation & _ & Hsplit & Hlt & Hle & Hcc & Heq).
  assert (Hhalf : forall d', predictive_score (ml_model self) workload d' = 0.5).
  { intro d'. now apply untrained_predicts_half. }
  assert (Hin : forall x, In x (_get_current_provider_states self) ->
                          0 < _calculate_workload_cost workload (snd x)).
  { intros [n' d'] H. exact (Hpos n' d' H). }
  assert (Hd : 0 < _calculate_workload_cost workload d).
  { apply (Hin (n, d)). rewrite Hsplit. apply in_or_app. right. now left. }
  assert (Hbefore : forall x, In x before ->
            _calculate_workload_cost workload d < _calculate_workload_cost workload (snd x)).
  { intros x Hx. apply Qnot_le_lt. intro Hc.
    assert (H0 : 0 <= _calculate_workload_cost workload (snd x)).
    { apply Qlt_le_weak. apply Hin. rewrite Hsplit. apply in_or_app. now left. }
    pose proof (cheaper_scores_no_lower (ml_model self) workload (snd x) d H0 Hc) as Hs.
    rewrite !Hhalf in Hs. specialize (Hs (Qeq_refl _)).
    specialize (Hlt x Hx). lra. }
  exists before, n, d, after,
    (0.7 * cc + 0.3 * predictive_score (ml_model self) workload d). eexists.
  split; [exact Heq|]. split; [exact Hsplit|]. split; [exact Hbefore|].
  rewrite Hhalf.
  split; [|split; [|split]].
  - intros n0 d0 rest Hstates Hleast.
    destruct before as [|x before].
    + rewrite Hstates in Hsplit. injection Hsplit as -> -> _. now repeat split.
    + exfalso. rewrite Hstates in Hsplit. injection Hsplit as <- ->.
      specialize (Hbefore (n0, d0) (or_introl eq_refl)). cbn [snd] in Hbefore.
      specialize (Hleast (n, d)). cbn [snd] in Hleast.
      assert (_calculate_workload_cost workload d0 <= _calculate_workload_cost workload d).
      { apply Hleast. apply in_or_app. right. now left. }
      lra.
  - assert (Hle1 : cc <= 1).
    { destruct Hcc as [[_ Hc] | (m & _ & Hc)]; rewrite Hc; [lra | apply Q.le_min_l]. }
    lra.
  - intro Hafter.
    assert (H0 : 0 <= cc); [|lra].
    destruct Hcc as [[_ Hc] | (m & [Hm _] & Hc)]; [rewrite Hc; lra|].
    rewrite Hc. apply Q.min_glb; [lra|].
    apply other_costs_of in Hm. destruct Hm as (n' & d' & Hin' & ->).
    assert (Hge : _calculate_workload_cost workload d <= _calculate_workload_cost workload d').
    { rewrite Hsplit in Hin'. apply in_app_or in Hin'.
      destruct Hin' as [H | [H | H]].
      - apply Qlt_le_weak. apply (Hbefore (n', d') H).
      - injection H as _ <-. apply Qle_refl.
      - apply (Hafter (n', d') H). }
    apply Qmult_le_0_compat; [|lra].
    apply Qle_shift_div_l; [exact Hd | lra].
  - intros -> ->. cbn [app] in Hsplit.
    destruct Hcc as [[_ Hc] | (m & [Hm _] & _)].
    + rewrite Hc. reflexivity.
    + exfalso. unfold other_costs, costs_of in Hm. rewrite Hsplit in Hm.
      cbn [map filter fst] in Hm. rewrite String.eqb_refl in Hm. exact Hm.
Qed.

Lemma untrained_model_places_on_cheapest_witness :
  exists confidence self',
    calculate_optimal_placement example_workload (initial_engine 0.05 0.50)
    = (Ok ("aws", "us-east-1", confidence), self') /\
    0.15 <= confidence /\ confidence <= 0.85.
Proof.
  destruct (untrained_model_places_on_cheapest example_workload (initial_engine 0.05 0.50))
    as (before & n & d & after & confidence & self' & H & Hsplit & _ & Hfirst & Hhi & Hlo & _).
  - discriminate.
  - apply default_states_nodup.
  - intros n d [H | [H | []]]; injection H as _ <-; vm_compute; reflexivity.
  - right. exists unfitted. split; reflexivity.
  - destruct (Hfirst "aws"
                (mkProviderData "us-east-1" 0.05 50 0.5 0.6 10 (Some true) (Some 500) [])
                [("alibaba",
                  mkProviderData "us-west-1" 0.50 60 0.4 0.5 15 (Some true) (Some 800) [])])
      as (-> & -> & ->).
    + reflexivity.
    + intros x [<- | []]. vm_compute. discriminate.
    + exists confidence, self'. split; [exact H|]. split; [|exact Hhi].
      apply Hlo. injection Hsplit as <-.
      intros x [<- | []]. vm_compute. discriminate.
Defined.

(** ** The explanation of a decision *)

Lemma min_from_least {A} (key : A -> Q) (best : A) (xs : list A) :
  forall x, In x (best :: xs) -> key (min_from key best xs) <= key x.
Proof.
  revert best. induction xs as [|y xs IH]; intros best x Hin.
  - destruct Hin as [<- | []]. apply Qle_refl.
  - cbn [min_from].
    destruct (Qltb_cases (key y) (key best)) as [[E H] | [E H]]; rewrite E.
    + destruct Hin as [<- | [<- | Hin]].
      * apply Qle_trans with (key y); [apply IH; now left | lra].
      * apply IH. now left.
      * apply IH. now right.
    + destruct Hin as [<- | [<- | Hin]].
      * apply IH. now left.
      * apply Qle_trans with (key best); [apply IH; now left | exact H].
      * apply IH. now right.
Qed.

(** [_explain_cost_decision] for a selected provider that is a key of the
    cost map.  Without another provider the alternative is ['N/A'] with
    zeros.  Otherwise the alternative is the cheapest other provider, the
    savings are its cost minus the selected cost (negative when the selected
    provider is not the cheapest), the percentage is taken of the
    alternative's cost, and the monthly savings are 720 times the hourly
    ones.  The only failure is a [ZeroDivisionError], raised exactly when
    that cheapest alternative costs zero. *)
Theorem explanation_reports_cheapest_alternative :
  forall (workload : Workload) (costs : dict Q) (selected : string) (selected_cost : Q),
    dict_get costs selected = Some selected_cost ->
    match _explain_cost_decision workload costs selected with
    | Ok ex =>
        ex_selected ex = upper selected /\
        ex_selected_cost ex = selected_cost /\
        ex_monthly_savings ex = ex_savings ex * 24 * 30 /\
        (((forall n c, In (n, c) costs -> n = selected) /\
          ex_alt_name ex = "N/A" /\ ex_alt_cost ex = 0 /\
          ex_savings ex = 0 /\ ex_savings_percent ex = 0) \/
         (In (ex_alt_name ex, ex_alt_cost ex) costs /\
          ex_alt_name ex <> selected /\
          ~ ex_alt_cost ex == 0 /\
          (forall n c, In (n, c) costs -> n <> selected -> ex_alt_cost ex <= c) /\
          ex_savings ex = ex_alt_cost ex - selected_cost /\
          ex_savings_percent ex = ex_savings ex / ex_alt_cost ex * 100))
    | Raise e =>
        e = ZeroDivisionError /\
        exists n c,
          In (n, c) costs /\ n <> selected /\ c == 0 /\
          forall n' c', In (n', c') costs -> n' <> selected -> c <= c'
    end.
Proof.
  intros workload costs selected selected_cost Hget.
  unfold _explain_cost_decision, subscript. rewrite Hget. cbn [rbind].
  destruct (filter (fun nc => negb (String.eqb (fst nc) selected)) costs) as [|x xs] eqn:E.
  - cbn [rbind ex_selected ex_selected_cost ex_monthly_savings ex_savings ex_alt_name
         ex_alt_cost ex_savings_percent].
    split; [reflexivity|]. split; [reflexivity|]. split; [reflexivity|]. left.
    split; [|repeat split].
    intros n c Hin. destruct (String.eqb_spec n selected) as [Heq | Hne]; [exact Heq|].
    exfalso. assert (H : In (n, c) []).
    { rewrite <- E. apply filter_In. split; [exact Hin|]. cbn [fst].
      apply negb_true_iff. now apply String.eqb_neq. }
    exact H.
  - cbn [min_by rbind].
    assert (Hin : In (min_from snd x xs) (x :: xs)) by apply min_from_in.
    assert (Hleast : forall n c, In (n, c) costs -> n <> selected ->
                                 snd (min_from snd x xs) <= c).
    { intros n c Hc Hne. apply (min_from_least snd x xs (n, c)).
      rewrite <- E. apply filter_In. split; [exact Hc|]. cbn [fst].
      apply negb_true_iff. now apply String.eqb_neq. }
    rewrite <- E in Hin. apply filter_In in Hin. destruct Hin as [Hin Hsel].
    apply negb_true_iff in Hsel. apply String.eqb_neq in Hsel.
    destruct (min_from snd x xs) as [an ac]. cbn [fst snd] in *.
    unfold div. destruct (Qeq_bool ac 0) eqn:Ez; cbn [rbind].
    + split; [reflexivity|]. exists an, ac.
      split; [exact Hin|]. split; [exact Hsel|]. split; [now apply Qeq_bool_iff | exact Hleast].
    + cbn [ex_selected ex_selected_cost ex_monthly_savings ex_savings ex_alt_name
           ex_alt_cost ex_savings_percent].
      split; [reflexivity|]. split; [reflexivity|]. split; [reflexivity|]. right.
      split; [exact Hin|]. split; [exact Hsel|].
      split; [now apply Qeq_bool_neq|]. split; [exact Hleast|]. split; reflexivity.
Qed.

Lemma explanation_reports_cheapest_alternative_witness :
  exists ex,
    _explain_cost_decision example_workload
      [("aws", 0.04); ("gcp", 0.9); ("alibaba", 0.4)] "gcp" = Ok ex /\
    ex_alt_cost ex <= 0.4 /\
    ex_savings ex = ex_alt_cost ex - 0.9.
Proof.
  pose proof (explanation_reports_cheapest_alternative example_workload
                [("aws", 0.04); ("gcp", 0.9); ("alibaba", 0.4)] "gcp" 0.9 eq_refl) as H.
  destruct (_explain_cost_decision example_workload
              [("aws", 0.04); ("gcp", 0.9); ("alibaba", 0.4)] "gcp") as [ex|e].
  - exists ex. split; [reflexivity|].
    destruct H as (_ & _ & _ & [(Hall & _) | (_ & _ & _ & Hleast & Hsav & _)]).
    + specialize (Hall "aws" 0.04 (or_introl eq_refl)). discriminate Hall.
    + split; [|exact Hsav]. apply (Hleast "alibaba" 0.4); [simpl; tauto | discriminate].
  - exfalso. destruct H as (_ & n & c & Hin & Hne & Hz & _).
    destruct Hin as [H | [H | [H | []]]]; injection H as <- <-;
      [vm_compute in Hz; discriminate Hz | congruence | vm_compute in Hz; discriminate Hz].
Defined.

(** ** The legacy score and the additional resources *)

(** [_calculate_provider_score] raises [ZeroDivisionError] exactly when the
    price is -1 or the latency is -100, raises [KeyError] for
    ['credits_available'] when the dict has no credits (and no division
    failed before), and otherwise returns the weighted sum of the five
    partial scores, in which the resource score is capped at 1 and the
    credits bonus at 0.2. *)
Theorem legacy_score_failures_and_value :
  forall (weights : RoutingWeights) (noise : Q) (workload : Workload) (d : ProviderData),
    match _calculate_provider_score weights noise workload d with
    | Raise e =>
        (e = ZeroDivisionError /\ (cost_per_hour d == -1 \/ latency_ms d == -100)) \/
        (e = KeyError "credits_available" /\ credits_available d = None /\
         ~ cost_per_hour d == -1 /\ ~ latency_ms d == -100)
    | Ok score =>
        ~ cost_per_hour d == -1 /\ ~ latency_ms d == -100 /\
        exists credits,
          credits_available d = Some credits /\
          score == cost_weight weights / (1 + cost_per_hour d)
                   + latency_weight weights / (1 + latency_ms d / 100)
                   + reliability_weight weights * (0.8 + noise)
                   + 0.1 * Qmin 1 (inject_Z (available_instances d) / 20)
                   + 0.1 * Qmin 0.2 (credits / 1000)
    end.
Proof.
  intros weights noise workload d. unfold _calculate_provider_score, div.
  assert (E1 : 1.0 == 1) by reflexivity.
  assert (E2 : 20.0 == 20) by reflexivity.
  assert (E3 : 100.0 == 100) by reflexivity.
  assert (E4 : 1000.0 == 1000) by reflexivity.
  destruct (Qeq_bool (1.0 + cost_per_hour d) 0) eqn:Ec; cbn [rbind].
  { left. split; [reflexivity|]. left. apply Qeq_bool_iff in Ec. rewrite E1 in Ec. lra. }
  apply Qeq_bool_neq in Ec. rewrite E1 in Ec.
  assert (Hc : ~ cost_per_hour d == -1) by (intro H; apply Ec; rewrite H; reflexivity).
  destruct (Qeq_bool (1.0 + latency_ms d / 100.0) 0) eqn:El; cbn [rbind].
  { left. split; [reflexivity|]. right. apply Qeq_bool_iff in El.
    rewrite E1, E3 in El. unfold Qdiv in El.
    assert (H100 : / 100 == 1 # 100) by reflexivity. rewrite H100 in El. lra. }
  apply Qeq_bool_neq in El. rewrite E1, E3 in El.
  assert (Hl : ~ latency_ms d == -100).
  { intro H. apply El. rewrite H. reflexivity. }
  destruct (credits_available d) as [credits|]; cbn [rbind].
  - split; [exact Hc|]. split; [exact Hl|]. exists credits. split; [reflexivity|].
    rewrite !min2_Qmin. rewrite E1, E2, E3, E4. unfold Qdiv. ring.
  - right. split; [reflexivity|]. split; [reflexivity|]. split; assumption.
Qed.



(** ** Instances of the properties of the stores *)

Lemma get_decision_history_slices_witness :
  exists older,
    decision_history
      (snd (calculate_optimal_placement two_core_workload
              (snd (calculate_optimal_placement example_workload (initial_engine 0.05 0.50)))))
    = older
      ++ get_decision_history 1
           (snd (calculate_optimal_placement two_core_workload
                   (snd (calculate_optimal_placement example_workload
                           (initial_engine 0.05 0.50))))) /\
    List.length older = 1%nat.
Proof.
  destruct (get_decision_history_slices
              (snd (calculate_optimal_placement two_core_workload
                      (snd (calculate_optimal_placement example_workload
                              (initial_engine 0.05 0.50))))))
    as (Hlast & _ & _).
  destruct (Hlast 1%Z ltac:(lia)) as (older & Hsplit & Hlen).
  exists older. split; [exact Hsplit|].
  apply (f_equal (@List.length _)) in Hsplit. rewrite length_app, Hlen in Hsplit.
  assert (Hh : List.length
                 (decision_history
                    (snd (calculate_optimal_placement two_core_workload
                            (snd (calculate_optimal_placement example_workload
                                    (initial_engine 0.05 0.50))))))
               = 2%nat) by (vm_compute; reflexivity).
  rewrite Hh in Hsplit. change (Z.to_nat 1) with 1%nat in Hsplit.
  change (Nat.min 1 2) with 1%nat in Hsplit. lia.
Defined.

Lemma store_telemetry_bounded_and_current_witness :
  _get_current_provider_states (snd (store_telemetry busy_aws_telemetry (initial_engine 0.05 0.50)))
  = tel_providers busy_aws_telemetry /\
  telemetry_data (snd (store_telemetry busy_aws_telemetry (initial_engine 0.05 0.50)))
  = [busy_aws_telemetry].
Proof.
  destruct (store_telemetry_bounded_and_current busy_aws_telemetry (initial_engine 0.05 0.50))
    as (_ & _ & (dropped & Hsplit & Hnone & _) & Hcur & _).
  split; [exact Hcur|].
  rewrite (Hnone ltac:(simpl; lia)) in Hsplit. symmetry. exact Hsplit.
Defined.

Lemma fetched_telemetry_shape_witness :
  region
    (_fetch_aws_telemetry
       (Listed ["t3.medium"; "t3.small"] (mkAwsReadings (Ok "eu-west-1") 0 0.2 1.3))
       (initial_engine 0.05 0.50)) = "us-east-1" /\
  0.0416 <= cost_per_hour
              (_fetch_aws_telemetry
                 (Listed ["t3.medium"; "t3.small"] (mkAwsReadings (Ok "eu-west-1") 0 0.2 1.3))
                 (initial_engine 0.05 0.50)) <= 0.1 /\
  0 <= memory_utilization
         (_fetch_aws_telemetry
            (Listed ["t3.medium"; "t3.small"] (mkAwsReadings (Ok "eu-west-1") 0 0.2 1.3))
            (initial_engine 0.05 0.50)) <= 1.
Proof.
  destruct (fetched_telemetry_shape 0
              (Listed ["t3.medium"; "t3.small"] (mkAwsReadings (Ok "eu-west-1") 0 0.2 1.3))
              (mkAlibabaDraws 0 0.4 0.5 15 800) (initial_engine 0.05 0.50))
    as (_ & _ & (Hregion & _) & _ & Hlisted & _).
  destruct (Hlisted ["t3.medium"; "t3.small"] (mkAwsReadings (Ok "eu-west-1") 0 0.2 1.3)
              eq_refl)
    as (_ & Hmem & _ & _ & Hprice).
  destruct (Hprice ltac:(discriminate)) as (_ & Hlo & Hhi).
  split; [exact Hregion|]. split; [|exact Hmem]. split.
  - eapply Qle_trans; [|exact Hlo]. vm_compute. discriminate.
  - eapply Qle_trans; [exact Hhi|]. vm_compute. discriminate.
Defined.

(** ** Start-up *)

(** What [main] does right after building the engine ([__init__] leaves no
    telemetry and the simulated costs 0.05 and 0.50): it places the example
    workload on AWS in ['us-east-1'] and hands Terraform a plan that scales
    AWS up to two instances and Alibaba down to zero.  Every Terraform event
    carries that plan; [terraform apply] is started with it unless its
    set-up fails, then the rollback is, and no run at all when the rollback
    cannot be started either.  No approval item is created and neither
    [cost_threshold] nor [auto_deploy_enabled] is consulted, whatever the
    model and the thresholds are. *)
Theorem startup_deploys_without_approval :
  forall (self : Engine),
    telemetry_data self = [] ->
    aws_simulated_cost self = 0.05 ->
    alibaba_simulated_cost self = 0.50 ->
    exists plan self' evs dec,
      main_startup self = (Ok plan, self') /\
      tf_workload_id plan = "workload-001" /\
      tf_provider plan = "aws" /\
      tf_region plan = "us-east-1" /\
      single_active_provider example_workload plan /\
      scales_up_only "aws" 2 plan /\
      trace self' = trace self ++ evs /\
      Forall (terraform_only_with plan) evs /\
      terraform_started (terraform_outcome self plan) plan evs /\
      decision_history self' = decision_history self ++ [dec] /\
      selected_provider dec = "aws" /\
      pending_workloads self' = pending_workloads self.
Proof.
  intros self Htel Haws Hali.
  pose proof (default_states self Htel) as Hstates.
  destruct (default_placement example_workload self Htel)
    as (winner & where_ & confidence & s1 & dec & Hplace & Hwho & Hfirst & _
        & Hf1 & Hdec & _ & Hsel).
  { intros n d Hin. rewrite Hstates, Haws, Hali in Hin.
    destruct Hin as [E | [E | []]]; injection E as _ <-; vm_compute; reflexivity. }
  assert (Hw : winner = "aws").
  { apply Hfirst. rewrite Haws, Hali. vm_compute. discriminate. }
  assert (Hr : where_ = "us-east-1").
  { destruct Hwho as [[_ H] | [H _]]; [exact H | congruence]. }
  rewrite Hw, Hr in Hplace. rewrite Hw in Hsel.
  destruct (generate_effect example_workload "aws" "us-east-1" s1)
    as (plan & s2 & evs2 & Hgen & Hf2 & Htr2 & Hall2 & Hstart & Hpid & Hpp & Hpr & Hup).
  assert (Hrun : main_startup self = (Ok plan, s2)).
  { unfold main_startup. cbv zeta.
    change (mkWorkload "workload-001" 4 8 "high" 0.7 0.5 24.0) with example_workload.
    unfold bind at 1. rewrite Hplace. unfold bind at 1. rewrite Hgen. reflexivity. }
  destruct Hf1 as (_ & _ & _ & Hp1 & _ & _ & _ & _ & _ & _ & Hout & (evs1 & Htr1 & Hall1) & _).
  pose proof (frame_no_decision _ _ _ Hf2) as Hd2.
  destruct Hf2 as (_ & _ & _ & Hp2 & _).
  rewrite Hout in Hstart.
  destruct (Hup (or_introl eq_refl)) as [Hsingle Hscale].
  exists plan, s2, (evs1 ++ evs2), dec.
  split; [exact Hrun|]. split; [exact Hpid|]. split; [exact Hpp|]. split; [exact Hpr|].
  split; [exact Hsingle|]. split; [exact Hscale|].
  split; [rewrite Htr2, Htr1, app_assoc; reflexivity|].
  split.
  { apply Forall_app. split; [|exact Hall2].
    eapply Forall_impl; [|exact Hall1]. intros [r| | |] H; simpl in *; tauto. }
  split; [now apply terraform_started_after_logs|].
  split; [rewrite Hd2, Hdec; reflexivity|].
  split; [exact Hsel|].
  rewrite Hp2, Hp1. reflexivity.
Qed.

Lemma startup_deploys_without_approval_witness :
  exists plan self',
    main_startup (initial_engine 0.05 0.50) = (Ok plan, self') /\
    tf_provider plan = "aws" /\
    In (TerraformApply plan) (trace self') /\
    pending_workloads self' = [].
Proof.
  destruct (startup_deploys_without_approval (initial_engine 0.05 0.50) eq_refl eq_refl eq_refl)
    as (plan & self' & evs & dec & Hrun & _ & Hprov & _ & _ & _ & Htr & _ & Hstart & _ & _
        & Hpend).
  exists plan, self'. split; [exact Hrun|]. split; [exact Hprov|].
  split; [rewrite Htr; exact Hstart | exact Hpend].
Defined.

(** ** What holds in every state the engine can reach *)

Lemma preserves_ret {A} (a b : Q) (x : A) : preserves a b (ret x).
Proof. intros s H. exact H. Qed.

Lemma preserves_bind {A B} (a b : Q) (c : M A) (k : A -> M B) :
  preserves a b c -> (forall x, preserves a b (k x)) -> preserves a b (bind c k).
Proof.
  intros Hc Hk s H. unfold bind. specialize (Hc s H).
  destruct (c s) as [[x|e] s1]; cbn [snd] in *; [now apply Hk | exact Hc].
Qed.

Lemma preserves_try {A} (a b : Q) (c : M A) (h : exn -> M A) :
  preserves a b c -> (forall e, preserves a b (h e)) -> preserves a b (try_except c h).
Proof.
  intros Hc Hh s H. unfold try_except. specialize (Hc s H).
  destruct (c s) as [[x|e] s1]; cbn [snd] in *; [exact Hc | now apply Hh].
Qed.

Lemma preserves_of_framed {A} (a b : Q) (PE : Event -> Prop) (PD : Decision -> Prop) (c : M A) :
  framed PE PD c -> preserves a b c.
Proof.
  intros Hc s (Ha & Hb & Hitems). specialize (Hc s).
  destruct Hc as (_ & _ & _ & Hp & _ & _ & _ & Ha' & Hb' & _).
  unfold costs_and_items. rewrite Ha', Hb', Hp. now repeat split.
Qed.

Lemma preserves_queue (a b : Q) (workload : Workload) (savings : Q) (why : Reason) :
  preserves a b (_queue_for_approval workload savings why).
Proof.
  intros s (Ha & Hb & Hitems). rewrite queue_for_approval_spec. cbn [snd].
  unfold costs_and_items. cbn [aws_simulated_cost alibaba_simulated_cost pending_workloads
                               set_pending_workloads set_clock].
  split; [exact Ha|]. split; [exact Hb|].
  apply Forall_app. split; [exact Hitems|]. constructor; [|constructor].
  unfold placement_item, queued_item, recommended_for, _get_aws_cost, _get_alibaba_cost.
  cbn [req_keys status aws_simulated_cost alibaba_simulated_cost set_clock].
  rewrite Ha, Hb. split; [reflexivity | discriminate].
Qed.

Lemma preserves_process (a b : Q) (workload : Workload) :
  preserves a b (process_workload workload).
Proof.
  assert (Hlog : forall A (c : M A),
             framed is_log (decided_for workload) c -> preserves a b c).
  { intros A c Hc. eapply preserves_of_framed. exact Hc. }
  assert (Halert : forall m sev, preserves a b (send_alert m sev)).
  { intros m sev. apply (preserves_of_framed a b (fun _ => True) (fun _ => True)).
    apply framed_send_alert. exact I. }
  unfold process_workload. apply preserves_try.
  - apply preserves_bind; [apply Hlog, placement_framed|]. intros [[provider region] confidence].
    apply preserves_bind; [apply Hlog, framed_gets|]. intro providers.
    apply preserves_bind; [apply Hlog, framed_lift|]. intro provider_data.
    apply preserves_bind; [apply Hlog, check_cost_threshold_framed|]. intros [|]; cbn [negb].
    + apply preserves_bind; [apply Hlog, framed_gets|]. intro aws_cost.
      apply preserves_bind; [apply Hlog, framed_gets|]. intro alibaba_cost.
      apply preserves_bind; [apply Hlog, framed_gets|]. intro auto.
      apply preserves_bind; [apply Hlog, framed_gets|]. intro threshold.
      destruct (auto && Qltb threshold (Qabs (aws_cost - alibaba_cost))).
      * apply Hlog, deploy_workload_object_framed.
      * apply preserves_queue.
    + apply preserves_bind; [apply Hlog, framed_gets|]. intro threshold.
      apply preserves_bind; [apply Hlog, framed_emit; exact I|]. intros _.
      apply preserves_bind; [apply preserves_queue|]. intros _.
      apply Halert.
  - intro e. apply preserves_bind; [apply Hlog, framed_emit; exact I|]. intros _.
    apply Halert.
Qed.

Lemma stays_resolved_items (a b : Q) (l l' : list ApprovalRequest) :
  stays_resolved l l' -> Forall (placement_item a b) l -> Forall (placement_item a b) l'.
Proof.
  unfold stays_resolved. intro H. induction H as [|x y l l' [Hxy Hres] _ IH]; intro Hall.
  - constructor.
  - inversion Hall as [|? ? [Hkeys Hst] Hall']; subst. constructor; [|now apply IH].
    split.
    + rewrite Hxy. exact Hkeys.
    + intro Hsw.
      assert (Hdec : status y = status x \/ status y <> status x).
      { destruct (status y), (status x);
          first [left; reflexivity | right; discriminate]. }
      destruct Hdec as [Heq | Hne].
      * apply Hst. congruence.
      * destruct (Hres Hne) as [H | H]; congruence.
Qed.

Lemma preserves_approve (a b : Q) (wid : string) (approve : bool) :
  preserves a b (approve_workload wid approve).
Proof.
  intros s (Ha & Hb & Hitems).
  pose proof (approve_workload_step wid approve s) as Hstep.
  assert (Hcosts : exists r s',
             approve_workload wid approve s = (r, s') /\
             aws_simulated_cost s' = aws_simulated_cost s /\
             alibaba_simulated_cost s' = alibaba_simulated_cost s).
  { unfold approve_workload. unfold bind at 1. unfold gets at 1.
    destruct (set_first_status wid (if approve then approved else rejected)
                (pending_workloads s)) as [[hit l']|].
    - unfold bind at 1. unfold modify at 1. destruct approve.
      + pose proof (deploy_framed hit (set_pending_workloads (fun _ => l') s)) as Hf.
        destruct (_deploy_workload (ItemDict hit) (set_pending_workloads (fun _ => l') s))
          as [r s']. cbn [snd] in *.
        destruct Hf as (_ & _ & _ & _ & _ & _ & _ & Ha' & Hb' & _).
        exists r, s'. split; [reflexivity|]. split; assumption.
      + eexists _, _. split; [reflexivity|]. split; reflexivity.
    - eexists _, _. split; [reflexivity|]. split; reflexivity. }
  destruct Hcosts as (r & s' & E & Ha' & Hb'). rewrite E in *. cbn [snd] in *.
  unfold costs_and_items. rewrite Ha', Hb'.
  split; [exact Ha|]. split; [exact Hb|].
  eapply stays_resolved_items; [exact Hstep | exact Hitems].
Qed.

Lemma preserves_operation (a b : Q) (op : Operation) : preserves a b (run_operation op).
Proof.
  destruct op as [workload | wid approve | | time probe draws | conditions env | |];
    cbn [run_operation].
  - apply preserves_process.
  - apply preserves_approve.
  - intros s H. rewrite monitoring_iteration_state. exact H.
  - intros s H. unfold collect_telemetry_iteration. rewrite store_telemetry_state. exact H.
  - intros s H. exact H.
  - intros s H. exact H.
  - apply preserves_bind; [|intro; apply preserves_ret].
    unfold main_startup. cbv zeta.
    apply preserves_bind.
    + eapply preserves_of_framed. apply placement_framed.
    + intros [[provider region] confidence].
      apply preserves_bind; [|intro; apply preserves_ret].
      intros s H.
      destruct (generate_effect (mkWorkload "workload-001" 4 8 "high" 0.7 0.5 24.0)
                  provider region s) as (plan & s' & evs & Hgen & Hf & _).
      rewrite Hgen. cbn [snd].
      destruct H as (Ha & Hb & Hitems).
      destruct Hf as (_ & _ & _ & Hp & _ & _ & _ & Ha' & Hb' & _).
      unfold costs_and_items. rewrite Ha', Hb', Hp. now repeat split.
Qed.

Lemma run_operations_preserve (a b : Q) (ops : list Operation) (s : Engine) :
  costs_and_items a b s -> costs_and_items a b (run_operations ops s).
Proof.
  revert s. induction ops as [|op ops IH]; intros s H; cbn [run_operations]; [exact H|].
  apply IH. now apply preserves_operation.
Qed.

(** From an engine without approval items, whatever sequence of method
    calls, background iterations and start-ups follows: the simulated costs
    never change; every approval item is a placement request that records
    these two costs and recommends the provider with the lower one (AWS on a
    tie); no switch request ever exists; so [_get_running_workloads] never
    raises, and every running workload is listed on that one provider. *)
Theorem reachable_states_keep_costs_and_recommendation :
  forall (ops : list Operation) (self : Engine),
    pending_workloads self = [] ->
    aws_simulated_cost (run_operations ops self) = aws_simulated_cost self /\
    alibaba_simulated_cost (run_operations ops self) = alibaba_simulated_cost self /\
    Forall (fun item =>
              req_keys item
              = PlacementKeys (aws_simulated_cost self) (alibaba_simulated_cost self)
                  (recommended_for (aws_simulated_cost self) (alibaba_simulated_cost self)) /\
              status item <> pending_switch_approval)
      (pending_workloads (run_operations ops self)) /\
    exists running,
      _get_running_workloads (run_operations ops self) = Ok running /\
      Forall (fun workload =>
                run_provider workload
                = recommended_for (aws_simulated_cost self) (alibaba_simulated_cost self))
        running.
Proof.
  intros ops self Hempty.
  destruct (run_operations_preserve (aws_simulated_cost self) (alibaba_simulated_cost self)
              ops self) as (Ha & Hb & Hitems).
  { unfold costs_and_items. rewrite Hempty. repeat split. constructor. }
  split; [exact Ha|]. split; [exact Hb|]. split; [exact Hitems|].
  unfold _get_running_workloads.
  induction (pending_workloads (run_operations ops self)) as [|item l IH].
  - exists []. split; [reflexivity | constructor].
  - inversion Hitems as [|? ? [Hkeys Hst] Hrest]; subst.
    destruct (IH Hrest) as (running & Hrun & Hall).
    cbn [running_of]. unfold item_recommended_provider. rewrite Hkeys, Hrun.
    destruct (status item); cbn [rbind];
      try (exists running; split; [reflexivity | exact Hall]).
    eexists. split; [reflexivity|]. constructor; [reflexivity | exact Hall].
Qed.

Lemma reachable_states_keep_costs_and_recommendation_witness :
  exists running,
    _get_running_workloads
      (run_operations
         [Startup; Process example_workload; Approve "workload-001" true; MonitoringPass;
          CollectTelemetry 0 (ListingFailed (mkAwsReadings (Ok "eu-west-1") 0 0.2 0.3))
            (mkAlibabaDraws 0 0.4 0.5 15 800);
          Process two_core_workload]
         (initial_engine 0.05 0.50))
    = Ok running /\
    Forall (fun workload => run_provider workload = "aws") running.
Proof.
  destruct (reachable_states_keep_costs_and_recommendation
              [Startup; Process example_workload; Approve "workload-001" true; MonitoringPass;
               CollectTelemetry 0 (ListingFailed (mkAwsReadings (Ok "eu-west-1") 0 0.2 0.3))
                 (mkAlibabaDraws 0 0.4 0.5 15 800);
               Process two_core_workload]
              (initial_engine 0.05 0.50) eq_refl)
    as (_ & _ & _ & running & Hrun & Hall).
  exists running. split; [exact Hrun | exact Hall].
Defined.
